(** * HYBB Utility App: request sheet, dashboards and admin review

    A shallow embedding of [app.py].  The script is a Streamlit page over two
    services: a Google Sheet (the worksheet "Requests", read with
    [get_all_values], written with [append_row] and [update_cell]) and a
    shared Drive folder receiving the photographs.  Each run of the script
    is modelled as a function from the widget values and the state of the
    services to what the page shows and the new state of the services.

    Conventions.
    - A Python [str] is a Rocq [string]; in the text that users type and
      that cells hold, a character is one of the 256 values of [ascii],
      read as the code point of that number (Latin-1), and text with code
      points above 255 is outside the model.  The messages of the page are
      the literals of the script, a pictograph being its UTF-8 bytes; no
      function reads them.
    - Library functions whose behaviour is not fixed by the script (the
      Drive reply, pandas' [to_datetime], [datetime.strptime], the regular
      expressions of [re], a text box of Streamlit given a series) are
      the fields of the class [Library].
    - A view is a function of the worksheet, whose calls are taken to
      return; it is [None] where the script raises by itself ([KeyError],
      [re.error]).
    - The runs that write are computations of the type [Run]: they leave
      the state of the services whether they return or an exception ends
      them, and a call to a service can raise.  A call that raises leaves
      the service as it was; a call that the service applies and that
      raises all the same leaves the state of a run cut at the next
      call. *)

From Stdlib Require Import Ascii String Decimal DecimalString DecimalNat.
From stdpp Require Import gmap strings list.

Local Open Scope string_scope.
Local Open Scope list_scope.
Local Open Scope nat_scope.

(** ** Text *)

Module Text.

(** [bool(s)] of a Python string. *)
Definition truthy (s : string) : bool :=
  match s with
  | EmptyString => false
  | String _ _ => true
  end.

(** [str.isspace] on one character of the Latin-1 range: TAB, LF, VT, FF,
    CR, the separators FS, GS, RS, US, the space, NEL and NBSP. *)
Definition isspace (c : ascii) : bool :=
  let n := nat_of_ascii c in
  (((9 <=? n) && (n <=? 13)) || ((28 <=? n) && (n <=? 32))
   || (n =? 133) || (n =? 160))%nat.

Fixpoint lstrip (s : string) : string :=
  match s with
  | EmptyString => EmptyString
  | String c s' => if isspace c then lstrip s' else s
  end.

Definition rstrip (s : string) : string := String.rev (lstrip (String.rev s)).

(** [s.strip()] *)
Definition strip (s : string) : string := rstrip (lstrip s).

(** Lower case of a character, [A-Z] and the Latin-1 capitals. *)
Definition lower (c : ascii) : ascii :=
  let n := nat_of_ascii c in
  if (((65 <=? n) && (n <=? 90))
      || ((192 <=? n) && (n <=? 222) && negb (n =? 215)))%nat
  then ascii_of_nat (n + 32) else c.

Definition eq_ci (a b : ascii) : bool := bool_decide (lower a = lower b).

Fixpoint prefix_ci (p s : string) : bool :=
  match p, s with
  | EmptyString, _ => true
  | String _ _, EmptyString => false
  | String a p', String b s' => eq_ci a b && prefix_ci p' s'
  end.

(** [p] occurs in [s] when case is ignored. *)
Fixpoint contains_ci (p s : string) : bool :=
  prefix_ci p s ||
  match s with
  | EmptyString => false
  | String _ s' => contains_ci p s'
  end.

(** The characters that are operators in a pattern of [re]. *)
Definition special (c : ascii) : bool :=
  bool_decide (c ∈ list_ascii_of_string ".^$*+?{}[]\|()").

Fixpoint literal (p : string) : bool :=
  match p with
  | EmptyString => true
  | String c p' => negb (special c) && literal p'
  end.

(** Decimal numeral of a natural number, and [str.zfill]. *)
Definition decimal (n : nat) : string := NilEmpty.string_of_uint (Nat.to_uint n).

Fixpoint zeros (n : nat) : string :=
  match n with
  | 0 => EmptyString
  | S n' => String "0" (zeros n')
  end.

Definition zfill (w : nat) (s : string) : string :=
  zeros (w - String.length s) +:+ s.

End Text.

(** ** Dates and [strftime] *)

Module Dates.

Inductive Month :=
  Jan | Feb | Mar | Apr | May | Jun | Jul | Aug | Sep | Oct | Nov | Dec.

Definition month_number (m : Month) : nat :=
  match m with
  | Jan => 1 | Feb => 2 | Mar => 3 | Apr => 4 | May => 5 | Jun => 6
  | Jul => 7 | Aug => 8 | Sep => 9 | Oct => 10 | Nov => 11 | Dec => 12
  end.

Definition month_abbr (m : Month) : string :=
  match m with
  | Jan => "Jan" | Feb => "Feb" | Mar => "Mar" | Apr => "Apr"
  | May => "May" | Jun => "Jun" | Jul => "Jul" | Aug => "Aug"
  | Sep => "Sep" | Oct => "Oct" | Nov => "Nov" | Dec => "Dec"
  end.

(** [datetime.date] *)
Record date := { d_year : nat; d_month : Month; d_day : nat }.

(** [datetime.datetime] (and a pandas [Timestamp]), to the second. *)
Record datetime := {
  year : nat; month : Month; day : nat;
  hour : nat; minute : nat; second : nat
}.

(** [t.date()] *)
Definition date_of (t : datetime) : date :=
  {| d_year := year t; d_month := month t; d_day := day t |}.

(** One directive of [strftime]; the script uses these nine. *)
Definition directive (c : ascii) (t : datetime) : string :=
  match c with
  | "Y"%char => Text.zfill 4 (Text.decimal (year t))
  | "m"%char => Text.zfill 2 (Text.decimal (month_number (month t)))
  | "d"%char => Text.zfill 2 (Text.decimal (day t))
  | "H"%char => Text.zfill 2 (Text.decimal (hour t))
  | "M"%char => Text.zfill 2 (Text.decimal (minute t))
  | "S"%char => Text.zfill 2 (Text.decimal (second t))
  | "b"%char => month_abbr (month t)
  | "I"%char =>
      Text.zfill 2 (Text.decimal (if (hour t mod 12 =? 0)%nat then 12 else hour t mod 12))
  | "p"%char => if (hour t <? 12)%nat then "AM" else "PM"
  | _ => String "%" (String c EmptyString)
  end.

(** [t.strftime(fmt)] *)
Fixpoint strftime (fmt : string) (t : datetime) : string :=
  match fmt with
  | EmptyString => EmptyString
  | String "%" (String c rest) => directive c t +:+ strftime rest t
  | String c rest => String c (strftime rest t)
  end.

End Dates.

Export Dates.

#[global] Instance Month_eq_dec : EqDecision Month.
Proof. solve_decision. Defined.

#[global] Instance date_eq_dec : EqDecision date.
Proof. solve_decision. Defined.

#[global] Instance datetime_eq_dec : EqDecision datetime.
Proof. solve_decision. Defined.

(** ** The two services *)

Module Sheets.

Abbreviation Row := (list string).

(** The worksheet: its rows from the first one, each row the cells it
    holds from column A.  A cell that is not held is empty, and a cell
    holds the text it was given: what a spreadsheet makes of a text that
    reads as a number, a date or a formula is outside the model. *)
Abbreviation Sheet := (list (list string)).

Definition pad (w : nat) (r : Row) : Row := r ++ replicate (w - length r) "".

Definition width (s : Sheet) : nat := max_list (length <$> s).

(** [sheet.get_all_values()]: every row, filled up to the longest one. *)
Definition get_all_values (s : Sheet) : list Row := pad (width s) <$> s.

(** [sheet.append_row(values)] *)
Definition append_row (values : Row) (s : Sheet) : Sheet := s ++ [values].

(** Writing at position [n] of a list, filling with [d] up to it. *)
Fixpoint assign {A} (d : A) (n : nat) (x : A) (l : list A) : list A :=
  match n, l with
  | 0, [] => [x]
  | 0, _ :: l' => x :: l'
  | S n', [] => d :: assign d n' x []
  | S n', y :: l' => y :: assign d n' x l'
  end.

(** [sheet.update_cell(row, col, value)]; rows and columns count from 1,
    and a label below 1 is refused. *)
Definition update_cell (row col : nat) (value : string) (s : Sheet) : option Sheet :=
  match row, col with
  | S r, S c => Some (assign [] r (assign "" c value (nth r s [])) s)
  | _, _ => None
  end.

(** What the worksheet holds at a label. *)
Definition cell (s : Sheet) (row col : nat) : string :=
  match row, col with
  | S r, S c => nth c (nth r s []) ""
  | _, _ => ""
  end.

End Sheets.

Export Sheets.

Module Drive.

(** A file of the shared drive: metadata and content. *)
Record DriveFile := {
  f_name : string;
  f_parents : list string;
  f_mimetype : string;
  f_media : list Byte.byte
}.

(** [f"{v}"] of the value of [dict.get]. *)
Definition format_value (v : option string) : string := default "None" v.

End Drive.

Export Drive.

(** ** Library functions *)

Class Library := {
  (** the dictionary returned by [files().create(...).execute()], given
      the files already there and the new one *)
  drive_create : list DriveFile → DriveFile → gmap string string;
  (** [pd.to_datetime(column, errors="coerce")]; [None] is [NaT] *)
  to_datetime : list string → list (option datetime);
  (** [datetime.strptime(s, "%Y-%m-%d %H:%M:%S")]; [None] is [ValueError] *)
  strptime : string → option datetime;
  (** [re.compile(pat, re.IGNORECASE)], as the test [search(s) is not None];
      [None] is [re.error] *)
  re_compile : string → option (string → bool);
  (** [st.text_area(label, value=v)] for a series [v] of cells: the text
      of the box when it first renders; [None] when Streamlit raises on
      the value *)
  text_area : list string → option string
}.

(** What is known of these functions: [to_datetime] returns a value for
    each cell of the column, and a pattern without operators matches
    itself, whatever the case. *)
Class LibraryLaws (L : Library) : Prop := {
  to_datetime_length cells : length (to_datetime cells) = length cells;
  re_compile_literal pat :
    Text.literal pat = true →
    ∃ m, re_compile pat = Some m ∧ ∀ s, m s = Text.contains_ci pat s
}.

(** ** Frames *)

Module Frames.

(** A [DataFrame] of strings: column labels, and rows under their index
    label. *)
Record Frame := { columns : list string; rows : list (nat * Row) }.

(** [pd.DataFrame(data[1:], columns=data[0])] *)
Definition DataFrame (data : list Row) : Frame :=
  {| columns := hd [] data; rows := imap pair (tail data) |}.

Fixpoint positions (name : string) (cols : list string) (j : nat) : list nat :=
  match cols with
  | [] => []
  | c :: cols' =>
      if decide (c = name) then j :: positions name cols' (S j)
      else positions name cols' (S j)
  end.

(** The position of the column [name].  A label on no column is a
    [KeyError]; a label on several columns selects a frame where the
    script expects a series.  Both are [None]. *)
Definition get_loc (name : string) (cols : list string) : option nat :=
  match positions name cols 0 with
  | [j] => Some j
  | _ => None
  end.

(** [row[j]] *)
Definition at_ (j : nat) (r : nat * Row) : string := nth j r.2 "".

(** [df[name]] as the list of its values, given the position of [name]. *)
Definition column (j : nat) (df : Frame) : list string := at_ j <$> rows df.

(** What [row[name]] is for a row of [iterrows]: the cell under the
    label, or the series of the cells under it when several columns carry
    the label. *)
Inductive Value :=
| Scalar (v : string)
| Series (vs : list string).

(** [row[name]]; a label on no column is a [KeyError], [None]. *)
Definition item (name : string) (cols : list string) (r : nat * Row) : option Value :=
  match positions name cols 0 with
  | [] => None
  | [j] => Some (Scalar (at_ j r))
  | js => Some (Series ((λ j, at_ j r) <$> js))
  end.

(** *** [groupby([a, b]).size()] *)

Abbreviation Key := (string * string)%type.

Fixpoint bump (k : Key) (acc : list (Key * nat)) : list (Key * nat) :=
  match acc with
  | [] => [(k, 1)]
  | (k', n) :: acc' =>
      if decide (k = k') then (k', S n) :: acc' else (k', n) :: bump k acc'
  end.

Definition tally (keys : list Key) : list (Key * nat) :=
  foldl (λ acc k, bump k acc) [] keys.

Definition key_leb (a b : Key) : bool :=
  match Strings.String.compare a.1 b.1 with
  | Lt => true
  | Eq => Strings.String.leb a.2 b.2
  | Gt => false
  end.

Fixpoint insert_row (x : Key * nat) (l : list (Key * nat)) : list (Key * nat) :=
  match l with
  | [] => [x]
  | y :: l' => if key_leb x.1 y.1 then x :: l else y :: insert_row x l'
  end.

Definition sort_rows (l : list (Key * nat)) : list (Key * nat) :=
  foldr insert_row [] l.

(** The sizes of the groups of a two-column key, sorted by key; a row
    whose second key is missing ([NaN]) is in no group. *)
Definition groupby_size (keys : list (string * option string)) : list (Key * nat) :=
  sort_rows (tally (omap (λ '(a, b), pair a <$> b) keys)).

End Frames.

Export Frames.

(** ** Runs *)

Module Runs.

(** A run of a piece of the script over a service of state [S].  The
    state comes with the number of calls to the service that return
    before one raises, [None] when every call returns.  A run leaves a
    state, and its value unless an exception ended it. *)
Definition Run (S A : Type) : Type := S * option nat → (S * option nat) * option A.

Section Monad.
Context {S : Type}.

Definition ret {A} (a : A) : Run S A := λ st, (st, Some a).

Definition raise {A} : Run S A := λ st, (st, None).

Definition bind {A B} (f : A → Run S B) (m : Run S A) : Run S B :=
  λ st,
    match m st with
    | (st', Some a) => f a st'
    | (st', None) => (st', None)
    end.

(** The state of the service, as the run has it. *)
Definition state : Run S S := λ st, (st, Some st.1).

(** A value that a library gives, or the exception that it raises. *)
Definition or_raise {A} (o : option A) : Run S A :=
  match o with
  | Some a => ret a
  | None => raise
  end.

(** A call to the service: it raises when no call is left, and when the
    service refuses it. *)
Definition call {A} (f : S → option (S * A)) : Run S A :=
  λ st,
    match st.2 with
    | Some 0 => (st, None)
    | calls =>
        match f st.1 with
        | Some (s', a) => ((s', pred <$> calls), Some a)
        | None => (st, None)
        end
    end.

End Monad.

#[global] Instance run_ret {S} : MRet (Run S) := @ret S.
#[global] Instance run_bind {S} : MBind (Run S) := @bind S.
#[global] Instance run_fmap {S} : FMap (Run S) :=
  λ A B f m, bind (λ a, ret (f a)) m.

(** [for x in l: ...], with the values of the body. *)
Fixpoint for_each {S A B} (f : A → Run S B) (l : list A) : Run S (list B) :=
  match l with
  | [] => mret []
  | x :: l' => y ← f x; ys ← for_each f l'; mret (y :: ys)
  end.

End Runs.

Export Runs.

(** The calls of the script to the worksheet. *)
Module Service.

(** [sheet.get_all_values()] *)
Definition get_all_values : Run Sheet (list Row) :=
  call (λ s, Some (s, Sheets.get_all_values s)).

(** [sheet.append_row(values)] *)
Definition append_row (values : Row) : Run Sheet unit :=
  call (λ s, Some (Sheets.append_row values s, ())).

(** [sheet.update_cell(row, col, value)] *)
Definition update_cell (row col : nat) (value : string) : Run Sheet unit :=
  call (λ s, s' ← Sheets.update_cell row col value s; Some (s', ())).

End Service.

(** ** The script *)

Module App.

Definition SHARED_DRIVE_ID : string := "0AO88IQGAqsTKUk9PVA".

(** The state of the two services. *)
Record World := { sheet : Sheet; drive : list DriveFile }.

(** What a run writes on the page with [st.warning], [st.info] and
    [st.success]. *)
Inductive Message :=
| Warning (text : string)
| Info (text : string)
| Success (text : string).

(** What a view ends with: a message and nothing else, or its content. *)
Inductive Page (A : Type) :=
| Stopped (m : Message)
| Shown (content : A).
Arguments Stopped {A} m.
Arguments Shown {A} content.

(** [save_image_to_drive(image_data, creds)], with the reading of the
    clock that names the file: the link and the drive after the upload. *)
Definition save_image_to_drive `{Library} (now : datetime)
    (image_data : list Byte.byte) (files : list DriveFile) : string * list DriveFile :=
  let file_metadata :=
    {| f_name := "image_" +:+ strftime "%Y%m%d%H%M%S" now +:+ ".jpg";
       f_parents := [SHARED_DRIVE_ID];
       f_mimetype := "image/jpeg";
       f_media := image_data |} in
  let file := drive_create files file_metadata in
  let file_id := file !! "id" in
  ("https://drive.google.com/uc?export=view&id=" +:+ format_value file_id,
   files ++ [file_metadata]).

(** *** Submit Request *)

(** The widgets of the form; [picture] is [None] until a photo is taken. *)
Record Form := {
  kitchen : string;
  emp_name : string;
  emp_id : string;
  picture : option (list Byte.byte)
}.

(** A press of "Submit Request"; [now_upload] and [now_row] are the two
    readings of the clock, in the order of the script. *)
Definition submit_request `{Library} (now_upload now_row : datetime)
    (f : Form) (w : World) : World * Message :=
  if negb (forallb id [bool_decide (kitchen f ≠ "--Select--");
                       Text.truthy (emp_name f);
                       Text.truthy (emp_id f);
                       bool_decide (is_Some (picture f))])
  then (w, Warning "⚠️ Please fill all fields and take a photo.")
  else
    match picture f with
    | None => (* not reached: [picture] is set on this branch *)
        (w, Warning "⚠️ Please fill all fields and take a photo.")
    | Some image_data =>
        let '(img_url, files) := save_image_to_drive now_upload image_data (drive w) in
        ({| sheet := append_row [strftime "%Y-%m-%d %H:%M:%S" now_row;
                                 kitchen f; emp_name f; emp_id f; img_url;
                                 "Pending"; ""; ""] (sheet w);
            drive := files |},
         Success "✅ Request submitted successfully!")
    end.

(** A run over the worksheet, as a run over the two services. *)
Definition on_sheet {A} (m : Run Sheet A) : Run World A :=
  λ st,
    let '((s', calls), a) := m (sheet st.1, st.2) in
    (({| sheet := s'; drive := drive st.1 |}, calls), a).

(** [save_image_to_drive(image_data, creds)] as the call to the Drive
    that it makes. *)
Definition upload `{Library} (now : datetime) (image_data : list Byte.byte)
    : Run World string :=
  call (λ w, let '(img_url, files) := save_image_to_drive now image_data (drive w) in
             Some ({| sheet := sheet w; drive := files |}, img_url)).

(** A press of "Submit Request" as a run, whose two calls can raise: the
    upload, and then [append_row]. *)
Definition submit `{Library} (now_upload now_row : datetime) (f : Form)
    : Run World Message :=
  if negb (forallb id [bool_decide (kitchen f ≠ "--Select--");
                       Text.truthy (emp_name f);
                       Text.truthy (emp_id f);
                       bool_decide (is_Some (picture f))])
  then mret (Warning "⚠️ Please fill all fields and take a photo.")
  else
    match picture f with
    | None => (* not reached: [picture] is set on this branch *)
        mret (Warning "⚠️ Please fill all fields and take a photo.")
    | Some image_data =>
        img_url ← upload now_upload image_data;
        _ ← on_sheet (Service.append_row [strftime "%Y-%m-%d %H:%M:%S" now_row;
                                           kitchen f; emp_name f; emp_id f; img_url;
                                           "Pending"; ""; ""]);
        mret (Success "✅ Request submitted successfully!")
    end.

(** *** Dashboard *)

(** The column labels after [df[name] = ...]: a column of that label is
    written over, and the label is added when no column has it. *)
Definition assign_column (name : string) (cols : list string) : list string :=
  if decide (name ∈ cols) then cols else cols ++ [name].

(** Tanker Purchase Summary: the table of kitchen, month and number, which
    is also what the bar chart draws. *)
Definition tanker_summary `{Library} (s : Sheet) : option (Page (list (Key * nat))) :=
  let data := get_all_values s in
  if (length data <? 2)%nat then Some (Stopped (Info "No data available yet."))
  else
    let df := DataFrame data in
    t ← get_loc "Timestamp" (columns df);
    let timestamp := to_datetime (column t df) in
    let month := (λ ts : option datetime, strftime "%b %Y" <$> ts) <$> timestamp in
    let cols := assign_column "Month" (columns df) in
    k ← get_loc "Kitchen" cols;
    _ ← get_loc "Month" cols;
    Some (Shown (groupby_size (zip (column k df) month))).

(** A row of the frame of the dashboard: its cells, and its timestamp as
    [to_datetime] read it. *)
Record Ticket := {
  t_index : nat;
  t_cells : Row;
  t_timestamp : option datetime
}.

(** Ticket Status, for the values of the two filters. *)
Definition ticket_status `{Library} (kitchen_filter : string)
    (date_filter : option date) (s : Sheet) : option (Page (list Ticket)) :=
  let data := get_all_values s in
  if (length data <? 2)%nat then Some (Stopped (Info "No data available yet."))
  else
    let df := DataFrame data in
    t ← get_loc "Timestamp" (columns df);
    let timestamp := to_datetime (column t df) in
    k ← get_loc "Kitchen" (columns df);
    let filtered_df :=
      zip_with (λ r ts, {| t_index := r.1; t_cells := r.2; t_timestamp := ts |})
               (rows df) timestamp in
    let filtered_df :=
      if decide (kitchen_filter ≠ "All")
      then filter (λ x, nth k (t_cells x) "" = kitchen_filter) filtered_df
      else filtered_df in
    let filtered_df :=
      match date_filter with
      | Some d => filter (λ x, date_of <$> t_timestamp x = Some d) filtered_df
      | None => filtered_df
      end in
    Some (Shown filtered_df).

(** *** Admin Dashboard *)

(** [is_admin()], for the two inputs of the sidebar; [secrets] is
    [st.secrets]. *)
Definition is_admin (secrets : gmap string string) (password admin_name : string)
    : bool * string :=
  (bool_decide (password = default "admin123" (secrets !! "admin_password")),
   admin_name).

(** The two checks that open the admin dashboard: the message that ends
    the run, or [None] when the run goes on. *)
Definition admin_gate (secrets : gmap string string) (password admin_name : string)
    : option Message :=
  let '(is_admin_user, admin_name) := is_admin secrets password admin_name in
  if negb is_admin_user
  then Some (Warning "🔒 Please enter correct admin password.")
  else if negb (Text.truthy (Text.strip admin_name))
  then Some (Warning "Please enter your name/email in the sidebar to access Admin Dashboard.")
  else None.

Inductive AdminMenu := PendingRequests | AllRequests.

(** The buttons of a card, under the index label [i] of its row. *)
Inductive Click :=
| Approve (i : nat)
| Reject (i : nat)
| SaveComment (i : nat) (comment : string).

#[global] Instance Click_eq_dec : EqDecision Click.
Proof. solve_decision. Defined.

Definition click_index (c : Click) : nat :=
  match c with
  | Approve i | Reject i | SaveComment i _ => i
  end.

(** The calls of [update_cell] behind a button, in order. *)
Definition cell_updates (admin_name : string) (c : Click) : list (nat * nat * string) :=
  match c with
  | Approve i => [(i + 2, 6, "Approved"); (i + 2, 7, admin_name)]
  | Reject i => [(i + 2, 6, "Rejected"); (i + 2, 7, admin_name)]
  | SaveComment i comment => [(i + 2, 8, comment)]
  end.

(** What these calls make of the worksheet when they all return. *)
Definition run_updates (us : list (nat * nat * string)) (s : Sheet) : option Sheet :=
  foldl (λ acc u, acc ≫= update_cell u.1.1 u.1.2 u.2) (Some s) us.

(** The calls, one after the other. *)
Fixpoint issue (us : list (nat * nat * string)) : Run Sheet unit :=
  match us with
  | [] => mret ()
  | u :: us' => _ ← Service.update_cell u.1.1 u.1.2 u.2; issue us'
  end.

(** What the loop draws for one row, under the index label [i] that
    names its three buttons: the values that the page writes out. *)
Record Card := {
  c_index : nat;
  request_time_str : Value;
  c_kitchen : Value;
  c_employee_name : Value;
  c_employee_id : Value;
  c_status : Value;
  c_photo_url : Value;
  c_comments : string
}.

(** [st.text_area(label, value=v)]: the text of the comment box when it
    first renders.  A string is shown as it is. *)
Definition text_area_value `{Library} (v : Value) : option string :=
  match v with
  | Scalar text => Some text
  | Series vs => text_area vs
  end.

(** The body of the loop for one row; [pressed] is the button whose press
    started the run, if any.  A label on no column raises where the row is
    read under it: for "Timestamp" in the handler of the first failure,
    for "Comments" after the buttons "Approve" and "Reject", where the
    comment box can raise as well.  [strptime] raises on what is not a
    string, and the handler keeps the value. *)
Definition card `{Library} (cols : list string) (admin_name : string)
    (pressed : option Click) (r : nat * Row) : Run Sheet Card :=
  let i := r.1 in
  timestamp ← or_raise (item "Timestamp" cols r);
  let request_time_str :=
    match timestamp with
    | Scalar v =>
        match strptime v with
        | Some request_time => Scalar (strftime "%d %b %Y, %I:%M %p" request_time)
        | None => timestamp
        end
    | Series _ => timestamp
    end in
  kitchen ← or_raise (item "Kitchen" cols r);
  employee_name ← or_raise (item "Employee Name" cols r);
  employee_id ← or_raise (item "Employee ID" cols r);
  status ← or_raise (item "Status" cols r);
  photo_url ← or_raise (item "Photo URL" cols r);
  _ ← (if bool_decide (pressed = Some (Approve i))
       then issue (cell_updates admin_name (Approve i)) else mret ());
  _ ← (if bool_decide (pressed = Some (Reject i))
       then issue (cell_updates admin_name (Reject i)) else mret ());
  comment ← or_raise (item "Comments" cols r ≫= text_area_value);
  _ ← match pressed with
      | Some (SaveComment j comment) =>
          if bool_decide (j = i)
          then issue (cell_updates admin_name (SaveComment i comment)) else mret ()
      | _ => mret ()
      end;
  mret {| c_index := i;
          request_time_str := request_time_str;
          c_kitchen := kitchen;
          c_employee_name := employee_name;
          c_employee_id := employee_id;
          c_status := status;
          c_photo_url := photo_url;
          c_comments := comment |}.

(** The search box, applied to the rows that the other filters kept. *)
Definition search `{Library} (cols : list string) (search_text : string)
    (filtered_df : list (nat * Row)) : option (list (nat * Row)) :=
  if Text.truthy (Text.strip search_text)
  then
    n ← get_loc "Employee Name" cols;
    by_name ← re_compile search_text;
    e ← get_loc "Employee ID" cols;
    by_id ← re_compile search_text;
    Some (filter (λ r, by_name (at_ n r) || by_id (at_ e r)) filtered_df)
  else Some filtered_df.

(** The rows of the list of the admin dashboard, after the gate. *)
Definition admin_rows `{Library} (admin_menu : AdminMenu)
    (kitchen_filter status_filter search_text : string) (df : Frame)
    : option (list (nat * Row)) :=
  filtered_df ←
    match admin_menu with
    | PendingRequests =>
        st ← get_loc "Status" (columns df);
        Some (filter (λ r, at_ st r = "Pending") (rows df))
    | AllRequests => Some (rows df)
    end;
  k ← get_loc "Kitchen" (columns df);
  st ← get_loc "Status" (columns df);
  let filtered_df :=
    if decide (kitchen_filter ≠ "All")
    then filter (λ r, at_ k r = kitchen_filter) filtered_df else filtered_df in
  let filtered_df :=
    if decide (status_filter ≠ "All")
    then filter (λ r, at_ st r = status_filter) filtered_df else filtered_df in
  search (columns df) search_text filtered_df.

(** A run of the admin dashboard: the page that it ends with. *)
Definition admin_run `{Library} (secrets : gmap string string)
    (password admin_name : string) (admin_menu : AdminMenu)
    (kitchen_filter status_filter search_text : string) (pressed : option Click)
    : Run Sheet (Page (list Card)) :=
  match admin_gate secrets password admin_name with
  | Some m => mret (Stopped m)
  | None =>
      data ← Service.get_all_values;
      if (length data <? 2)%nat then mret (Stopped (Info "No requests found."))
      else
        let df := DataFrame data in
        filtered_df ← or_raise (admin_rows admin_menu kitchen_filter status_filter
                                  search_text df);
        if decide (filtered_df = [])
        then mret (Stopped (Info "No matching requests found."))
        else Shown <$> for_each (card (columns df) admin_name pressed) filtered_df
  end.

(** The page of a run in which no button is pressed and every call
    returns; [None] when an exception ends the run. *)
Definition admin_dashboard `{Library} (secrets : gmap string string)
    (password admin_name : string) (admin_menu : AdminMenu)
    (kitchen_filter status_filter search_text : string) (s : Sheet)
    : option (Page (list Card)) :=
  (admin_run secrets password admin_name admin_menu
     kitchen_filter status_filter search_text None (s, None)).2.

(** A run in which the button [c] is pressed and every call returns: the
    worksheet that the run leaves, and its page unless an exception ended
    it. *)
Definition admin_click `{Library} (secrets : gmap string string)
    (password admin_name : string) (admin_menu : AdminMenu)
    (kitchen_filter status_filter search_text : string) (c : Click) (s : Sheet)
    : Sheet * option (Page (list Card)) :=
  let '((s', _), page) :=
    admin_run secrets password admin_name admin_menu
      kitchen_filter status_filter search_text (Some c) (s, None) in
  (s', page).

(** *** Runs *)

Inductive Event :=
| SubmitRequest (now_upload now_row : datetime) (f : Form)
| AdminClick (password admin_name : string) (admin_menu : AdminMenu)
    (kitchen_filter status_filter search_text : string) (c : Click).

(** The state of the services after a run in which [calls] calls return
    ([None]: all of them), whether the run returns or an exception ends
    it. *)
Definition run `{Library} (secrets : gmap string string) (calls : option nat)
    (ev : Event) (w : World) : World :=
  match ev with
  | SubmitRequest now_upload now_row f => (submit now_upload now_row f (w, calls)).1.1
  | AdminClick password admin_name admin_menu kitchen_filter status_filter search_text c =>
      (on_sheet (admin_run secrets password admin_name admin_menu
                   kitchen_filter status_filter search_text (Some c)) (w, calls)).1.1
  end.

(** The states of the services that the script reaches from a worksheet
    holding its header row and an empty folder. *)
Inductive reachable `{Library} (secrets : gmap string string) : World → Prop :=
| reach_init header : reachable secrets {| sheet := [header]; drive := [] |}
| reach_run w calls ev w' :
    reachable secrets w → run secrets calls ev w = w' → reachable secrets w'.

End App.

Export App.

(** ** A library to run the examples with *)

Module Sample.

Definition digit (c : ascii) : option nat :=
  let n := nat_of_ascii c in
  if ((48 <=? n) && (n <=? 57))%nat then Some (n - 48) else None.

Fixpoint number (acc : nat) (s : string) : option nat :=
  match s with
  | EmptyString => Some acc
  | String c s' => d ← digit c; number (10 * acc + d) s'
  end.

Definition month_of_number (n : nat) : option Month :=
  match n with
  | 1 => Some Jan | 2 => Some Feb | 3 => Some Mar | 4 => Some Apr
  | 5 => Some May | 6 => Some Jun | 7 => Some Jul | 8 => Some Aug
  | 9 => Some Sep | 10 => Some Oct | 11 => Some Nov | 12 => Some Dec
  | _ => None
  end.

(** Reads ["YYYY-MM-DD HH:MM:SS"] and nothing else. *)
Definition iso (s : string) : option datetime :=
  if bool_decide (String.length s = 19
                  ∧ String.get 4 s = Some "-"%char ∧ String.get 7 s = Some "-"%char
                  ∧ String.get 10 s = Some " "%char
                  ∧ String.get 13 s = Some ":"%char ∧ String.get 16 s = Some ":"%char)
  then
    y ← number 0 (String.substring 0 4 s);
    mo ← number 0 (String.substring 5 2 s) ≫= month_of_number;
    d ← number 0 (String.substring 8 2 s);
    h ← number 0 (String.substring 11 2 s);
    mi ← number 0 (String.substring 14 2 s);
    se ← number 0 (String.substring 17 2 s);
    if bool_decide (1 ≤ d ≤ 31 ∧ h < 24 ∧ mi < 60 ∧ se < 60)%nat
    then Some {| year := y; month := mo; day := d; hour := h; minute := mi; second := se |}
    else None
  else None.

(** Patterns made of characters and of the dot, which stands for any
    character but the line feed; any other operator is refused. *)
Definition dot_ci (a b : ascii) : bool :=
  if bool_decide (a = "."%char) then negb (bool_decide (b = "010"%char))
  else Text.eq_ci a b.

Fixpoint match_here (p s : string) : bool :=
  match p, s with
  | EmptyString, _ => true
  | String _ _, EmptyString => false
  | String a p', String b s' => dot_ci a b && match_here p' s'
  end.

Fixpoint search_dot (p s : string) : bool :=
  match_here p s ||
  match s with
  | EmptyString => false
  | String _ s' => search_dot p s'
  end.

Fixpoint dotted (p : string) : bool :=
  match p with
  | EmptyString => true
  | String c p' => (bool_decide (c = "."%char) || negb (Text.special c)) && dotted p'
  end.

Definition compile (pat : string) : option (string → bool) :=
  if dotted pat then Some (search_dot pat) else None.

Definition reply (files : list DriveFile) (f : DriveFile) : gmap string string :=
  {[ "id" := "f" +:+ Text.decimal (length files) ]}.

(** A library for the examples: timestamps are read by [iso], the
    patterns are those of [compile], the folder numbers its files, and a
    text box refuses a series. *)
Definition library : Library := {|
  drive_create := reply;
  to_datetime := fmap iso;
  strptime := iso;
  re_compile := compile;
  text_area := λ _, None
|}.

Definition header : Row :=
  ["Timestamp"; "Kitchen"; "Employee Name"; "Employee ID"; "Photo URL";
   "Status"; "Reviewed By"; "Comments"].

(** A worksheet for the examples: three requests of January 2024 and a
    short row whose timestamp is no date. *)
Definition worksheet : Sheet :=
  [ header;
    ["2024-01-15 09:30:05"; "WFD01"; "Bob"; "E1";
     "https://drive.google.com/uc?export=view&id=f0"; "Pending"; ""; ""];
    ["2024-01-15 18:02:40"; "HSR01"; "alice"; "E2";
     "https://drive.google.com/uc?export=view&id=f1"; "Approved"; "carol"; "ok"];
    ["2024-01-16 07:00:00"; "WFD01"; "Bob"; "E1";
     "https://drive.google.com/uc?export=view&id=f2"; "Pending"; ""; ""];
    ["yesterday"; "WFD01"; "Zed"] ].

Definition time : datetime :=
  {| year := 2024; month := Jan; day := 15; hour := 9; minute := 30; second := 5 |}.

Definition form : Form :=
  {| kitchen := "WFD01"; emp_name := "Bob"; emp_id := "E1"; picture := Some [] |}.

(** The services before any request. *)
Definition world0 : World := {| sheet := [header]; drive := [] |}.

(** The services after one request. *)
Definition world1 : World :=
  Eval vm_compute in (@submit_request library time time form world0).1.

(** The services after the approval of that request by "alice". *)
Definition world2 : World :=
  Eval vm_compute in
    @run library ∅ None
      (AdminClick "admin123" "alice" PendingRequests "All" "All" "" (Approve 0))
      world1.

(** The cards of the pending view of [worksheet]. *)
Definition pending_cards : list Card :=
  Eval vm_compute in
    match @admin_dashboard library ∅ "admin123" "alice" PendingRequests
            "All" "All" "" worksheet with
    | Some (Shown cards) => cards
    | _ => []
    end.

End Sample.

(** ** The vocabulary of the specification *)

Module Spec.

(** The attributes of a request, in the order of the columns. *)
Inductive Field :=
  Timestamp | Site | EmployeeName | EmployeeId | PhotoUrl | Status | Reviewer | Comment.

(** The column of an attribute, counting from 1 as [update_cell] does. *)
Definition field_col (f : Field) : nat :=
  match f with
  | Timestamp => 1 | Site => 2 | EmployeeName => 3 | EmployeeId => 4
  | PhotoUrl => 5 | Status => 6 | Reviewer => 7 | Comment => 8
  end.

(** The stored requests: the rows under the header row. *)
Definition requests (s : Sheet) : list Row := tail (get_all_values s).

Definition field (f : Field) (r : Row) : string := nth (field_col f - 1) r "".

(** The attribute [f] of the request of index [i], empty when there is
    no such request. *)
Definition request_field (s : Sheet) (i : nat) (f : Field) : string :=
  field f (nth i (requests s) []).

(** The header row names the columns that the script reads by name at
    the positions where it writes them by number. *)
Definition header_ok (s : Sheet) : bool :=
  let cols := hd [] (get_all_values s) in
  bool_decide (get_loc "Timestamp" cols = Some 0
               ∧ get_loc "Kitchen" cols = Some 1
               ∧ get_loc "Employee Name" cols = Some 2
               ∧ get_loc "Employee ID" cols = Some 3
               ∧ get_loc "Photo URL" cols = Some 4
               ∧ get_loc "Status" cols = Some 5
               ∧ get_loc "Comments" cols = Some 7).

(** At most one column of the header row is named "Month", the name
    under which the summary stores the months. *)
Definition month_ok (s : Sheet) : bool :=
  bool_decide (length (positions "Month" (hd [] (get_all_values s)) 0) ≤ 1).

(** The timestamps of the requests as the dashboard reads them. *)
Definition timestamps `{Library} (s : Sheet) : list (option datetime) :=
  to_datetime (field Timestamp <$> requests s).

(** The requests with their index and their timestamp. *)
Definition tickets `{Library} (s : Sheet) : list Ticket :=
  imap (λ i x, {| t_index := i; t_cells := x.1; t_timestamp := x.2 |})
       (zip (requests s) (timestamps s)).

(** The rows of a table, none when the view ends with a message. *)
Definition table_of {A} (p : Page (list A)) : list A :=
  match p with
  | Shown t => t
  | Stopped _ => []
  end.

(** The name of a calendar month in the summary. *)
Definition month_label (y : nat) (m : Month) : string :=
  month_abbr m +:+ " " +:+ Text.zfill 4 (Text.decimal y).

(** The number of requests of a site in a calendar month. *)
Definition purchases `{Library} (s : Sheet) (site : string) (y : nat) (m : Month) : nat :=
  length (filter (λ x : string * option datetime,
                    x.1 = site ∧ (λ t, (year t, month t)) <$> x.2 = Some (y, m))
                 (zip (field Site <$> requests s) (timestamps s))).

Definition chars (s : string) : list ascii := list_ascii_of_string s.

(** [p] and [v] are the same text up to case. *)
Definition same_ci (p v : string) : Prop :=
  Text.lower <$> chars p = Text.lower <$> chars v.

(** [p] occurs in [s] as a substring, up to case. *)
Definition occurs_ci (p s : string) : Prop :=
  ∃ u v w, s = u +:+ v +:+ w ∧ same_ci p v.

(** [n] has a character that is not white space. *)
Definition nonblank (n : string) : Prop :=
  ∃ c, c ∈ chars n ∧ Text.isspace c = false.

Definition decided (v : string) : Prop :=
  v = "Pending" ∨ v = "Approved" ∨ v = "Rejected".

(** Every stored request has one of the three statuses. *)
Definition status_ok (s : Sheet) : Prop :=
  ∀ i, i < length (requests s) → decided (request_field s i Status).

(** The size that a table of groups records for a key. *)
Fixpoint size_of (k : Key) (acc : list (Key * nat)) : nat :=
  match acc with
  | [] => 0
  | (k', n) :: acc' => if decide (k = k') then n else size_of k acc'
  end.

(** The number of occurrences of a key. *)
Definition count (k : Key) (keys : list Key) : nat := length (filter (k =.) keys).

(** The number that a string of digits writes. *)
Definition value (s : string) : option nat :=
  Nat.of_uint <$> NilEmpty.uint_of_string s.

End Spec.

Export Spec.

(** ** The bar chart and the whole script *)

Module Whole.

(** *** [pivot(index="Month", columns="Kitchen", values=...).fillna(0)] *)

Fixpoint insert_label (x : string) (l : list string) : list string :=
  match l with
  | [] => [x]
  | y :: l' => if Strings.String.leb x y then x :: l else y :: insert_label x l'
  end.

(** The labels of an axis: each one once, in order. *)
Definition axis (l : list string) : list string :=
  foldr insert_label [] (remove_dups l).

(** The frame of the bar chart: a line for each month, a series for each
    kitchen, and 0 where the table has no row. *)
Record Chart := {
  chart_index : list string;
  chart_columns : list string;
  chart_values : list (list nat)
}.

(** [pivot] refuses a table in which a pair of month and kitchen comes
    twice ([ValueError]); [fillna(0)] fills the pairs that do not come. *)
Definition pivot_fillna (table : list (Key * nat)) : option Chart :=
  if decide (NoDup table.*1)
  then
    let index := axis (snd <$> table.*1) in
    let cols := axis (fst <$> table.*1) in
    Some {| chart_index := index;
            chart_columns := cols;
            chart_values := (λ m, (λ k, size_of (k, m) table) <$> cols) <$> index |}
  else None.

(** What [st.bar_chart] is given in the Tanker Purchase Summary. *)
Definition tanker_chart `{Library} (s : Sheet) : option (Page Chart) :=
  match tanker_summary s with
  | Some (Stopped m) => Some (Stopped m)
  | Some (Shown tanker_summary) => Shown <$> pivot_fillna tanker_summary
  | None => None
  end.

(** *** [main] *)

Inductive DashboardOption :=
| TankerPurchaseSummary
| TicketStatus (kitchen_filter : string) (date_filter : option date).

(** The entry of the sidebar menu with the values of its widgets, and the
    button pressed in this run, if any. *)
Inductive Menu :=
| MenuSubmit (f : Form) (pressed : bool) (now_upload now_row : datetime)
| MenuDashboard (dashboard_option : DashboardOption)
| MenuAdmin (password admin_name : string) (admin_menu : AdminMenu)
    (kitchen_filter status_filter search_text : string) (pressed : option Click).

(** What a run leaves on the page. *)
Inductive Screen :=
| CannotAccess (text : string)
| FormScreen (m : option Message)
| SummaryScreen (table : Page (list (Key * nat))) (chart : Page Chart)
| StatusScreen (tickets : Page (list Ticket))
| AdminScreen (cards : Page (list Card)) (m : option Message).

(** The message under a pressed button. *)
Definition click_message (c : Click) : Message :=
  match c with
  | Approve i => Success ("Request " +:+ Text.decimal (i + 1) +:+ " Approved")
  | Reject i => Success ("Request " +:+ Text.decimal (i + 1) +:+ " Rejected")
  | SaveComment _ _ => Success "Comment saved."
  end.

(** [main()]: one run of the script.  [connected] tells whether
    [connect_to_sheet()] returns; when it raises, the run shows the error
    and stops. *)
Definition main `{Library} (secrets : gmap string string) (connected : bool)
    (menu : Menu) : Run World Screen :=
  if negb connected
  then mret (CannotAccess
               "⚠️ Cannot access Google Sheet. Please check sharing and API permissions.")
  else
    match menu with
    | MenuSubmit f pressed now_upload now_row =>
        if pressed
        then m ← submit now_upload now_row f; mret (FormScreen (Some m))
        else mret (FormScreen None)
    | MenuDashboard dashboard_option =>
        (* the views read the worksheet with [get_all_values] *)
        _ ← on_sheet Service.get_all_values;
        w ← state;
        match dashboard_option with
        | TankerPurchaseSummary =>
            table ← or_raise (tanker_summary (sheet w));
            chart ← or_raise (tanker_chart (sheet w));
            mret (SummaryScreen table chart)
        | TicketStatus kitchen_filter date_filter =>
            tickets ← or_raise (ticket_status kitchen_filter date_filter (sheet w));
            mret (StatusScreen tickets)
        end
    | MenuAdmin password admin_name admin_menu kitchen_filter status_filter
        search_text pressed =>
        cards ← on_sheet (admin_run secrets password admin_name admin_menu
                            kitchen_filter status_filter search_text pressed);
        mret (AdminScreen cards
                (match pressed with
                 | Some c =>
                     if decide (click_index c ∈ c_index <$> table_of cards)
                     then Some (click_message c) else None
                 | None => None
                 end))
    end.

End Whole.

Export Whole.

(** ** More vocabulary *)

Module Terms.

(** The attributes that a request keeps from its creation. *)
Definition identity (f : Field) : Prop :=
  f ≠ Status ∧ f ≠ Reviewer ∧ f ≠ Comment.

(** [s'] keeps the header row and the requests of [s]: none is removed
    or moved, and none changes an attribute of its identity. *)
Definition keeps (s s' : Sheet) : Prop :=
  length (requests s) ≤ length (requests s')
  ∧ (s ≠ [] → ∀ c, cell s' 1 c = cell s 1 c)
  ∧ (∀ i f, i < length (requests s) → identity f →
            request_field s' i f = request_field s i f).

(** What the cell at [row] and [col] holds after the writes of a button,
    when it held [old]. *)
Definition click_cell (admin_name : string) (c : Click) (row col : nat)
    (old : string) : string :=
  match c with
  | Approve i =>
      if decide (row = i + 2 ∧ col = 6) then "Approved"
      else if decide (row = i + 2 ∧ col = 7) then admin_name else old
  | Reject i =>
      if decide (row = i + 2 ∧ col = 6) then "Rejected"
      else if decide (row = i + 2 ∧ col = 7) then admin_name else old
  | SaveComment i comment =>
      if decide (row = i + 2 ∧ col = 8) then comment else old
  end.

Definition is_decision (c : Click) : Prop :=
  match c with
  | Approve _ | Reject _ => True
  | SaveComment _ _ => False
  end.



(** A pending request names no reviewer, and a decided one names a
    reviewer whose name is not blank, or none. *)
Definition reviewed_ok (s : Sheet) : Prop :=
  ∀ i, i < length (requests s) →
       (request_field s i Status = "Pending" ∧ request_field s i Reviewer = "")
       ∨ ((request_field s i Status = "Approved"
           ∨ request_field s i Status = "Rejected")
          ∧ (request_field s i Reviewer = ""
             ∨ nonblank (request_field s i Reviewer))).

(** The request of index [i] passes the view and the two boxes of the
    admin dashboard, and the search when [m] is the compiled search text. *)
Definition listed (admin_menu : AdminMenu) (kitchen_filter status_filter : string)
    (m : option (string → bool)) (s : Sheet) (i : nat) : Prop :=
  i < length (requests s)
  ∧ (admin_menu = PendingRequests → request_field s i Status = "Pending")
  ∧ (kitchen_filter ≠ "All" → request_field s i Site = kitchen_filter)
  ∧ (status_filter ≠ "All" → request_field s i Status = status_filter)
  ∧ (∀ f, m = Some f →
          f (request_field s i EmployeeName) || f (request_field s i EmployeeId) = true).

(** The compiled search text, when the script searches. *)
Definition search_pattern `{Library} (search_text : string) : option (option (string → bool)) :=
  if Text.truthy (Text.strip search_text)
  then Some <$> re_compile search_text
  else Some None.

(** A run that presses nothing and stores nothing: the connection is
    refused, or the menu is the dashboard, or no button is pressed. *)
Definition quiet (connected : bool) (menu : Menu) : Prop :=
  connected = false
  ∨ match menu with
    | MenuSubmit _ pressed _ _ => pressed = false
    | MenuDashboard _ => True
    | MenuAdmin _ _ _ _ _ _ pressed => pressed = None
    end.

(** The file that [save_image_to_drive] uploads. *)
Definition uploaded (now : datetime) (image_data : list Byte.byte) : DriveFile :=
  {| f_name := "image_" +:+ strftime "%Y%m%d%H%M%S" now +:+ ".jpg";
     f_parents := [SHARED_DRIVE_ID];
     f_mimetype := "image/jpeg";
     f_media := image_data |}.

(** The card that the loop draws for a row in a run where nothing is
    pressed and every call returns; [None] when the row raises. *)
Definition drawn `{Library} (cols : list string) (r : nat * Row) : option Card :=
  (card cols "" None r ([], None)).2.

(** The calls of [update_cell] of a press, when its button is on one of
    the rows of indices [indices]. *)
Definition pressed_in (admin_name : string) (pressed : option Click) (indices : list nat)
    : list (nat * nat * string) :=
  match pressed with
  | Some c => if decide (click_index c ∈ indices) then cell_updates admin_name c else []
  | None => []
  end.

(** What a run [m] does from the worksheet [s]: when every call returns
    it issues the calls [us] and ends with [ov]; when a call raises it has
    issued the first [n] calls of [us], for some [n]. *)
Definition runs {A} (s : Sheet) (us : list (nat * nat * string)) (ov : option A)
    (m : Run Sheet A) : Prop :=
  ∃ s_end,
    run_updates us s = Some s_end
    ∧ m (s, None) = ((s_end, None), ov)
    ∧ ∀ calls, ∃ n s' calls' v,
        m (s, calls) = ((s', calls'), v)
        ∧ run_updates (take n us) s = Some s'
        ∧ (v = None ∨ (v = ov ∧ s' = s_end)).

End Terms.

Export Terms.

(** ** More sample data *)

Module Cases.

(** The sample library with a folder whose replies carry no "id". *)
Definition mute_library : Library := {|
  drive_create := λ _ _, ∅;
  to_datetime := fmap Sample.iso;
  strptime := Sample.iso;
  re_compile := Sample.compile;
  text_area := λ _, None
|}.

(** The sample worksheet after "alice" rejected its first request. *)
Definition rejected : Sheet :=
  Eval vm_compute in
    default [] (run_updates (cell_updates "alice" (Reject 0)) Sample.worksheet).

(** The cards of the view of all requests of [rejected]. *)
Definition rejected_cards : list Card :=
  Eval vm_compute in
    match @admin_dashboard Sample.library ∅ "admin123" "alice" AllRequests
            "All" "All" "" rejected with
    | Some (Shown cards) => cards
    | _ => []
    end.

(** A worksheet whose header row names no "Kitchen" column. *)
Definition unnamed : Sheet :=
  [ ["Timestamp"; "Site"; "Employee Name"; "Employee ID"; "Photo URL";
     "Status"; "Reviewed By"; "Comments"];
    ["2024-01-15 09:30:05"; "WFD01"; "Bob"; "E1";
     "https://drive.google.com/uc?export=view&id=f0"; "Pending"; ""; ""] ].

(** A header row that names no "Comments" column, the services after one
    request under it, and after a press of "Approve" on that request: the
    run writes the status and the reviewer and then raises, on
    [row["Comments"]]. *)
Definition bare_header : Row :=
  ["Timestamp"; "Kitchen"; "Employee Name"; "Employee ID"; "Photo URL";
   "Status"; "Reviewed By"].

Definition bare0 : World := {| sheet := [bare_header]; drive := [] |}.

Definition bare1 : World :=
  Eval vm_compute in
    @run Sample.library ∅ None
      (SubmitRequest Sample.time Sample.time Sample.form) bare0.

Definition bare2 : World :=
  Eval vm_compute in
    @run Sample.library ∅ None
      (AdminClick "admin123" "alice" PendingRequests "All" "All" "" (Approve 0))
      bare1.

(** The services after a press of "Approve" in which [get_all_values] and
    the first [update_cell] return and the second raises. *)
Definition half_approved : World :=
  Eval vm_compute in
    @run Sample.library ∅ (Some 2)
      (AdminClick "admin123" "alice" PendingRequests "All" "All" "" (Approve 0))
      Sample.world1.

(** The services after a press of "Submit Request" in which the upload
    returns and [append_row] raises. *)
Definition unrecorded : World :=
  Eval vm_compute in
    @run Sample.library ∅ (Some 1)
      (SubmitRequest Sample.time Sample.time Sample.form) Sample.world1.

(** The sample worksheet with a second column named "Comments". *)
Definition commented : Sheet :=
  Eval vm_compute in
    default [] (update_cell 1 9 "Comments" Sample.worksheet).

(** A worksheet with two columns named "Timestamp". *)
Definition twice : Sheet :=
  [ ["Timestamp"; "Kitchen"; "Employee Name"; "Employee ID"; "Photo URL";
     "Status"; "Reviewed By"; "Comments"; "Timestamp"];
    ["2024-01-15 09:30:05"; "WFD01"; "Bob"; "E1";
     "https://drive.google.com/uc?export=view&id=f0"; "Pending"; ""; ""; "later"] ].

(** The run that stores the sample form. *)
Definition submit_menu : Menu := MenuSubmit Sample.form true Sample.time Sample.time.

(** The run in which "alice" approves the first pending request. *)
Definition approve_menu : Menu :=
  MenuAdmin "admin123" "alice" PendingRequests "All" "All" "" (Some (Approve 0)).

Definition submit_screen : Screen :=
  FormScreen (Some (Success "✅ Request submitted successfully!")).

End Cases.

(** * Properties *)

(** ** Lists and worksheets *)

Section SheetFacts.

Lemma nth_assign {A} (d : A) n x l m :
  nth m (assign d n x l) d = if decide (m = n) then x else nth m l d.
Proof.
  revert l m. induction n as [|n IH]; intros [|y l] [|m]; simpl; try done.
  - by destruct m.
  - rewrite IH. destruct (decide (m = n)), (decide (S m = S n)); try done; try lia.
    by destruct m.
  - rewrite IH. destruct (decide (m = n)), (decide (S m = S n)); try done; lia.
Qed.

Lemma length_assign {A} (d : A) n x l :
  length (assign d n x l) = length l `max` S n.
Proof.
  revert l. induction n as [|n IH]; intros [|y l]; simpl; try done.
  - f_equal. lia.
  - by rewrite IH.
  - by rewrite IH.
Qed.

Lemma update_cell_is_Some row col v (s : Sheet) :
  1 ≤ row → 1 ≤ col →
  update_cell row col v s
  = Some (assign [] (row - 1) (assign "" (col - 1) v (nth (row - 1) s [])) s).
Proof.
  destruct row as [|r], col as [|c]; try lia. intros _ _. simpl.
  by rewrite !Nat.sub_0_r.
Qed.

Lemma cell_update_cell row col v (s s' : Sheet) r c :
  update_cell row col v s = Some s' →
  cell s' r c = if decide (r = row ∧ c = col) then v else cell s r c.
Proof.
  destruct row as [|row], col as [|col]; simpl; try done.
  intros [= <-]. destruct (decide (r = S row ∧ c = S col)) as [[-> ->]|Hne].
  - simpl. rewrite nth_assign, decide_True by done.
    by rewrite nth_assign, decide_True.
  - destruct r as [|r], c as [|c]; simpl; try done.
    rewrite nth_assign. case_decide; [subst|done].
    rewrite nth_assign. case_decide; [lia|done].
Qed.

Lemma length_update_cell row col v (s s' : Sheet) :
  update_cell row col v s = Some s' → row ≤ length s → length s' = length s.
Proof.
  destruct row as [|row], col as [|col]; simpl; try done.
  intros [= <-] Hle. rewrite length_assign. lia.
Qed.

Lemma nth_pad w (r : Row) c : nth c (pad w r) "" = nth c r "".
Proof.
  unfold pad. destruct (decide (c < length r)) as [Hlt|Hge].
  - by rewrite app_nth1.
  - rewrite app_nth2 by lia. rewrite (nth_overflow r) by lia.
    destruct (decide (c - length r < w - length r)) as [Hin|Hout].
    + apply nth_lookup_Some with (d := ""). by apply lookup_replicate_2.
    + apply nth_overflow. rewrite length_replicate. lia.
Qed.

Lemma length_get_all_values (s : Sheet) : length (get_all_values s) = length s.
Proof. unfold get_all_values. by rewrite length_fmap. Qed.

Lemma nth_get_all_values (s : Sheet) r c :
  nth c (nth r (get_all_values s) []) "" = nth c (nth r s []) "".
Proof.
  unfold get_all_values.
  rewrite (nth_lookup (pad _ <$> s)), (nth_lookup s), list_lookup_fmap.
  destruct (s !! r) as [x|]; simpl; [apply nth_pad | done].
Qed.

Lemma nth_tail {A} (l : list A) i d : nth i (tail l) d = nth (S i) l d.
Proof. destruct l; simpl; [by destruct i | done]. Qed.

(** The request of index [i] is the row [i + 2] of the worksheet. *)
Lemma request_field_cell (s : Sheet) i f :
  request_field s i f = cell s (i + 2) (field_col f).
Proof.
  unfold request_field, field, requests. rewrite nth_tail, nth_get_all_values.
  replace (i + 2) with (S (S i)) by lia.
  destruct f; reflexivity.
Qed.

Lemma length_requests (s : Sheet) : length (requests s) = length s - 1.
Proof.
  unfold requests. rewrite <- (length_get_all_values s).
  destruct (get_all_values s); simpl; lia.
Qed.

Lemma requests_nil (s : Sheet) : length (get_all_values s) < 2 → requests s = [].
Proof.
  unfold requests. destruct (get_all_values s) as [|? [|? ?]]; simpl; [done|done|lia].
Qed.

End SheetFacts.

(** ** Runs over the worksheet *)

Section RunFacts.

Lemma run_updates_refused us :
  foldl (λ acc u, acc ≫= update_cell u.1.1 u.1.2 u.2) None us = None.
Proof. induction us as [|u us IH]; [done|]. simpl. apply IH. Qed.

Lemma run_updates_cons u us (s : Sheet) :
  run_updates (u :: us) s = update_cell u.1.1 u.1.2 u.2 s ≫= run_updates us.
Proof.
  unfold run_updates. simpl.
  destruct (update_cell _ _ _ s); simpl; [done|apply run_updates_refused].
Qed.

Lemma run_updates_app us1 us2 (s : Sheet) :
  run_updates (us1 ++ us2) s = run_updates us1 s ≫= run_updates us2.
Proof.
  revert s. induction us1 as [|u us1 IH]; intros s; [done|].
  rewrite <- app_comm_cons, !run_updates_cons.
  destruct (update_cell _ _ _ s); simpl; [apply IH|done].
Qed.

Lemma runs_ret {A} (s : Sheet) (a : A) : runs s [] (Some a) (mret a).
Proof.
  exists s. split; [done|]. split; [done|]. intros calls.
  exists 0, s, calls, (Some a). split; [done|]. split; [done|]. by right.
Qed.

Lemma runs_or_raise {A} (s : Sheet) (o : option A) : runs s [] o (or_raise o).
Proof.
  exists s. split; [done|]. split; [by destruct o|]. intros calls.
  exists 0, s, calls, o. split; [by destruct o|]. split; [done|]. by right.
Qed.

Lemma runs_bind {A B} (s : Sheet) us1 us2 (a : A) (ov : option B) m f :
  runs s us1 (Some a) m →
  (∀ s1, run_updates us1 s = Some s1 → runs s1 us2 ov (f a)) →
  runs s (us1 ++ us2) ov (m ≫= f).
Proof.
  intros (s1 & Hs1 & Hm & Hcut) Hf.
  destruct (Hf s1 Hs1) as (s2 & Hs2 & Hfa & Hcut2).
  exists s2. split; [by rewrite run_updates_app, Hs1|].
  split; [unfold mbind, run_bind, bind; by rewrite Hm|].
  intros calls. destruct (Hcut calls) as (n & s' & calls' & v & Hrun & Hpre & Hv).
  unfold mbind, run_bind, bind. rewrite Hrun.
  destruct Hv as [->|[-> ->]].
  - exists (n `min` length us1), s', calls', None. split; [done|]. split; [|by left].
    rewrite take_app_le by lia.
    destruct (decide (n ≤ length us1)) as [Hle|Hgt].
    + by rewrite Nat.min_l by done.
    + rewrite Nat.min_r by lia. rewrite firstn_all. rewrite take_ge in Hpre by lia. done.
  - destruct (Hcut2 calls') as (n2 & s'' & calls'' & v & Hrun2 & Hpre2 & Hv).
    exists (length us1 + n2), s'', calls'', v. split; [done|]. split; [|done].
    by rewrite take_app_add, run_updates_app, Hs1.
Qed.

Lemma runs_bind_raise {A B} (s : Sheet) us (m : Run Sheet A) (f : A → Run Sheet B) :
  runs s us None m → runs s us None (m ≫= f).
Proof.
  intros (s1 & Hs1 & Hm & Hcut). exists s1. split; [done|].
  split; [unfold mbind, run_bind, bind; by rewrite Hm|].
  intros calls. destruct (Hcut calls) as (n & s' & calls' & v & Hrun & Hpre & Hv).
  exists n, s', calls', None. unfold mbind, run_bind, bind. rewrite Hrun.
  destruct Hv as [->|[-> ->]]; (split; [done|]); (split; [done|]); by left.
Qed.

Lemma runs_fmap {A B} (s : Sheet) us (ov : option A) (g : A → B) m :
  runs s us ov m → runs s us (g <$> ov) (g <$> m).
Proof.
  intros Hm. destruct ov as [a|].
  - rewrite <- (app_nil_r us).
    apply (runs_bind s us [] a (Some (g a)) m (λ a, ret (g a)) Hm).
    intros s1 _. apply runs_ret.
  - by apply runs_bind_raise.
Qed.

Lemma runs_get_all_values (s : Sheet) :
  runs s [] (Some (get_all_values s)) Service.get_all_values.
Proof.
  exists s. split; [done|]. split; [done|]. intros calls.
  destruct calls as [[|k]|].
  - exists 0, s, (Some 0), None. split; [done|]. split; [done|]. by left.
  - exists 0, s, (Some k), (Some (get_all_values s)).
    split; [done|]. split; [done|]. by right.
  - exists 0, s, None, (Some (get_all_values s)).
    split; [done|]. split; [done|]. by right.
Qed.

Lemma runs_update_cell (s : Sheet) row col value :
  1 ≤ row → 1 ≤ col →
  runs s [(row, col, value)] (Some ()) (Service.update_cell row col value).
Proof.
  intros Hrow Hcol.
  pose proof (update_cell_is_Some row col value s Hrow Hcol) as Hup.
  set (s1 := assign _ _ _ _) in Hup.
  assert (Hone : run_updates [(row, col, value)] s = Some s1) by exact Hup.
  exists s1. unfold Service.update_cell, call.
  split; [done|].
  split; [cbn [fst snd]; by rewrite Hup|]. intros calls.
  destruct calls as [[|k]|]; cbn [fst snd]; rewrite ?Hup; cbn [mbind option_bind].
  - exists 0, s, (Some 0), None. split; [done|]. split; [done|]. by left.
  - exists 1, s1, (Some k), (Some ()). split; [done|]. split; [done|]. by right.
  - exists 1, s1, None, (Some ()). split; [done|]. split; [done|]. by right.
Qed.

Lemma runs_issue (s : Sheet) us :
  (∀ u, u ∈ us → 1 ≤ u.1.1 ∧ 1 ≤ u.1.2) → runs s us (Some ()) (issue us).
Proof.
  revert s. induction us as [|u us IH]; intros s Hpos; [apply runs_ret|].
  change (u :: us) with ([u] ++ us). cbn [issue].
  apply (runs_bind s [u] us ()).
  - destruct u as [[row col] value]. apply runs_update_cell; apply (Hpos (row, col, value));
      apply elem_of_cons; by left.
  - intros s1 _. apply IH. intros u' Hu'. apply Hpos. apply elem_of_cons. by right.
Qed.

Lemma cell_updates_labels admin_name c u :
  u ∈ cell_updates admin_name c → 1 ≤ u.1.1 ∧ 1 ≤ u.1.2.
Proof.
  destruct c; simpl; intros Hu;
    repeat (apply elem_of_cons in Hu as [->|Hu]; [simpl; lia|]);
    by apply elem_of_nil in Hu.
Qed.

End RunFacts.

(** ** Text *)

Section TextFacts.

Lemma truthy_true s : Text.truthy s = true ↔ s ≠ "".
Proof. by destruct s. Qed.

Lemma truthy_false s : Text.truthy s = false ↔ s = "".
Proof. by destruct s. Qed.

Lemma chars_nil s : chars s = [] ↔ s = "".
Proof. by destruct s. Qed.

Lemma chars_rev_app s1 s2 :
  chars (String.rev_app s1 s2) = reverse (chars s1) ++ chars s2.
Proof.
  revert s2. induction s1 as [|a s1 IH]; intros s2; simpl; [done|].
  rewrite IH. unfold chars. simpl. rewrite reverse_cons, <- app_assoc. done.
Qed.

Lemma chars_rev s : chars (String.rev s) = reverse (chars s).
Proof.
  unfold String.rev. rewrite chars_rev_app. unfold chars at 2. simpl.
  by rewrite app_nil_r.
Qed.

Lemma rev_empty s : String.rev s = "" ↔ s = "".
Proof.
  rewrite <- !chars_nil, chars_rev. split.
  - intros Hr. apply (f_equal length) in Hr. rewrite length_reverse in Hr.
    by destruct (chars s).
  - by intros ->.
Qed.

Lemma nonblank_cons c s :
  nonblank (String c s) ↔ Text.isspace c = false ∨ nonblank s.
Proof.
  unfold nonblank, chars. simpl. split.
  - intros (x & [->|Hx]%elem_of_cons & Hsp); [by left|right; eauto].
  - intros [Hc|(x & Hx & Hsp)].
    + exists c. split; [apply elem_of_cons; by left|done].
    + exists x. split; [apply elem_of_cons; by right|done].
Qed.

Lemma nonblank_empty : ¬ nonblank "".
Proof. intros (c & Hc & _). unfold chars in Hc. simpl in Hc. by apply elem_of_nil in Hc. Qed.

Lemma lstrip_nonempty s : Text.lstrip s ≠ "" ↔ nonblank s.
Proof.
  induction s as [|c s IH]; simpl.
  - split; [done|]. intros Hn. by destruct nonblank_empty.
  - rewrite nonblank_cons. destruct (Text.isspace c) eqn:Hc.
    + rewrite IH. split; [by right|]. intros [?|?]; [congruence|done].
    + split; [by left|done].
Qed.

Lemma nonblank_lstrip s : nonblank (Text.lstrip s) ↔ nonblank s.
Proof.
  induction s as [|c s IH]; simpl; [done|].
  destruct (Text.isspace c) eqn:Hc; [|done].
  rewrite IH, nonblank_cons. split; [by right|]. intros [?|?]; [congruence|done].
Qed.

Lemma nonblank_rev s : nonblank (String.rev s) ↔ nonblank s.
Proof.
  unfold nonblank. rewrite chars_rev. by setoid_rewrite elem_of_reverse.
Qed.

(** [n.strip()] is not empty exactly when [n] is not blank. *)
Lemma strip_truthy n : Text.truthy (Text.strip n) = true ↔ nonblank n.
Proof.
  rewrite truthy_true. unfold Text.strip, Text.rstrip.
  rewrite <- nonblank_lstrip, <- nonblank_rev, <- lstrip_nonempty.
  split; intros Hs He; apply Hs; by apply rev_empty.
Qed.

Lemma app_cons a s t : String a s +:+ t = String a (s +:+ t).
Proof. reflexivity. Qed.

Lemma app_empty t : "" +:+ t = t.
Proof. reflexivity. Qed.

Lemma eq_ci_true a b : Text.eq_ci a b = true ↔ Text.lower a = Text.lower b.
Proof. unfold Text.eq_ci. by rewrite bool_decide_eq_true. Qed.

Lemma prefix_ci_spec p s :
  Text.prefix_ci p s = true ↔ ∃ v w, s = v +:+ w ∧ same_ci p v.
Proof.
  revert s. induction p as [|a p IH]; intros s; simpl.
  - split; [|done]. intros _. by exists "", s.
  - destruct s as [|b s].
    + split; [done|]. intros (v & w & Hs & Hv). destruct v; [done|].
      by rewrite app_cons in Hs.
    + rewrite andb_true_iff, eq_ci_true, IH. split.
      * intros (Hab & v & w & -> & Hv). exists (String b v), w. split; [done|].
        unfold same_ci, chars in *. simpl. by f_equal.
      * intros (v & w & Hs & Hv). destruct v as [|b' v]; [done|].
        rewrite app_cons in Hs. injection Hs as -> ->.
        unfold same_ci, chars in Hv. simpl in Hv.
        injection Hv as Hab Hv. split; [done|]. by exists v, w.
Qed.

(** [contains_ci] decides the occurrence of a substring up to case. *)
Lemma contains_ci_spec p s : Text.contains_ci p s = true ↔ occurs_ci p s.
Proof.
  induction s as [|b s IH]; simpl.
  - rewrite orb_false_r, prefix_ci_spec. split.
    + intros (v & w & Hs & Hv). by exists "", v, w.
    + intros (u & v & w & Hs & Hv). destruct u; [|done]. by exists v, w.
  - rewrite orb_true_iff, prefix_ci_spec, IH. split.
    + intros [(v & w & Hs & Hv)|(u & v & w & -> & Hv)].
      * by exists "", v, w.
      * by exists (String b u), v, w.
    + intros (u & v & w & Hs & Hv). destruct u as [|b' u].
      * left. by exists v, w.
      * right. rewrite app_cons in Hs. injection Hs as -> ->. by exists u, v, w.
Qed.

End TextFacts.

(** ** The sample library *)

Section SampleFacts.

Lemma literal_cons c p :
  Text.literal (String c p) = true ↔ Text.special c = false ∧ Text.literal p = true.
Proof. simpl. rewrite andb_true_iff, negb_true_iff. done. Qed.

Lemma special_dot c : Text.special c = false → c ≠ "."%char.
Proof. intros Hc ->. by vm_compute in Hc. Qed.

Lemma literal_dotted p : Text.literal p = true → Sample.dotted p = true.
Proof.
  induction p as [|c p IH]; [done|]. intros [Hc Hp]%literal_cons. simpl.
  rewrite Hc, IH by done. by rewrite orb_true_r.
Qed.

Lemma match_here_literal p s :
  Text.literal p = true → Sample.match_here p s = Text.prefix_ci p s.
Proof.
  revert s. induction p as [|c p IH]; intros s; [done|].
  intros [Hc Hp]%literal_cons. destruct s as [|b s]; simpl; [done|].
  rewrite IH by done. unfold Sample.dot_ci.
  by rewrite bool_decide_eq_false_2 by by apply special_dot.
Qed.

Lemma search_dot_literal p s :
  Text.literal p = true → Sample.search_dot p s = Text.contains_ci p s.
Proof.
  intros Hp. induction s as [|b s IH]; simpl; rewrite match_here_literal by done;
    [done|by rewrite IH].
Qed.

Lemma compile_literal pat :
  Text.literal pat = true →
  ∃ m, Sample.compile pat = Some m ∧ ∀ s, m s = Text.contains_ci pat s.
Proof.
  intros Hp. exists (Sample.search_dot pat). unfold Sample.compile.
  rewrite literal_dotted by done. split; [done|]. intros s. by apply search_dot_literal.
Qed.

Lemma sample_laws : LibraryLaws Sample.library.
Proof.
  split.
  - intros cells. apply length_fmap.
  - apply compile_literal.
Qed.

End SampleFacts.

(** ** Submit Request *)

Section Submission.
Context `{Library}.

Lemma form_complete f :
  forallb id [bool_decide (kitchen f ≠ "--Select--");
              Text.truthy (emp_name f); Text.truthy (emp_id f);
              bool_decide (is_Some (picture f))] = true
  ↔ kitchen f ≠ "--Select--" ∧ emp_name f ≠ "" ∧ emp_id f ≠ "" ∧ is_Some (picture f).
Proof.
  simpl. rewrite !andb_true_iff, !bool_decide_eq_true, !truthy_true. unfold id. tauto.
Qed.

(** C1. A press of "Submit Request" on a complete form (a kitchen other
    than the placeholder, a name, an identifier, a photo) appends exactly
    one row to the worksheet: the time of the press, the kitchen, the name,
    the identifier, the link of the photo, "Pending" and two empty cells.
    The link is the one [save_image_to_drive] builds from the reply of the
    upload, it is not empty, and the photo is the one file added to the
    folder. *)
Theorem submit_complete_appends_one_row now_upload now_row f w image_data :
  kitchen f ≠ "--Select--" → emp_name f ≠ "" → emp_id f ≠ "" →
  picture f = Some image_data →
  ∃ photo_url file,
    submit_request now_upload now_row f w
    = ({| sheet := sheet w ++ [[strftime "%Y-%m-%d %H:%M:%S" now_row; kitchen f;
                                emp_name f; emp_id f; photo_url; "Pending"; ""; ""]];
          drive := drive w ++ [file] |},
       Success "✅ Request submitted successfully!")
    ∧ f_media file = image_data
    ∧ photo_url = "https://drive.google.com/uc?export=view&id="
                  +:+ format_value (drive_create (drive w) file !! "id")
    ∧ photo_url ≠ "".
Proof.
  intros Hk Hn He Hp. unfold submit_request.
  assert (Hall : forallb id [bool_decide (kitchen f ≠ "--Select--");
                             Text.truthy (emp_name f); Text.truthy (emp_id f);
                             bool_decide (is_Some (picture f))] = true).
  { apply form_complete. rewrite Hp. eauto. }
  rewrite Hall, Hp. simpl. eexists _, _. split; [reflexivity|]. done.
Qed.

(** C3. A press of "Submit Request" on a form that lacks a field (the
    kitchen left on the placeholder, no name, no identifier or no photo)
    leaves the worksheet and the folder as they were, so no row is appended
    and nothing is uploaded, and the page shows the warning. *)
Theorem submit_incomplete_writes_nothing now_upload now_row f w :
  kitchen f = "--Select--" ∨ emp_name f = "" ∨ emp_id f = "" ∨ picture f = None →
  submit_request now_upload now_row f w
  = (w, Warning "⚠️ Please fill all fields and take a photo.").
Proof.
  intros Hmiss. unfold submit_request.
  destruct (forallb id _) eqn:Hall; [|done].
  apply form_complete in Hall as (Hk & Hn & He & Hp).
  destruct Hmiss as [?|[?|[?|Hnone]]]; try done.
  rewrite Hnone in Hp. by destruct Hp.
Qed.

End Submission.

(** ** Decisions *)

Section Decisions.

Lemma run_updates_two r1 c1 v1 r2 c2 v2 (s : Sheet) :
  run_updates [(r1, c1, v1); (r2, c2, v2)] s
  = update_cell r1 c1 v1 s ≫= update_cell r2 c2 v2.
Proof. reflexivity. Qed.

Lemma run_updates_one r c v (s : Sheet) :
  run_updates [(r, c, v)] s = update_cell r c v s.
Proof. reflexivity. Qed.

(** What a decision does to the cells, for either status. *)
Lemma decision_cells (s : Sheet) i status reviewer :
  i < length (requests s) →
  ∃ s', run_updates [(i + 2, 6, status); (i + 2, 7, reviewer)] s = Some s'
    ∧ length s' = length s
    ∧ ∀ r c, cell s' r c =
        if decide (r = i + 2 ∧ c = 6) then status
        else if decide (r = i + 2 ∧ c = 7) then reviewer
        else cell s r c.
Proof.
  rewrite length_requests. intros Hi. rewrite run_updates_two.
  destruct (update_cell (i + 2) 6 status s) as [s1|] eqn:H1;
    [|by rewrite update_cell_is_Some in H1 by lia].
  simpl. destruct (update_cell (i + 2) 7 reviewer s1) as [s2|] eqn:H2;
    [|by rewrite update_cell_is_Some in H2 by lia].
  assert (Hl1 : length s1 = length s) by (apply (length_update_cell _ _ _ _ _ H1); lia).
  assert (Hl2 : length s2 = length s1) by (apply (length_update_cell _ _ _ _ _ H2); lia).
  exists s2. split; [done|]. split; [lia|]. intros r c.
  rewrite (cell_update_cell _ _ _ _ _ r c H2), (cell_update_cell _ _ _ _ _ r c H1).
  repeat case_decide; try done; lia.
Qed.

(** The cells after the writes of a button on a stored request. *)
Lemma click_cells admin_name c (s : Sheet) :
  click_index c < length (requests s) →
  ∃ s', run_updates (cell_updates admin_name c) s = Some s'
    ∧ length s' = length s
    ∧ ∀ row col, cell s' row col = click_cell admin_name c row col (cell s row col).
Proof.
  destruct c as [i|i|i comment]; simpl; intros Hi.
  - apply (decision_cells s i "Approved" admin_name Hi).
  - apply (decision_cells s i "Rejected" admin_name Hi).
  - rewrite length_requests in Hi. rewrite run_updates_one.
    destruct (update_cell (i + 2) 8 comment s) as [s'|] eqn:Hs';
      [|by rewrite update_cell_is_Some in Hs' by lia].
    exists s'. split; [done|]. split.
    + apply (length_update_cell _ _ _ _ _ Hs'). lia.
    + intros row col. apply (cell_update_cell _ _ _ _ _ _ _ Hs').
Qed.

Lemma length_requests_eq (s s' : Sheet) :
  length s' = length s → length (requests s') = length (requests s).
Proof. intros Hlen. by rewrite !length_requests, Hlen. Qed.

(** C2. For a request of index [i] and a reviewer name, the writes of
    "Approve" succeed, put "Approved" in the status of the request and the
    name in its reviewer, and leave the number of requests, the other
    attributes of the request, every attribute of every other request, and
    every other cell of the worksheet, as they were. *)
Theorem approve_sets_status_and_reviewer (s : Sheet) i reviewer :
  i < length (requests s) →
  ∃ s', run_updates (cell_updates reviewer (Approve i)) s = Some s'
    ∧ length (requests s') = length (requests s)
    ∧ request_field s' i Status = "Approved"
    ∧ request_field s' i Reviewer = reviewer
    ∧ (∀ f, f ≠ Status → f ≠ Reviewer → request_field s' i f = request_field s i f)
    ∧ (∀ j f, j ≠ i → request_field s' j f = request_field s j f)
    ∧ (∀ r c, ¬ (r = i + 2 ∧ (c = 6 ∨ c = 7)) → cell s' r c = cell s r c).
Proof.
  intros Hi. destruct (decision_cells s i "Approved" reviewer Hi) as (s' & Hrun & Hlen & Hcell).
  exists s'. split; [done|]. split; [by rewrite !length_requests, Hlen|].
  repeat split.
  - rewrite request_field_cell, Hcell. simpl. by rewrite decide_True.
  - rewrite request_field_cell, Hcell. simpl.
    rewrite decide_False by lia. by rewrite decide_True.
  - intros f Hs Hr. rewrite !request_field_cell, Hcell.
    rewrite decide_False by (destruct f; simpl; try done; lia).
    by rewrite decide_False by (destruct f; simpl; try done; lia).
  - intros j f Hj. rewrite !request_field_cell, Hcell.
    rewrite decide_False by lia. by rewrite decide_False by lia.
  - intros r c Hrc. rewrite Hcell.
    rewrite decide_False by lia. by rewrite decide_False by lia.
Qed.

End Decisions.

Lemma submit_complete_appends_one_row_witness :
  ∃ photo_url file,
    @submit_request Sample.library Sample.time Sample.time Sample.form
      {| sheet := [Sample.header]; drive := [] |}
    = ({| sheet := [Sample.header]
                   ++ [["2024-01-15 09:30:05"; "WFD01"; "Bob"; "E1"; photo_url;
                        "Pending"; ""; ""]];
          drive := [] ++ [file] |},
       Success "✅ Request submitted successfully!")
    ∧ f_media file = []
    ∧ photo_url = "https://drive.google.com/uc?export=view&id="
                  +:+ format_value (Sample.reply [] file !! "id")
    ∧ photo_url ≠ "".
Proof.
  apply (@submit_complete_appends_one_row Sample.library Sample.time Sample.time
           Sample.form {| sheet := [Sample.header]; drive := [] |} []);
    simpl; congruence.
Defined.

Lemma submit_incomplete_writes_nothing_witness :
  @submit_request Sample.library Sample.time Sample.time
    {| kitchen := "--Select--"; emp_name := "Bob"; emp_id := "E1"; picture := Some [] |}
    {| sheet := Sample.worksheet; drive := [] |}
  = ({| sheet := Sample.worksheet; drive := [] |},
     Warning "⚠️ Please fill all fields and take a photo.").
Proof.
  apply (@submit_incomplete_writes_nothing Sample.library). left. reflexivity.
Defined.

Lemma approve_sets_status_and_reviewer_witness :
  ∃ s', run_updates (cell_updates "alice" (Approve 0)) Sample.worksheet = Some s'
    ∧ length (requests s') = length (requests Sample.worksheet)
    ∧ request_field s' 0 Status = "Approved"
    ∧ request_field s' 0 Reviewer = "alice"
    ∧ (∀ f, f ≠ Status → f ≠ Reviewer →
         request_field s' 0 f = request_field Sample.worksheet 0 f)
    ∧ (∀ j f, j ≠ 0 → request_field s' j f = request_field Sample.worksheet j f)
    ∧ (∀ r c, ¬ (r = 0 + 2 ∧ (c = 6 ∨ c = 7)) → cell s' r c = cell Sample.worksheet r c).
Proof.
  apply (approve_sets_status_and_reviewer Sample.worksheet 0 "alice").
  vm_compute. lia.
Defined.

(** ** The gate of the admin dashboard *)

Section Gate.

(** C4, as amended. The admin dashboard goes past its gate exactly when
    the password is the one configured under "admin_password", or
    "admin123" when none is configured, and the reviewer name has a
    character that is not white space.  A password that differs from it
    stops the run with the password warning whatever the name, and a run
    that the gate stops shows that warning and nothing else. *)
Theorem admin_gate_opens_iff (secrets : gmap string string) password admin_name :
  (admin_gate secrets password admin_name = None
   ↔ password = default "admin123" (secrets !! "admin_password") ∧ nonblank admin_name)
  ∧ (password ≠ default "admin123" (secrets !! "admin_password") →
     admin_gate secrets password admin_name
     = Some (Warning "🔒 Please enter correct admin password."))
  ∧ (∀ `{Library} m admin_menu kitchen_filter status_filter search_text (s : Sheet),
       admin_gate secrets password admin_name = Some m →
       admin_dashboard secrets password admin_name admin_menu
         kitchen_filter status_filter search_text s = Some (Stopped m)).
Proof.
  split; [split|split].
  - unfold admin_gate, is_admin. case_bool_decide; simpl; [|done].
    destruct (Text.truthy (Text.strip admin_name)) eqn:Hn; simpl; [|done].
    intros _. split; [done|]. by apply strip_truthy.
  - intros [Hp Hn]. unfold admin_gate, is_admin.
    rewrite bool_decide_eq_true_2 by done. simpl.
    apply strip_truthy in Hn. by rewrite Hn.
  - intros Hp. unfold admin_gate, is_admin. by rewrite bool_decide_eq_false_2.
  - intros L m admin_menu kf sf st s Hm. unfold admin_dashboard, admin_run.
    by rewrite Hm.
Qed.

(** C4, as stated, fails: with no configured secret, the default password
    and a reviewer name made of one space, the name is not empty and the
    gate stays shut. *)
Lemma admin_gate_blank_name_counterexample :
  ¬ (∀ (secrets : gmap string string) password admin_name,
       admin_gate secrets password admin_name = None
       ↔ password = default "admin123" (secrets !! "admin_password") ∧ admin_name ≠ "").
Proof.
  intros Hclaim. destruct (Hclaim ∅ "admin123" " ") as [_ Hopen].
  discriminate Hopen. split; [reflexivity|discriminate].
Qed.

End Gate.

Lemma admin_gate_opens_iff_witness :
  admin_gate ∅ "admin123" "alice" = None
  ∧ admin_gate ∅ "guess" "alice" = Some (Warning "🔒 Please enter correct admin password.").
Proof.
  destruct (admin_gate_opens_iff ∅ "admin123" "alice") as [[_ Hopen] _].
  destruct (admin_gate_opens_iff ∅ "guess" "alice") as (_ & Hshut & _).
  split.
  - apply Hopen. split; [reflexivity|]. exists "a"%char. split; [|reflexivity].
    apply elem_of_cons. by left.
  - apply Hshut. discriminate.
Defined.

(** ** The list of the admin dashboard *)

Section AdminList.
Context `{Library}.

Lemma elem_of_rows (data : list Row) i r :
  (i, r) ∈ rows (DataFrame data) ↔ tail data !! i = Some r.
Proof.
  unfold DataFrame. simpl. rewrite elem_of_lookup_imap. split.
  - by intros (j & y & [= -> ->] & Hy).
  - intros Hr. by exists i, r.
Qed.

Lemma search_subset cols search_text l kept :
  search cols search_text l = Some kept → ∀ x, x ∈ kept → x ∈ l.
Proof.
  unfold search. destruct (Text.truthy _); [|by intros [= <-]].
  intros Hs x Hx.
  destruct (get_loc "Employee Name" cols) as [n|]; [simpl in Hs|done].
  destruct (re_compile search_text) as [m|]; [simpl in Hs|done].
  destruct (get_loc "Employee ID" cols) as [e|]; [simpl in Hs|done].
  injection Hs as <-. by apply list_elem_of_filter in Hx as [_ Hx].
Qed.

Lemma admin_rows_subset admin_menu kitchen_filter status_filter search_text df l :
  admin_rows admin_menu kitchen_filter status_filter search_text df = Some l →
  ∀ x, x ∈ l → x ∈ rows df.
Proof.
  unfold admin_rows. intros Hl x Hx.
  assert (Hsub : ∃ l0, search (columns df) search_text l0 = Some l
                       ∧ ∀ y, y ∈ l0 → y ∈ rows df).
  { destruct (get_loc "Status" (columns df)) as [st|],
      (get_loc "Kitchen" (columns df)) as [k|], admin_menu;
      simpl in Hl; try done; eexists; (split; [exact Hl|]);
      intros y Hy; repeat case_decide;
      repeat (apply list_elem_of_filter in Hy as [_ Hy]); done. }
  destruct Hsub as (l0 & Hs & Hl0). apply Hl0. by apply (search_subset _ _ _ _ Hs).
Qed.

Lemma search_sublist cols search_text l kept :
  search cols search_text l = Some kept → kept `sublist_of` l.
Proof.
  unfold search. destruct (Text.truthy _); [|by intros [= <-]].
  destruct (get_loc "Employee Name" cols) as [n|]; [simpl|done].
  destruct (re_compile search_text) as [m|]; [simpl|done].
  destruct (get_loc "Employee ID" cols) as [e|]; [simpl|done].
  intros [= <-]. apply sublist_filter.
Qed.

Lemma admin_rows_sublist admin_menu kitchen_filter status_filter search_text df l :
  admin_rows admin_menu kitchen_filter status_filter search_text df = Some l →
  l `sublist_of` rows df.
Proof.
  unfold admin_rows. intros Hl.
  assert (Hsub : ∃ l0, search (columns df) search_text l0 = Some l
                       ∧ l0 `sublist_of` rows df).
  { destruct (get_loc "Status" (columns df)) as [st|],
      (get_loc "Kitchen" (columns df)) as [k|], admin_menu;
      simpl in Hl; try done; eexists; (split; [exact Hl|]);
      repeat case_decide; repeat (etrans; [apply sublist_filter|]); done. }
  destruct Hsub as (l0 & Hs & Hl0). etrans; [|exact Hl0]. by apply (search_sublist _ _ _ _ Hs).
Qed.

Lemma rows_indices (data : list Row) :
  (rows (DataFrame data)).*1 = seq 0 (length (tail data)).
Proof.
  unfold DataFrame. simpl. rewrite fmap_imap.
  rewrite <- (list_fmap_id (seq 0 _)). exact (imap_seq_0 (tail data) id).
Qed.

(** The rows that the filters keep have the index labels of the frame,
    each one once. *)
Lemma admin_rows_NoDup admin_menu kitchen_filter status_filter search_text
    (data : list Row) l :
  admin_rows admin_menu kitchen_filter status_filter search_text (DataFrame data)
  = Some l →
  NoDup l.*1.
Proof.
  intros Hl%admin_rows_sublist.
  apply (sublist_NoDup _ (rows (DataFrame data)).*1); [|by apply fmap_sublist].
  rewrite rows_indices. apply NoDup_seq.
Qed.

Lemma header_ok_columns (s : Sheet) :
  header_ok s = true →
  let cols := columns (DataFrame (get_all_values s)) in
  get_loc "Timestamp" cols = Some 0 ∧ get_loc "Kitchen" cols = Some 1
  ∧ get_loc "Employee Name" cols = Some 2 ∧ get_loc "Employee ID" cols = Some 3
  ∧ get_loc "Photo URL" cols = Some 4 ∧ get_loc "Status" cols = Some 5
  ∧ get_loc "Comments" cols = Some 7.
Proof. unfold header_ok. by rewrite bool_decide_eq_true. Qed.

Lemma at_request (s : Sheet) i r j :
  tail (get_all_values s) !! i = Some r → at_ j (i, r) = cell s (i + 2) (j + 1).
Proof.
  intros Hr. unfold at_. simpl.
  rewrite <- (nth_lookup_Some _ _ [] _ Hr), nth_tail, nth_get_all_values.
  by replace (i + 2) with (S (S i)) by lia; replace (j + 1) with (S j) by lia.
Qed.

(** A label on one column gives the cell of that column. *)
Lemma item_get_loc name cols j r :
  get_loc name cols = Some j → item name cols r = Some (Scalar (at_ j r)).
Proof.
  unfold get_loc, item. destruct (positions name cols 0) as [|j' [|j'' js]]; try done.
  by intros [= ->].
Qed.

(** What the loop draws for a row, from the values under the seven
    labels. *)
Lemma drawn_eq cols r :
  drawn cols r
  = (timestamp ← item "Timestamp" cols r;
     kitchen ← item "Kitchen" cols r;
     employee_name ← item "Employee Name" cols r;
     employee_id ← item "Employee ID" cols r;
     status ← item "Status" cols r;
     photo_url ← item "Photo URL" cols r;
     comment ← item "Comments" cols r ≫= text_area_value;
     Some {| c_index := r.1;
             request_time_str :=
               match timestamp with
               | Scalar v =>
                   match strptime v with
                   | Some request_time =>
                       Scalar (strftime "%d %b %Y, %I:%M %p" request_time)
                   | None => timestamp
                   end
               | Series _ => timestamp
               end;
             c_kitchen := kitchen;
             c_employee_name := employee_name;
             c_employee_id := employee_id;
             c_status := status;
             c_photo_url := photo_url;
             c_comments := comment |}).
Proof.
  unfold drawn, card.
  destruct (item "Timestamp" cols r); [|done].
  destruct (item "Kitchen" cols r); [|done].
  destruct (item "Employee Name" cols r); [|done].
  destruct (item "Employee ID" cols r); [|done].
  destruct (item "Status" cols r); [|done].
  destruct (item "Photo URL" cols r); [|done].
  by destruct (item "Comments" cols r ≫= text_area_value).
Qed.

Lemma drawn_index cols r c : drawn cols r = Some c → c_index c = r.1.
Proof.
  rewrite drawn_eq.
  destruct (item "Timestamp" cols r); [simpl|done].
  destruct (item "Kitchen" cols r); [simpl|done].
  destruct (item "Employee Name" cols r); [simpl|done].
  destruct (item "Employee ID" cols r); [simpl|done].
  destruct (item "Status" cols r); [simpl|done].
  destruct (item "Photo URL" cols r); [simpl|done].
  destruct (item "Comments" cols r ≫= text_area_value); [simpl|done].
  by intros [= <-].
Qed.

Lemma cards_rows cols l cards c :
  mapM (drawn cols) l = Some cards → c ∈ cards →
  ∃ r, r ∈ l ∧ drawn cols r = Some c.
Proof.
  intros Hm%mapM_Some_1 [j Hj]%list_elem_of_lookup.
  destruct (Forall2_lookup_r _ _ _ _ _ Hm Hj) as (r & Hr & Hc).
  exists r. split; [|done]. by apply list_elem_of_lookup_2 in Hr.
Qed.

Lemma cards_indices cols (l : list (nat * Row)) cards :
  mapM (drawn cols) l = Some cards → c_index <$> cards = l.*1.
Proof.
  intros Hm%mapM_Some_1. induction Hm as [|r c l cards Hc _ IH]; [done|].
  rewrite !fmap_cons, IH. f_equal. by apply (drawn_index cols).
Qed.

(** With the header row in place, the card of a request shows its
    attributes. *)
Lemma drawn_request (s : Sheet) i r :
  header_ok s = true →
  tail (get_all_values s) !! i = Some r →
  drawn (columns (DataFrame (get_all_values s))) (i, r)
  = Some {| c_index := i;
            request_time_str :=
              match strptime (request_field s i Timestamp) with
              | Some request_time =>
                  Scalar (strftime "%d %b %Y, %I:%M %p" request_time)
              | None => Scalar (request_field s i Timestamp)
              end;
            c_kitchen := Scalar (request_field s i Site);
            c_employee_name := Scalar (request_field s i EmployeeName);
            c_employee_id := Scalar (request_field s i EmployeeId);
            c_status := Scalar (request_field s i Status);
            c_photo_url := Scalar (request_field s i PhotoUrl);
            c_comments := request_field s i Comment |}.
Proof.
  intros (Ht & Hk & Hn & He & Hp & Hst & Hc)%header_ok_columns Hr.
  rewrite drawn_eq.
  rewrite (item_get_loc _ _ _ _ Ht), (item_get_loc _ _ _ _ Hk), (item_get_loc _ _ _ _ Hn),
    (item_get_loc _ _ _ _ He), (item_get_loc _ _ _ _ Hst), (item_get_loc _ _ _ _ Hp),
    (item_get_loc _ _ _ _ Hc).
  cbn [mbind option_bind fst text_area_value].
  rewrite !(at_request s i r) by done. rewrite !request_field_cell.
  cbn [field_col Nat.add]. by destruct (strptime _).
Qed.

Lemma card_of_request (s : Sheet) i r c :
  header_ok s = true →
  tail (get_all_values s) !! i = Some r →
  drawn (columns (DataFrame (get_all_values s))) (i, r) = Some c →
  c = {| c_index := i;
         request_time_str :=
           match strptime (request_field s i Timestamp) with
           | Some request_time => Scalar (strftime "%d %b %Y, %I:%M %p" request_time)
           | None => Scalar (request_field s i Timestamp)
           end;
         c_kitchen := Scalar (request_field s i Site);
         c_employee_name := Scalar (request_field s i EmployeeName);
         c_employee_id := Scalar (request_field s i EmployeeId);
         c_status := Scalar (request_field s i Status);
         c_photo_url := Scalar (request_field s i PhotoUrl);
         c_comments := request_field s i Comment |}.
Proof. intros Hh Hr. rewrite (drawn_request s i r Hh Hr). by intros [= <-]. Qed.

Lemma card_is_Some (s : Sheet) r :
  header_ok s = true →
  is_Some (drawn (columns (DataFrame (get_all_values s))) r).
Proof.
  intros (Ht & Hk & Hn & He & Hp & Hst & Hc)%header_ok_columns.
  rewrite drawn_eq.
  rewrite (item_get_loc _ _ _ _ Ht), (item_get_loc _ _ _ _ Hk), (item_get_loc _ _ _ _ Hn),
    (item_get_loc _ _ _ _ He), (item_get_loc _ _ _ _ Hst), (item_get_loc _ _ _ _ Hp),
    (item_get_loc _ _ _ _ Hc).
  cbn [mbind option_bind text_area_value]. eauto.
Qed.

(** *** The loop *)

Lemma pressed_in_cases admin_name pressed indices :
  pressed_in admin_name pressed indices = []
  ∨ ∃ c, pressed = Some c ∧ click_index c ∈ indices
         ∧ pressed_in admin_name pressed indices = cell_updates admin_name c.
Proof.
  unfold pressed_in. destruct pressed as [c|]; [|by left].
  case_decide; [right; by exists c|by left].
Qed.

Lemma runs_button (s : Sheet) admin_name (b : bool) c :
  runs s (if b then cell_updates admin_name c else []) (Some ())
    (if b then issue (cell_updates admin_name c) else mret ()).
Proof.
  destruct b; [|apply runs_ret]. apply runs_issue. apply cell_updates_labels.
Qed.

Lemma runs_save_comment (s : Sheet) admin_name pressed i :
  runs s (match pressed with
          | Some (SaveComment j comment) =>
              if bool_decide (j = i)
              then cell_updates admin_name (SaveComment i comment) else []
          | _ => []
          end)
    (Some ())
    (match pressed with
     | Some (SaveComment j comment) =>
         if bool_decide (j = i)
         then issue (cell_updates admin_name (SaveComment i comment)) else mret ()
     | _ => mret ()
     end).
Proof. destruct pressed as [[| |j comment]|]; try apply runs_ret. apply runs_button. Qed.

(** The calls of the three buttons of a row are those of the press, when
    the press is on the row. *)
Lemma buttons_pressed admin_name pressed i :
  (if bool_decide (pressed = Some (Approve i)) then cell_updates admin_name (Approve i) else [])
  ++ (if bool_decide (pressed = Some (Reject i)) then cell_updates admin_name (Reject i) else [])
  ++ [] ++ match pressed with
           | Some (SaveComment j comment) =>
               if bool_decide (j = i)
               then cell_updates admin_name (SaveComment i comment) else []
           | _ => []
           end ++ []
  = pressed_in admin_name pressed [i].
Proof.
  unfold pressed_in. destruct pressed as [[j|j|j comment]|]; [| | |done].
  - rewrite (bool_decide_eq_false_2 (Some (Approve j) = Some (Reject i))) by done.
    destruct (decide (j = i)) as [->|Hne].
    + rewrite bool_decide_eq_true_2 by done.
      rewrite decide_True by (apply list_elem_of_singleton; done). by rewrite !app_nil_r.
    + rewrite bool_decide_eq_false_2 by congruence.
      by rewrite decide_False by (by intros ?%list_elem_of_singleton).
  - rewrite (bool_decide_eq_false_2 (Some (Reject j) = Some (Approve i))) by done.
    destruct (decide (j = i)) as [->|Hne].
    + rewrite bool_decide_eq_true_2 by done.
      rewrite decide_True by (apply list_elem_of_singleton; done). by rewrite !app_nil_r.
    + rewrite bool_decide_eq_false_2 by congruence.
      by rewrite decide_False by (by intros ?%list_elem_of_singleton).
  - rewrite (bool_decide_eq_false_2 (Some (SaveComment j comment) = Some (Approve i))) by done.
    rewrite (bool_decide_eq_false_2 (Some (SaveComment j comment) = Some (Reject i))) by done.
    destruct (decide (j = i)) as [->|Hne].
    + rewrite bool_decide_eq_true_2 by done.
      rewrite decide_True by (apply list_elem_of_singleton; done). by rewrite !app_nil_r.
    + rewrite bool_decide_eq_false_2 by done.
      by rewrite decide_False by (by intros ?%list_elem_of_singleton).
Qed.

(** The body of the loop on one row: it draws the card of the row and
    issues the calls of the press when the press is on the row; when the
    row raises, it has issued these calls or none. *)
Lemma card_runs cols admin_name pressed r (s : Sheet) :
  ∃ us, runs s us (drawn cols r) (card cols admin_name pressed r)
        ∧ (us = [] ∨ us = pressed_in admin_name pressed [r.1])
        ∧ (is_Some (drawn cols r) → us = pressed_in admin_name pressed [r.1]).
Proof.
  rewrite drawn_eq. unfold card.
  assert (Hraise : ∀ (f : Value → Run Sheet Card),
            ∃ us, runs s us None (or_raise None ≫= f)
                  ∧ (us = [] ∨ us = pressed_in admin_name pressed [r.1])
                  ∧ (is_Some (@None Card) → us = pressed_in admin_name pressed [r.1])).
  { intros f. exists []. split; [apply runs_bind_raise, runs_or_raise|].
    split; [by left|]. by intros [? ?]. }
  destruct (item "Timestamp" cols r) as [timestamp|]; [|apply Hraise].
  destruct (item "Kitchen" cols r) as [kitchen|] eqn:Hk.
  2:{ exists []. split; [|split; [by left|by intros [? ?]]].
      apply (runs_bind s [] [] timestamp); [apply runs_or_raise|].
      intros s1 _. apply runs_bind_raise, runs_or_raise. }
  destruct (item "Employee Name" cols r) as [employee_name|] eqn:Hn.
  2:{ exists []. split; [|split; [by left|by intros [? ?]]].
      apply (runs_bind s [] [] timestamp); [apply runs_or_raise|]. intros s1 _.
      apply (runs_bind s1 [] [] kitchen); [apply runs_or_raise|]. intros s2 _.
      apply runs_bind_raise, runs_or_raise. }
  destruct (item "Employee ID" cols r) as [employee_id|] eqn:He.
  2:{ exists []. split; [|split; [by left|by intros [? ?]]].
      apply (runs_bind s [] [] timestamp); [apply runs_or_raise|]. intros s1 _.
      apply (runs_bind s1 [] [] kitchen); [apply runs_or_raise|]. intros s2 _.
      apply (runs_bind s2 [] [] employee_name); [apply runs_or_raise|]. intros s3 _.
      apply runs_bind_raise, runs_or_raise. }
  destruct (item "Status" cols r) as [status|] eqn:Hst.
  2:{ exists []. split; [|split; [by left|by intros [? ?]]].
      apply (runs_bind s [] [] timestamp); [apply runs_or_raise|]. intros s1 _.
      apply (runs_bind s1 [] [] kitchen); [apply runs_or_raise|]. intros s2 _.
      apply (runs_bind s2 [] [] employee_name); [apply runs_or_raise|]. intros s3 _.
      apply (runs_bind s3 [] [] employee_id); [apply runs_or_raise|]. intros s4 _.
      apply runs_bind_raise, runs_or_raise. }
  destruct (item "Photo URL" cols r) as [photo_url|] eqn:Hp.
  2:{ exists []. split; [|split; [by left|by intros [? ?]]].
      apply (runs_bind s [] [] timestamp); [apply runs_or_raise|]. intros s1 _.
      apply (runs_bind s1 [] [] kitchen); [apply runs_or_raise|]. intros s2 _.
      apply (runs_bind s2 [] [] employee_name); [apply runs_or_raise|]. intros s3 _.
      apply (runs_bind s3 [] [] employee_id); [apply runs_or_raise|]. intros s4 _.
      apply (runs_bind s4 [] [] status); [apply runs_or_raise|]. intros s5 _.
      apply runs_bind_raise, runs_or_raise. }
  assert (Hhead : ∀ us ov (m : Run Sheet Card),
            (∀ s', runs s' us ov m) →
            runs s us ov
              (_ ← or_raise (Some timestamp); _ ← or_raise (Some kitchen);
               _ ← or_raise (Some employee_name); _ ← or_raise (Some employee_id);
               _ ← or_raise (Some status); _ ← or_raise (Some photo_url); m)).
  { intros us ov m Hm.
    apply (runs_bind s [] us timestamp); [apply runs_or_raise|]. intros s1 _.
    apply (runs_bind s1 [] us kitchen); [apply runs_or_raise|]. intros s2 _.
    apply (runs_bind s2 [] us employee_name); [apply runs_or_raise|]. intros s3 _.
    apply (runs_bind s3 [] us employee_id); [apply runs_or_raise|]. intros s4 _.
    apply (runs_bind s4 [] us status); [apply runs_or_raise|]. intros s5 _.
    apply (runs_bind s5 [] us photo_url); [apply runs_or_raise|]. intros s6 _.
    apply Hm. }
  assert (Hdecisions :
            (if bool_decide (pressed = Some (Approve r.1))
             then cell_updates admin_name (Approve r.1) else [])
            ++ (if bool_decide (pressed = Some (Reject r.1))
                then cell_updates admin_name (Reject r.1) else []) ++ [] = []
            ∨ (if bool_decide (pressed = Some (Approve r.1))
               then cell_updates admin_name (Approve r.1) else [])
              ++ (if bool_decide (pressed = Some (Reject r.1))
                  then cell_updates admin_name (Reject r.1) else []) ++ []
              = pressed_in admin_name pressed [r.1]).
  { rewrite <- (buttons_pressed admin_name pressed r.1).
    destruct pressed as [[j|j|j comment]|]; [| |by left|by left].
    - rewrite (bool_decide_eq_false_2 (Some (Approve j) = Some (Reject r.1))) by done.
      right. by rewrite !app_nil_r.
    - rewrite (bool_decide_eq_false_2 (Some (Reject j) = Some (Approve r.1))) by done.
      right. by rewrite !app_nil_r. }
  cbn [mbind option_bind].
  destruct (item "Comments" cols r ≫= text_area_value) as [comment|] eqn:Hc.
  - exists ((if bool_decide (pressed = Some (Approve r.1))
             then cell_updates admin_name (Approve r.1) else [])
            ++ (if bool_decide (pressed = Some (Reject r.1))
                then cell_updates admin_name (Reject r.1) else [])
            ++ [] ++ match pressed with
                     | Some (SaveComment j comment) =>
                         if bool_decide (j = r.1)
                         then cell_updates admin_name (SaveComment r.1 comment) else []
                     | _ => []
                     end ++ []).
    split; [|split; [right; apply buttons_pressed|intros _; apply buttons_pressed]].
    apply Hhead. intros s'.
    apply (runs_bind s' _ _ ()); [apply runs_button|]. intros s1 _.
    apply (runs_bind s1 _ _ ()); [apply runs_button|]. intros s2 _.
    apply (runs_bind s2 [] _ comment); [apply runs_or_raise|]. intros s3 _.
    apply (runs_bind s3 _ [] ()); [apply runs_save_comment|]. intros s4 _.
    apply runs_ret.
  - exists ((if bool_decide (pressed = Some (Approve r.1))
             then cell_updates admin_name (Approve r.1) else [])
            ++ (if bool_decide (pressed = Some (Reject r.1))
                then cell_updates admin_name (Reject r.1) else []) ++ []).
    split; [|split; [apply Hdecisions|by intros [? ?]]].
    apply Hhead. intros s'.
    apply (runs_bind s' _ _ ()); [apply runs_button|]. intros s1 _.
    apply (runs_bind s1 _ _ ()); [apply runs_button|]. intros s2 _.
    apply runs_bind_raise, runs_or_raise.
Qed.

(** A row with the six columns of the card and no comment for the box:
    the body of the loop raises at the box, after the calls of "Approve"
    or "Reject" when one of them is pressed on the row. *)
Lemma card_raises_late cols admin_name pressed r (s : Sheet) :
  (∀ name, name ∈ ["Timestamp"; "Kitchen"; "Employee Name"; "Employee ID";
                   "Status"; "Photo URL"] → is_Some (item name cols r)) →
  item "Comments" cols r ≫= text_area_value = None →
  runs s ((if bool_decide (pressed = Some (Approve r.1))
           then cell_updates admin_name (Approve r.1) else [])
          ++ (if bool_decide (pressed = Some (Reject r.1))
              then cell_updates admin_name (Reject r.1) else []))
    (@None Card) (card cols admin_name pressed r).
Proof.
  intros Hitems Hbox. unfold card.
  destruct (Hitems "Timestamp") as [timestamp ->]; [set_solver|].
  destruct (Hitems "Kitchen") as [kitchen ->]; [set_solver|].
  destruct (Hitems "Employee Name") as [employee_name ->]; [set_solver|].
  destruct (Hitems "Employee ID") as [employee_id ->]; [set_solver|].
  destruct (Hitems "Status") as [status ->]; [set_solver|].
  destruct (Hitems "Photo URL") as [photo_url ->]; [set_solver|].
  rewrite Hbox.
  rewrite <- (app_nil_r (if bool_decide (pressed = Some (Reject r.1))
                         then cell_updates admin_name (Reject r.1) else [])).
  apply (runs_bind s [] _ timestamp); [apply runs_or_raise|]. intros s1 _.
  apply (runs_bind s1 [] _ kitchen); [apply runs_or_raise|]. intros s2 _.
  apply (runs_bind s2 [] _ employee_name); [apply runs_or_raise|]. intros s3 _.
  apply (runs_bind s3 [] _ employee_id); [apply runs_or_raise|]. intros s4 _.
  apply (runs_bind s4 [] _ status); [apply runs_or_raise|]. intros s5 _.
  apply (runs_bind s5 [] _ photo_url); [apply runs_or_raise|]. intros s6 _.
  apply (runs_bind s6 _ _ ()); [apply runs_button|]. intros s7 _.
  apply (runs_bind s7 _ _ ()); [apply runs_button|]. intros s8 _.
  apply runs_bind_raise, runs_or_raise.
Qed.

Lemma pressed_in_cons admin_name pressed i indices :
  i ∉ indices →
  pressed_in admin_name pressed (i :: indices)
  = pressed_in admin_name pressed [i] ++ pressed_in admin_name pressed indices.
Proof.
  intros Hi. unfold pressed_in. destruct pressed as [c|]; [|done].
  destruct (decide (click_index c = i)) as [->|Hne].
  - rewrite decide_True by (apply elem_of_cons; by left).
    rewrite decide_True by (apply list_elem_of_singleton; done).
    rewrite decide_False by done. by rewrite app_nil_r.
  - rewrite (decide_False (P := click_index c ∈ [i]))
      by (by intros ?%list_elem_of_singleton).
    simpl. destruct (decide (click_index c ∈ indices)) as [Hin|Hout].
    + by rewrite decide_True by (apply elem_of_cons; by right).
    + rewrite decide_False; [done|]. by intros [?|?]%elem_of_cons.
Qed.

(** The loop over rows of distinct index labels: it draws their cards
    and issues the calls of the press when the press is on one of them;
    when a row raises, it has issued these calls or none. *)
Lemma loop_runs cols admin_name pressed (l : list (nat * Row)) (s : Sheet) :
  NoDup l.*1 →
  ∃ us, runs s us (mapM (drawn cols) l) (for_each (card cols admin_name pressed) l)
        ∧ (us = [] ∨ us = pressed_in admin_name pressed l.*1)
        ∧ (is_Some (mapM (drawn cols) l) → us = pressed_in admin_name pressed l.*1).
Proof.
  revert s. induction l as [|r l IH]; intros s Hnd.
  { exists []. split; [apply runs_ret|]. split; [by left|]. intros _.
    unfold pressed_in. destruct pressed; [|done]. by rewrite decide_False by apply not_elem_of_nil. }
  rewrite fmap_cons in Hnd. apply NoDup_cons in Hnd as [Hr Hnd].
  destruct (card_runs cols admin_name pressed r s) as (us1 & Hcard & Hus1 & Hdrawn).
  rewrite fmap_cons, (pressed_in_cons _ _ _ _ Hr). cbn [for_each mapM].
  destruct (drawn cols r) as [c|] eqn:Hc.
  - specialize (Hdrawn (ltac:(eauto))). subst us1.
    pose proof Hcard as (s1 & Hs1 & _).
    destruct (IH s1 Hnd) as (us2 & Hloop & Hus2 & Hshown).
    exists (pressed_in admin_name pressed [r.1] ++ us2 ++ []). split; [|split].
    + apply (runs_bind s _ _ c); [done|]. intros s1' Hs1'.
      rewrite Hs1 in Hs1'. injection Hs1' as <-.
      destruct (mapM (drawn cols) l) as [cs|] eqn:Hcs; cbn [mbind option_bind mret option_ret].
      * apply (runs_bind s1 _ _ cs); [done|]. intros s2 _. apply runs_ret.
      * rewrite app_nil_r. by apply runs_bind_raise.
    + rewrite app_nil_r.
      destruct (pressed_in_cases admin_name pressed [r.1]) as [Hnone|(c0 & Hp & Hin & Hsome)].
      * rewrite Hnone. simpl. done.
      * destruct Hus2 as [-> | ->]; [|by right].
        right. f_equal. unfold pressed_in. rewrite Hp.
        apply list_elem_of_singleton in Hin. rewrite decide_False; [done|]. by rewrite Hin.
    + intros Hsome. rewrite app_nil_r. f_equal. apply Hshown.
      destruct (mapM (drawn cols) l); [eauto|]. by destruct Hsome.
  - exists us1. split; [|split].
    + by apply runs_bind_raise.
    + destruct Hus1 as [-> | ->]; [by left|].
      destruct (pressed_in_cases admin_name pressed [r.1]) as [Hnone|(c0 & Hp & Hin & Hsome)].
      * left. done.
      * right. assert (Hl : pressed_in admin_name pressed l.*1 = []).
        { unfold pressed_in. rewrite Hp. apply list_elem_of_singleton in Hin.
          rewrite decide_False; [done|]. by rewrite Hin. }
        by rewrite Hl, app_nil_r.
    + by intros [? ?].
Qed.

(** *** The run *)

(** A run of the admin dashboard: its page is a function of the
    worksheet, the same whatever is pressed, and its calls are those of
    the press when the press is on a row of the list. *)
Lemma admin_run_runs secrets password admin_name admin_menu
    kitchen_filter status_filter search_text pressed (s : Sheet) :
  ∃ us,
    runs s us
      (match admin_gate secrets password admin_name with
       | Some m => Some (Stopped m)
       | None =>
           if (length (get_all_values s) <? 2)%nat
           then Some (Stopped (Info "No requests found."))
           else
             match admin_rows admin_menu kitchen_filter status_filter search_text
                     (DataFrame (get_all_values s)) with
             | Some filtered_df =>
                 if decide (filtered_df = [])
                 then Some (Stopped (Info "No matching requests found."))
                 else Shown <$> mapM (drawn (columns (DataFrame (get_all_values s))))
                                  filtered_df
             | None => None
             end
       end)
      (admin_run secrets password admin_name admin_menu
         kitchen_filter status_filter search_text pressed)
    ∧ (us = []
       ∨ ∃ l, admin_gate secrets password admin_name = None
              ∧ admin_rows admin_menu kitchen_filter status_filter search_text
                  (DataFrame (get_all_values s)) = Some l
              ∧ us = pressed_in admin_name pressed l.*1)
    ∧ (∀ l cards,
         admin_gate secrets password admin_name = None →
         admin_rows admin_menu kitchen_filter status_filter search_text
           (DataFrame (get_all_values s)) = Some l →
         l ≠ [] →
         mapM (drawn (columns (DataFrame (get_all_values s)))) l = Some cards →
         us = pressed_in admin_name pressed l.*1).
Proof.
  unfold admin_run. destruct (admin_gate secrets password admin_name) as [m|] eqn:Hgate.
  { exists []. split; [apply runs_ret|]. split; [by left|done]. }
  assert (Hread : ∀ us ov (f : list Row → Run Sheet (Page (list Card))),
            runs s us ov (f (get_all_values s)) →
            runs s us ov (Service.get_all_values ≫= f)).
  { intros us ov f Hf.
    apply (runs_bind s [] us (get_all_values s)); [apply runs_get_all_values|].
    by intros s1 [= <-]. }
  destruct (length (get_all_values s) <? 2) eqn:Hlen.
  { exists []. split; [|split; [by left|]].
    - apply Hread. rewrite Hlen. apply runs_ret.
    - intros l cards _ Hl Hne Hcards. exfalso.
      apply Nat.ltb_lt in Hlen. apply Hne.
      assert (Hrows : rows (DataFrame (get_all_values s)) = []).
      { unfold DataFrame. simpl.
        destruct (get_all_values s) as [|? [|? ?]]; simpl in *; [done|done|lia]. }
      apply admin_rows_sublist in Hl. rewrite Hrows in Hl. by apply sublist_nil_r in Hl. }
  destruct (admin_rows admin_menu kitchen_filter status_filter search_text
              (DataFrame (get_all_values s))) as [l|] eqn:Hl.
  2:{ exists []. split; [|split; [by left|done]].
      apply Hread. rewrite Hlen, Hl. apply runs_bind_raise, runs_or_raise. }
  destruct (decide (l = [])) as [->|Hne].
  { exists []. split; [|split; [by left|]].
    - apply Hread. rewrite Hlen, Hl.
      apply (runs_bind s [] [] []); [apply runs_or_raise|]. intros s1 _.
      rewrite decide_True by done. apply runs_ret.
    - by intros l cards _ [= <-]. }
  destruct (loop_runs (columns (DataFrame (get_all_values s))) admin_name pressed l s)
    as (us & Hloop & Hus & Hshown); [by apply (admin_rows_NoDup _ _ _ _ _ _ Hl)|].
  exists us. split; [|split].
  - apply Hread. rewrite Hlen, Hl.
    apply (runs_bind s [] us l); [apply runs_or_raise|]. intros s1 [= <-].
    rewrite decide_False by done. by apply runs_fmap.
  - destruct Hus as [-> | ->]; [by left|]. right. by exists l.
  - intros l' cards _ [= <-] _ Hcards. apply Hshown. by rewrite Hcards.
Qed.

(** The page of the admin dashboard, as a function of the worksheet. *)
Lemma admin_dashboard_eq secrets password admin_name admin_menu
    kitchen_filter status_filter search_text (s : Sheet) :
  admin_dashboard secrets password admin_name admin_menu
    kitchen_filter status_filter search_text s
  = match admin_gate secrets password admin_name with
    | Some m => Some (Stopped m)
    | None =>
        if (length (get_all_values s) <? 2)%nat
        then Some (Stopped (Info "No requests found."))
        else
          match admin_rows admin_menu kitchen_filter status_filter search_text
                  (DataFrame (get_all_values s)) with
          | Some filtered_df =>
              if decide (filtered_df = [])
              then Some (Stopped (Info "No matching requests found."))
              else Shown <$> mapM (drawn (columns (DataFrame (get_all_values s))))
                               filtered_df
          | None => None
          end
    end.
Proof.
  destruct (admin_run_runs secrets password admin_name admin_menu kitchen_filter
              status_filter search_text None s) as (us & (s' & _ & Hrun & _) & _).
  unfold admin_dashboard. by rewrite Hrun.
Qed.

(** A page of cards comes from an open gate and from the rows that the
    filters keep. *)
Lemma admin_dashboard_rows secrets password admin_name admin_menu
    kitchen_filter status_filter search_text (s : Sheet) cards :
  admin_dashboard secrets password admin_name admin_menu
    kitchen_filter status_filter search_text s = Some (Shown cards) →
  admin_gate secrets password admin_name = None
  ∧ 2 ≤ length s
  ∧ ∃ l, admin_rows admin_menu kitchen_filter status_filter search_text
           (DataFrame (get_all_values s)) = Some l
         ∧ l ≠ []
         ∧ mapM (drawn (columns (DataFrame (get_all_values s)))) l = Some cards.
Proof.
  rewrite admin_dashboard_eq. destruct (admin_gate _ _ _); [done|].
  destruct (length (get_all_values s) <? 2) eqn:Hlen; [done|].
  apply Nat.ltb_ge in Hlen. rewrite length_get_all_values in Hlen.
  destruct (admin_rows _ _ _ _ _) as [l|] eqn:Hl; [|done].
  case_decide as Hnil; [done|].
  destruct (mapM _ l) as [cs|] eqn:Hm; [|done].
  intros [= <-]. split; [done|]. split; [done|]. by exists l.
Qed.

(** What the page of the admin dashboard is made of, when it lists. *)
Lemma admin_dashboard_cards secrets password admin_name admin_menu
    kitchen_filter status_filter search_text (s : Sheet) cards c :
  admin_dashboard secrets password admin_name admin_menu
    kitchen_filter status_filter search_text s = Some (Shown cards) →
  c ∈ cards →
  ∃ i r, tail (get_all_values s) !! i = Some r
         ∧ drawn (columns (DataFrame (get_all_values s))) (i, r) = Some c.
Proof.
  intros (_ & _ & l & Hl & _ & Hm)%admin_dashboard_rows Hc.
  destruct (cards_rows _ _ _ _ Hm Hc) as ([i r] & Hr & Hcard).
  exists i, r. split; [|done].
  apply elem_of_rows. by apply (admin_rows_subset _ _ _ _ _ _ Hl).
Qed.

(** The calls of a press are on a stored request, behind an open gate. *)
Lemma pressed_in_rows admin_name admin_menu
    kitchen_filter status_filter search_text pressed (s : Sheet) l :
  admin_rows admin_menu kitchen_filter status_filter search_text
    (DataFrame (get_all_values s)) = Some l →
  pressed_in admin_name pressed l.*1 = []
  ∨ ∃ c, pressed = Some c ∧ click_index c < length (requests s)
         ∧ pressed_in admin_name pressed l.*1 = cell_updates admin_name c.
Proof.
  intros Hl.
  destruct (pressed_in_cases admin_name pressed l.*1) as [?|(c & Hp & Hin & Hus)];
    [by left|right].
  exists c. split; [done|]. split; [|done].
  apply list_elem_of_fmap in Hin as ([i r] & Hi & Hr). simpl in Hi. subst i.
  apply (admin_rows_subset _ _ _ _ _ _ Hl), elem_of_rows in Hr.
  apply lookup_lt_Some in Hr. by unfold requests.
Qed.

(** Whatever a run of the admin dashboard leaves: the worksheet as it
    was, or the worksheet after the first calls of a press on a stored
    request, behind an open gate. *)
Lemma admin_run_writes secrets password admin_name admin_menu
    kitchen_filter status_filter search_text pressed (s s' : Sheet) calls calls' v :
  admin_run secrets password admin_name admin_menu
    kitchen_filter status_filter search_text pressed (s, calls) = ((s', calls'), v) →
  s' = s
  ∨ ∃ c n, pressed = Some c
           ∧ admin_gate secrets password admin_name = None
           ∧ click_index c < length (requests s)
           ∧ run_updates (take n (cell_updates admin_name c)) s = Some s'.
Proof.
  intros Hrun.
  destruct (admin_run_runs secrets password admin_name admin_menu kitchen_filter
              status_filter search_text pressed s)
    as (us & (s_end & _ & _ & Hcut) & Hus & _).
  destruct (Hcut calls) as (n & s'' & calls'' & v' & Hrun' & Hpre & _).
  rewrite Hrun in Hrun'. injection Hrun' as <- <- <-.
  destruct Hus as [->|(l & Hgate & Hl & ->)].
  { left. rewrite take_nil in Hpre. by injection Hpre. }
  destruct (pressed_in_rows admin_name admin_menu kitchen_filter
              status_filter search_text pressed s l Hl) as [Hnone|(c & Hp & Hi & Hsome)].
  - left. rewrite Hnone, take_nil in Hpre. by injection Hpre.
  - right. exists c, n. rewrite Hsome in Hpre. done.
Qed.

(** A run in which a button is pressed and every call returns: its page
    is the page of the run in which nothing is pressed, and it leaves the
    worksheet after the calls of the press, or as it was. *)
Lemma admin_click_eq secrets password admin_name admin_menu
    kitchen_filter status_filter search_text c (s : Sheet) :
  ∃ us s',
    admin_click secrets password admin_name admin_menu
      kitchen_filter status_filter search_text c s
    = (s', admin_dashboard secrets password admin_name admin_menu
             kitchen_filter status_filter search_text s)
    ∧ run_updates us s = Some s'
    ∧ (us = []
       ∨ (admin_gate secrets password admin_name = None
          ∧ click_index c < length (requests s)
          ∧ us = cell_updates admin_name c))
    ∧ (∀ cards,
         admin_dashboard secrets password admin_name admin_menu
           kitchen_filter status_filter search_text s = Some (Shown cards) →
         us = pressed_in admin_name (Some c) (c_index <$> cards)).
Proof.
  destruct (admin_run_runs secrets password admin_name admin_menu kitchen_filter
              status_filter search_text (Some c) s)
    as (us & (s' & Hs' & Hrun & _) & Hus & Hshown).
  exists us, s'. split; [|split; [done|split]].
  - unfold admin_click. rewrite Hrun. by rewrite admin_dashboard_eq.
  - destruct Hus as [->|(l & Hgate & Hl & ->)]; [by left|].
    destruct (pressed_in_rows admin_name admin_menu kitchen_filter
                status_filter search_text (Some c) s l Hl)
      as [Hnone|(c' & [= <-] & Hi & Hsome)]; [by left|by right].
  - intros cards (Hgate & _ & l & Hl & Hne & Hcards)%admin_dashboard_rows.
    rewrite (cards_indices _ _ _ Hcards). by apply (Hshown l cards).
Qed.

End AdminList.

(** ** Search, timestamps and buttons of the admin dashboard *)

Section Search.
Context {L : Library} {Laws : LibraryLaws L}.

(** C6, as amended. With the name and identifier columns in place: a
    search text made of white space only (or empty) filters nothing; a
    search text with a character that is not white space and with no
    operator of regular expressions keeps exactly the rows in which it
    occurs, case ignored, as a substring of the employee name or of the
    employee identifier, in their order. *)
Theorem search_keeps_matching_rows cols n e search_text (l : list (nat * Row)) :
  get_loc "Employee Name" cols = Some n →
  get_loc "Employee ID" cols = Some e →
  (¬ nonblank search_text → search cols search_text l = Some l)
  ∧ (nonblank search_text → Text.literal search_text = true →
     ∃ kept, search cols search_text l = Some kept
       ∧ (∀ r, r ∈ kept ↔
               r ∈ l ∧ (occurs_ci search_text (at_ n r)
                        ∨ occurs_ci search_text (at_ e r)))
       ∧ kept `sublist_of` l).
Proof.
  intros Hn He. unfold search. split.
  - intros Hblank. destruct (Text.truthy _) eqn:Hs; [|done].
    by apply strip_truthy in Hs.
  - intros Hs%strip_truthy Hlit. rewrite Hs, Hn, He.
    destruct (re_compile_literal search_text Hlit) as (m & -> & Hm). simpl.
    eexists. split; [done|]. split; [|apply sublist_filter].
    intros r. rewrite list_elem_of_filter, orb_True, !Hm, !Is_true_true.
    rewrite !contains_ci_spec. tauto.
Qed.

End Search.

Section AdminViews.
Context `{Library}.

Lemma gate_open secrets password admin_name :
  admin_gate secrets password admin_name = None
  ↔ password = default "admin123" (secrets !! "admin_password") ∧ nonblank admin_name.
Proof.
  unfold admin_gate, is_admin. split.
  - case_bool_decide; simpl; [|done].
    destruct (Text.truthy (Text.strip admin_name)) eqn:Hn; simpl; [|done].
    intros _. split; [done|]. by apply strip_truthy.
  - intros [Hp Hn]. rewrite bool_decide_eq_true_2 by done. simpl.
    apply strip_truthy in Hn. by rewrite Hn.
Qed.

(** The rows that the view, the two boxes and the search keep. *)
Lemma admin_rows_spec admin_menu kitchen_filter status_filter search_text
    (df : Frame) jst jk jn je m :
  get_loc "Status" (columns df) = Some jst →
  get_loc "Kitchen" (columns df) = Some jk →
  get_loc "Employee Name" (columns df) = Some jn →
  get_loc "Employee ID" (columns df) = Some je →
  search_pattern search_text = Some m →
  ∃ l, admin_rows admin_menu kitchen_filter status_filter search_text df = Some l
    ∧ l `sublist_of` rows df
    ∧ ∀ x, x ∈ l ↔
           x ∈ rows df
           ∧ (admin_menu = PendingRequests → at_ jst x = "Pending")
           ∧ (kitchen_filter ≠ "All" → at_ jk x = kitchen_filter)
           ∧ (status_filter ≠ "All" → at_ jst x = status_filter)
           ∧ (∀ f, m = Some f → f (at_ jn x) || f (at_ je x) = true).
Proof.
  intros Hst Hk Hn He Hm. unfold admin_rows, search, search_pattern in *.
  rewrite Hst, Hk.
  destruct (Text.truthy (Text.strip search_text)).
  - destruct (re_compile search_text) as [f|]; [|done].
    injection Hm as <-. rewrite Hn, He.
    destruct admin_menu, (decide (kitchen_filter ≠ "All")),
      (decide (status_filter ≠ "All")); cbn [mbind option_bind];
      (eexists; split; [reflexivity|]; split;
       [repeat (etrans; [apply sublist_filter|]); done|]);
      intros x; rewrite ?list_elem_of_filter;
      (split; [intros ?; repeat split; try tauto; try done;
               intros ? [= <-]; apply Is_true_true; tauto
              |intros (? & ? & ? & ? & Hf); specialize (Hf f eq_refl);
               apply Is_true_true in Hf; tauto]).
  - injection Hm as <-.
    destruct admin_menu, (decide (kitchen_filter ≠ "All")),
      (decide (status_filter ≠ "All")); cbn [mbind option_bind];
      (eexists; split; [reflexivity|]; split;
       [repeat (etrans; [apply sublist_filter|]); done|]);
      intros x; rewrite ?list_elem_of_filter;
      (split; [intros ?; repeat split; try tauto; done|tauto]).
Qed.

Lemma at_request_field (s : Sheet) i r :
  tail (get_all_values s) !! i = Some r →
  at_ 5 (i, r) = request_field s i Status
  ∧ at_ 1 (i, r) = request_field s i Site
  ∧ at_ 2 (i, r) = request_field s i EmployeeName
  ∧ at_ 3 (i, r) = request_field s i EmployeeId.
Proof.
  intros Hr. rewrite !(at_request s i r) by done. by rewrite !request_field_cell.
Qed.

(** The page of the admin dashboard behind an open gate, with the header
    row in place and a search text that is blank or compiles. *)
Lemma admin_listing secrets password admin_name admin_menu
    kitchen_filter status_filter search_text (s : Sheet) m :
  header_ok s = true →
  admin_gate secrets password admin_name = None →
  search_pattern search_text = Some m →
  ∃ page,
    admin_dashboard secrets password admin_name admin_menu
      kitchen_filter status_filter search_text s = Some page
    ∧ (∀ i, i ∈ c_index <$> table_of page
            ↔ listed admin_menu kitchen_filter status_filter m s i)
    ∧ (c_index <$> table_of page) `sublist_of` seq 0 (length (requests s))
    ∧ (length s < 2 → page = Stopped (Info "No requests found."))
    ∧ (2 ≤ length s → table_of page = [] →
       page = Stopped (Info "No matching requests found."))
    ∧ (table_of page ≠ [] → page = Shown (table_of page)).
Proof.
  intros Hh Hgate Hm.
  pose proof (header_ok_columns s Hh) as (Ht & Hk & Hn & He & Hp & Hst & Hc).
  rewrite admin_dashboard_eq, Hgate.
  destruct (length (get_all_values s) <? 2) eqn:Hlen.
  - apply Nat.ltb_lt in Hlen. eexists. split; [done|]. simpl.
    pose proof (requests_nil s Hlen) as Hnil. rewrite Hnil. simpl.
    rewrite length_get_all_values in Hlen.
    split; [|split; [done|split; [done|split; [lia|done]]]].
    intros i. split; [by intros ?%elem_of_nil|].
    intros [Hi _]. rewrite Hnil in Hi. simpl in Hi. lia.
  - apply Nat.ltb_ge in Hlen. rewrite length_get_all_values in Hlen.
    destruct (admin_rows_spec admin_menu kitchen_filter status_filter search_text
                (DataFrame (get_all_values s)) 5 1 2 3 m Hst Hk Hn He Hm)
      as (l & Hl & Hsub & Hin).
    rewrite Hl.
    assert (Hkeys : ∀ i, i ∈ l.*1
                         ↔ listed admin_menu kitchen_filter status_filter m s i).
    { intros i. unfold listed, requests. split.
      - intros ([j r] & -> & Hx)%list_elem_of_fmap. simpl.
        apply Hin in Hx as (Hr%elem_of_rows & Hx).
        destruct (at_request_field s j r Hr) as (<- & <- & <- & <-).
        split; [by apply lookup_lt_Some in Hr|done].
      - intros (Hi & Hx). destruct (lookup_lt_is_Some_2 _ _ Hi) as [r Hr].
        apply list_elem_of_fmap. exists (i, r). split; [done|].
        apply Hin. split; [by apply elem_of_rows|].
        by destruct (at_request_field s i r Hr) as (-> & -> & -> & ->). }
    assert (Hord : l.*1 `sublist_of` seq 0 (length (requests s))).
    { unfold requests. rewrite <- rows_indices. by apply fmap_sublist. }
    case_decide as Hnil.
    + subst l. eexists. split; [done|]. simpl.
      split; [done|split; [done|split; [lia|done]]].
    + pose proof (card_is_Some s) as Hcard.
      set (cols := columns (DataFrame (get_all_values s))) in *.
      destruct (mapM_is_Some_2 (drawn cols) l) as [cards Hcards].
      { apply Forall_forall. intros r _. by apply Hcard. }
      rewrite Hcards. eexists. split; [done|]. simpl.
      rewrite (cards_indices cols l cards Hcards).
      split; [done|split; [done|split; [lia|split; [|done]]]].
      intros _ ->. apply mapM_Some_1 in Hcards. apply Forall2_nil_inv_r in Hcards. done.
Qed.

(** C9. With the header row in place and a search text that is blank or
    compiles, the admin dashboard returns a page whatever the timestamps
    hold, also in a run in which a button is pressed.  Behind the open
    gate every request that the view and the filters keep has its card on
    the page, whether or not [strptime] reads its timestamp in the format
    "%Y-%m-%d %H:%M:%S"; and the card of a request whose timestamp is not
    read shows that timestamp as it is stored. *)
Theorem unparsed_timestamp_shown_raw secrets password admin_name admin_menu
    kitchen_filter status_filter search_text (s : Sheet) m :
  header_ok s = true →
  search_pattern search_text = Some m →
  ∃ page,
    admin_dashboard secrets password admin_name admin_menu
      kitchen_filter status_filter search_text s = Some page
    ∧ (∀ click, ∃ s',
         admin_click secrets password admin_name admin_menu
           kitchen_filter status_filter search_text click s = (s', Some page))
    ∧ (admin_gate secrets password admin_name = None →
       ∀ i, listed admin_menu kitchen_filter status_filter m s i →
            ∃ c, c ∈ table_of page ∧ c_index c = i
                 ∧ (strptime (request_field s i Timestamp) = None →
                    request_time_str c = Scalar (request_field s i Timestamp)))
    ∧ (∀ c, c ∈ table_of page →
         strptime (request_field s (c_index c) Timestamp) = None →
         request_time_str c = Scalar (request_field s (c_index c) Timestamp)).
Proof.
  intros Hh Hm.
  assert (Hpage : ∃ page,
    admin_dashboard secrets password admin_name admin_menu
      kitchen_filter status_filter search_text s = Some page
    ∧ (admin_gate secrets password admin_name = None →
       ∀ i, i ∈ c_index <$> table_of page
            ↔ listed admin_menu kitchen_filter status_filter m s i)).
  { destruct (admin_gate secrets password admin_name) as [w|] eqn:Hgate.
    - exists (Stopped w). split; [|done]. by rewrite admin_dashboard_eq, Hgate.
    - destruct (admin_listing secrets password admin_name admin_menu kitchen_filter
                  status_filter search_text s m Hh Hgate Hm)
        as (page & Hpage & Hin & _).
      exists page. by split. }
  destruct Hpage as (page & Hpage & Hin). exists page.
  assert (Hraw : ∀ c, c ∈ table_of page →
            strptime (request_field s (c_index c) Timestamp) = None →
            request_time_str c = Scalar (request_field s (c_index c) Timestamp)).
  { intros c Hc Hts.
    destruct page as [w|cards]; simpl in Hc; [by apply elem_of_nil in Hc|].
    destruct (admin_dashboard_cards _ _ _ _ _ _ _ _ _ _ Hpage Hc) as (i & r & Hr & Hcard).
    rewrite (card_of_request s i r c Hh Hr Hcard) in *. simpl in *. by rewrite Hts. }
  split; [done|]. split; [|split; [|done]].
  - intros click.
    destruct (admin_click_eq secrets password admin_name admin_menu kitchen_filter
                status_filter search_text click s) as (us & s' & Hclick & _).
    exists s'. by rewrite Hclick, Hpage.
  - intros Hgate i Hi. apply (Hin Hgate) in Hi.
    apply list_elem_of_fmap in Hi as (c & -> & Hc). exists c.
    split; [done|]. split; [done|]. by apply Hraw.
Qed.

(** C10. Whatever the header row, the view (pending or all) and the
    kitchen, status and search filters, a card of the admin dashboard
    carries the index [i] of its request in the unfiltered listing, and
    row [i + 2] of the worksheet holds that request.  A press of one of
    its three buttons returns with the same page and all its
    [update_cell] calls land on row [i + 2]: the worksheet after the run
    differs from the worksheet before in the status and the reviewer
    ("Approve", "Reject") or in the comment ("Save Comment") of that
    request and in nothing else.  With the header row in place the card
    shows the attributes of that request. *)
Theorem buttons_write_displayed_request secrets password admin_name admin_menu
    kitchen_filter status_filter search_text (s : Sheet) cards c click :
  admin_dashboard secrets password admin_name admin_menu
    kitchen_filter status_filter search_text s = Some (Shown cards) →
  c ∈ cards →
  click_index click = c_index c →
  let i := c_index c in
  i < length (requests s)
  ∧ (∀ f, cell s (i + 2) (field_col f) = request_field s i f)
  ∧ (header_ok s = true →
     c_kitchen c = Scalar (request_field s i Site)
     ∧ c_employee_name c = Scalar (request_field s i EmployeeName)
     ∧ c_employee_id c = Scalar (request_field s i EmployeeId)
     ∧ c_status c = Scalar (request_field s i Status)
     ∧ c_photo_url c = Scalar (request_field s i PhotoUrl)
     ∧ c_comments c = request_field s i Comment)
  ∧ ∃ s',
      admin_click secrets password admin_name admin_menu
        kitchen_filter status_filter search_text click s = (s', Some (Shown cards))
      ∧ length (requests s') = length (requests s)
      ∧ match click with
        | Approve _ =>
            request_field s' i Status = "Approved"
            ∧ request_field s' i Reviewer = admin_name
            ∧ ∀ f, f ≠ Status → f ≠ Reviewer → request_field s' i f = request_field s i f
        | Reject _ =>
            request_field s' i Status = "Rejected"
            ∧ request_field s' i Reviewer = admin_name
            ∧ ∀ f, f ≠ Status → f ≠ Reviewer → request_field s' i f = request_field s i f
        | SaveComment _ comment =>
            request_field s' i Comment = comment
            ∧ ∀ f, f ≠ Comment → request_field s' i f = request_field s i f
        end
      ∧ (∀ j f, j ≠ i → request_field s' j f = request_field s j f)
      ∧ (∀ row col, row ≠ i + 2 → cell s' row col = cell s row col).
Proof.
  intros Hpage Hc Hclick i.
  destruct (admin_dashboard_cards _ _ _ _ _ _ _ _ _ _ Hpage Hc) as (j & r & Hr & Hcard).
  assert (Hi : i = j) by (subst i; by rewrite (drawn_index _ _ _ Hcard)).
  assert (Hlt : i < length (requests s)).
  { rewrite Hi. apply lookup_lt_Some in Hr. by unfold requests. }
  split; [done|]. split; [intros f; by rewrite request_field_cell|]. split.
  { intros Hh. rewrite (card_of_request s j r c Hh Hr Hcard). simpl. by rewrite <- Hi. }
  destruct (admin_click_eq secrets password admin_name admin_menu kitchen_filter
              status_filter search_text click s) as (us & s' & Hrun & Hus & _ & Hshown).
  rewrite (Hshown cards Hpage) in Hus. unfold pressed_in in Hus.
  rewrite decide_True in Hus by (rewrite Hclick; by apply list_elem_of_fmap_2).
  destruct (click_cells admin_name click s) as (s1 & Hs1 & Hlen & Hcell);
    [by rewrite Hclick|].
  rewrite Hs1 in Hus. injection Hus as <-.
  exists s1. split; [by rewrite Hrun, Hpage|].
  split; [by apply length_requests_eq|].
  fold i in Hclick. split; [|split].
  - destruct click as [k|k|k comment]; simpl in Hclick; subst k;
      unfold click_cell in Hcell; repeat split.
    + rewrite request_field_cell, Hcell. simpl. by rewrite decide_True.
    + rewrite request_field_cell, Hcell. simpl.
      rewrite decide_False by lia. by rewrite decide_True.
    + intros f Hs Hr'. rewrite !request_field_cell, Hcell.
      rewrite decide_False by (destruct f; simpl; try done; lia).
      by rewrite decide_False by (destruct f; simpl; try done; lia).
    + rewrite request_field_cell, Hcell. simpl. by rewrite decide_True.
    + rewrite request_field_cell, Hcell. simpl.
      rewrite decide_False by lia. by rewrite decide_True.
    + intros f Hs Hr'. rewrite !request_field_cell, Hcell.
      rewrite decide_False by (destruct f; simpl; try done; lia).
      by rewrite decide_False by (destruct f; simpl; try done; lia).
    + rewrite request_field_cell, Hcell. simpl. by rewrite decide_True.
    + intros f Hf. rewrite !request_field_cell, Hcell.
      by rewrite decide_False by (destruct f; simpl; try done; lia).
  - intros k f Hk. rewrite !request_field_cell, Hcell.
    destruct click; simpl in Hclick; subst; unfold click_cell;
      repeat case_decide; try done; lia.
  - intros row col Hrow. rewrite Hcell.
    destruct click; simpl in Hclick; subst; unfold click_cell;
      repeat case_decide; try done; lia.
Qed.

End AdminViews.

(** ** The status of the stored requests *)

Section StatusInvariant.
Context `{Library}.

Lemma status_ok_append (s : Sheet) row :
  status_ok s → decided (nth 5 row "") → status_ok (append_row row s).
Proof.
  intros Hs Hrow i. rewrite length_requests. unfold append_row.
  rewrite length_app. simpl. intros Hi.
  rewrite request_field_cell. simpl. replace (i + 2) with (S (S i)) by lia. simpl.
  destruct (decide (S i < length s)) as [Hlt|Hge].
  - rewrite app_nth1 by done.
    specialize (Hs i). rewrite length_requests, request_field_cell in Hs.
    replace (i + 2) with (S (S i)) in Hs by lia. apply Hs. lia.
  - rewrite app_nth2 by lia. replace (S i - length s) with 0 by lia. done.
Qed.

Lemma status_ok_update (s s' : Sheet) :
  length s' = length s →
  (∀ i, i < length (requests s) →
        cell s' (i + 2) 6 = cell s (i + 2) 6 ∨ decided (cell s' (i + 2) 6)) →
  status_ok s → status_ok s'.
Proof.
  intros Hlen Hcell Hs i. rewrite length_requests, Hlen, <- length_requests.
  intros Hi. rewrite request_field_cell. simpl.
  destruct (Hcell i Hi) as [->|Hd]; [|done].
  specialize (Hs i Hi). by rewrite request_field_cell in Hs.
Qed.

(** The first calls of a button: none, the one that writes the status,
    or all of them. *)
Lemma first_calls admin_name c n (s s' : Sheet) :
  run_updates (take n (cell_updates admin_name c)) s = Some s' →
  s' = s
  ∨ (∃ word, (word = "Approved" ∨ word = "Rejected")
             ∧ update_cell (click_index c + 2) 6 word s = Some s')
  ∨ run_updates (cell_updates admin_name c) s = Some s'.
Proof.
  destruct c as [i|i|i comment]; destruct n as [|[|n]]; cbn [cell_updates take];
    rewrite ?take_nil; intros Hrun;
    try (left; by injection Hrun); try (by right; right).
  - right. left. exists "Approved". split; [by left|done].
  - right. left. exists "Rejected". split; [by right|done].
Qed.

(** The cells after the first calls of a button on a stored request: a
    cell is as it was, or it is the status, the reviewer or the comment
    of the request, and the reviewer is written after the status. *)
Lemma calls_cells admin_name c n (s s' : Sheet) :
  click_index c < length (requests s) →
  run_updates (take n (cell_updates admin_name c)) s = Some s' →
  length s' = length s
  ∧ ∀ row col,
      cell s' row col = cell s row col
      ∨ (row = click_index c + 2
         ∧ ((col = 6 ∧ (cell s' row col = "Approved" ∨ cell s' row col = "Rejected"))
            ∨ (col = 7 ∧ cell s' row col = admin_name
               ∧ (cell s' row 6 = "Approved" ∨ cell s' row 6 = "Rejected"))
            ∨ col = 8)).
Proof.
  intros Hi Hrun.
  destruct (first_calls _ _ _ _ _ Hrun) as [->|[(word & Hword & Hup)|Hall]].
  - split; [done|]. intros row col. by left.
  - rewrite length_requests in Hi. split.
    + apply (length_update_cell _ _ _ _ _ Hup). lia.
    + intros row col. rewrite (cell_update_cell _ _ _ _ _ _ _ Hup).
      case_decide as Hrc; [|by left]. destruct Hrc as [-> ->]. right.
      split; [done|]. left. split; [done|]. destruct Hword as [-> | ->]; tauto.
  - destruct (click_cells admin_name c s Hi) as (s1 & Hs1 & Hlen & Hcell).
    rewrite Hall in Hs1. injection Hs1 as <-. split; [done|].
    intros row col. rewrite !Hcell.
    destruct c as [i|i|i comment]; unfold click_cell; cbn [click_index];
      repeat case_decide; try (by left); try lia; right; (split; [lia|]);
      try (left; split; [lia|tauto]);
      try (right; left; split; [lia|tauto]);
      try (right; right; lia).
Qed.

Lemma status_ok_click admin_name click (s s' : Sheet) :
  click_index click < length (requests s) →
  run_updates (cell_updates admin_name click) s = Some s' →
  status_ok s → status_ok s'.
Proof.
  intros Hi Hrun. destruct click as [i|i|i comment]; simpl in Hi, Hrun.
  - destruct (decision_cells s i "Approved" admin_name Hi) as (s1 & Hs1 & Hlen & Hcell).
    rewrite Hs1 in Hrun. injection Hrun as <-.
    apply status_ok_update; [done|]. intros j _. rewrite Hcell.
    repeat case_decide; try lia; [right; unfold decided; tauto|by left].
  - destruct (decision_cells s i "Rejected" admin_name Hi) as (s1 & Hs1 & Hlen & Hcell).
    rewrite Hs1 in Hrun. injection Hrun as <-.
    apply status_ok_update; [done|]. intros j _. rewrite Hcell.
    repeat case_decide; try lia; [right; unfold decided; tauto|by left].
  - rewrite run_updates_one in Hrun. rewrite length_requests in Hi.
    apply status_ok_update.
    + apply (length_update_cell _ _ _ _ _ Hrun). lia.
    + intros j _. left. rewrite (cell_update_cell _ _ _ _ _ _ _ Hrun).
      by rewrite decide_False by lia.
Qed.

Lemma status_ok_calls admin_name click n (s s' : Sheet) :
  click_index click < length (requests s) →
  run_updates (take n (cell_updates admin_name click)) s = Some s' →
  status_ok s → status_ok s'.
Proof.
  intros Hi Hrun Hs.
  destruct (first_calls _ _ _ _ _ Hrun) as [->|[(word & Hword & Hup)|Hall]]; [done| |].
  - rewrite length_requests in Hi. apply (status_ok_update s); [|intros j _|done].
    + apply (length_update_cell _ _ _ _ _ Hup). lia.
    + rewrite (cell_update_cell _ _ _ _ _ _ _ Hup). case_decide; [right|by left].
      unfold decided. destruct Hword as [-> | ->]; tauto.
  - by apply (status_ok_click admin_name click s).
Qed.

Lemma save_image_to_drive_eq now image_data (files : list DriveFile) :
  save_image_to_drive now image_data files
  = ("https://drive.google.com/uc?export=view&id="
     +:+ format_value (drive_create files (uploaded now image_data) !! "id"),
     files ++ [uploaded now image_data]).
Proof. reflexivity. Qed.

(** When its calls return, the run of a press of "Submit Request" is
    [submit_request]. *)
Lemma submit_returns now_upload now_row f w :
  submit now_upload now_row f (w, None)
  = (((submit_request now_upload now_row f w).1, None),
     Some (submit_request now_upload now_row f w).2).
Proof.
  unfold submit, submit_request. destruct (negb _); [done|].
  destruct (picture f) as [image_data|]; [|done].
  unfold mbind, run_bind, bind, upload, on_sheet, Service.append_row, call.
  by rewrite save_image_to_drive_eq.
Qed.

(** What a press of "Submit Request" leaves: the services as they were,
    the photo in the folder and no row, or the photo and the row. *)
Lemma submit_cases now_upload now_row f w calls :
  (submit now_upload now_row f (w, calls)).1.1 = w
  ∨ ∃ image_data,
      picture f = Some image_data
      ∧ ((submit now_upload now_row f (w, calls)).1.1
         = {| sheet := sheet w; drive := drive w ++ [uploaded now_upload image_data] |}
         ∨ (submit now_upload now_row f (w, calls)).1.1
           = {| sheet := append_row
                           [strftime "%Y-%m-%d %H:%M:%S" now_row; kitchen f; emp_name f;
                            emp_id f;
                            "https://drive.google.com/uc?export=view&id="
                            +:+ format_value
                                  (drive_create (drive w) (uploaded now_upload image_data)
                                   !! "id");
                            "Pending"; ""; ""] (sheet w);
                drive := drive w ++ [uploaded now_upload image_data] |}).
Proof.
  unfold submit. destruct (negb _); [by left|].
  destruct (picture f) as [image_data|]; [|by left].
  unfold mbind, run_bind, bind, upload, on_sheet, Service.append_row, call.
  rewrite save_image_to_drive_eq.
  destruct calls as [[|[|k]]|]; cbn [fst snd sheet drive fmap option_fmap option_map];
    [by left|right; exists image_data..]; (split; [done|]); [by left|by right|by right].
Qed.

(** What a run leaves: the services as they were; or one more photo in
    the folder, with or without the row of its request; or the worksheet
    after the first calls of a button on a stored request, pressed under
    a reviewer name that is not blank. *)
Lemma run_cases secrets calls ev w :
  run secrets calls ev w = w
  ∨ (∃ now_upload now_row f image_data,
       ev = SubmitRequest now_upload now_row f
       ∧ picture f = Some image_data
       ∧ (run secrets calls ev w
          = {| sheet := sheet w; drive := drive w ++ [uploaded now_upload image_data] |}
          ∨ run secrets calls ev w
            = {| sheet := append_row
                            [strftime "%Y-%m-%d %H:%M:%S" now_row; kitchen f; emp_name f;
                             emp_id f;
                             "https://drive.google.com/uc?export=view&id="
                             +:+ format_value
                                   (drive_create (drive w) (uploaded now_upload image_data)
                                    !! "id");
                             "Pending"; ""; ""] (sheet w);
                 drive := drive w ++ [uploaded now_upload image_data] |}))
  ∨ (∃ admin_name c n s',
       nonblank admin_name
       ∧ click_index c < length (requests (sheet w))
       ∧ run_updates (take n (cell_updates admin_name c)) (sheet w) = Some s'
       ∧ run secrets calls ev w = {| sheet := s'; drive := drive w |}).
Proof.
  destruct ev as [now_upload now_row f|password admin_name admin_menu
                                        kitchen_filter status_filter search_text click].
  - destruct (submit_cases now_upload now_row f w calls) as [Hw|(image_data & Hp & Hw)];
      [by left|].
    right. left. by exists now_upload, now_row, f, image_data.
  - cbn [run]. unfold on_sheet. cbn [fst snd].
    destruct (admin_run secrets password admin_name admin_menu kitchen_filter
                status_filter search_text (Some click) (sheet w, calls))
      as [[s' calls'] v] eqn:Hrun.
    cbn [fst snd].
    destruct (admin_run_writes _ _ _ _ _ _ _ _ _ _ _ _ _ Hrun)
      as [->|(c & n & [= <-] & Hgate & Hi & Hpre)].
    + left. by destruct w.
    + right. right. exists admin_name, click, n, s'.
      apply gate_open in Hgate as [_ Hname]. done.
Qed.

Lemma status_ok_run secrets calls ev w :
  status_ok (sheet w) → status_ok (sheet (run secrets calls ev w)).
Proof.
  intros Hs.
  destruct (run_cases secrets calls ev w)
    as [->|[(now_upload & now_row & f & image_data & _ & _ & [-> | ->])
           |(admin_name & c & n & s' & _ & Hi & Hpre & ->)]]; try done.
  - cbn [sheet]. apply status_ok_append; [done|]. simpl. unfold decided. tauto.
  - cbn [sheet]. by apply (status_ok_calls admin_name c n (sheet w)).
Qed.

(** C8. In every state that the script reaches from a worksheet holding
    a header row, whatever that row names, also through runs that an
    exception ends after some of their calls, the status of every stored
    request is "Pending", "Approved" or "Rejected"; and among the writes
    of the three buttons, those to the status column (column 6) write
    "Approved" or "Rejected". *)
Theorem status_always_decided secrets w :
  reachable secrets w →
  (∀ i, i < length (requests (sheet w)) →
        decided (request_field (sheet w) i Status))
  ∧ (∀ admin_name click u,
       u ∈ cell_updates admin_name click → u.1.2 = 6 →
       u.2 = "Approved" ∨ u.2 = "Rejected").
Proof.
  intros Hreach. split.
  - induction Hreach as [header|w calls ev w' _ IH Hrun].
    + intros i. rewrite length_requests. simpl. lia.
    + rewrite <- Hrun. by apply status_ok_run.
  - intros admin_name click u Hu Hcol.
    destruct click; simpl in Hu;
      repeat (apply elem_of_cons in Hu as [->|Hu]; simpl in *; try tauto; try lia);
      by apply elem_of_nil in Hu.
Qed.

End StatusInvariant.

(** ** Dashboard *)

Section Dashboard.
Context {L : Library} {Laws : LibraryLaws L}.

Lemma column_requests (s : Sheet) j :
  column j (DataFrame (get_all_values s)) = (λ r : Row, nth j r "") <$> requests s.
Proof.
  unfold column, DataFrame, requests. simpl. rewrite fmap_imap.
  exact (imap_const (λ r : Row, nth j r "") _).
Qed.

Lemma zip_with_imap_pair {A B C} (f : nat * A → B → C) (h : nat → nat)
    (l : list A) (k : list B) :
  zip_with f (imap (λ i, pair (h i)) l) k
  = imap (λ i x, f (h i, x.1) x.2) (zip l k).
Proof.
  revert h k. induction l as [|a l IH]; intros h [|b k]; simpl; try done.
  f_equal. apply (IH (h ∘ S)).
Qed.

Lemma frame_tickets (s : Sheet) :
  zip_with (λ r ts, {| t_index := r.1; t_cells := r.2; t_timestamp := ts |})
    (rows (DataFrame (get_all_values s)))
    (to_datetime (column 0 (DataFrame (get_all_values s))))
  = tickets s.
Proof.
  rewrite column_requests. unfold tickets, timestamps, DataFrame. simpl.
  exact (zip_with_imap_pair _ id _ _).
Qed.

(** Every stored request is a ticket, under its index. *)
Lemma tickets_cover (s : Sheet) i r :
  requests s !! i = Some r →
  ∃ ts, tickets s !! i = Some {| t_index := i; t_cells := r; t_timestamp := ts |}.
Proof.
  intros Hr. destruct (lookup_lt_is_Some_2 (timestamps s) i) as [ts Hts].
  { unfold timestamps. rewrite to_datetime_length, length_fmap.
    by apply lookup_lt_Some in Hr. }
  exists ts. unfold tickets. apply list_lookup_imap_Some. exists (r, ts).
  split; [|done]. apply lookup_zip_with_Some. by exists r, ts.
Qed.

(** C7. With the header row in place, the status view returns a page for
    every value of the two filters, and the tickets on it are exactly the
    stored requests whose kitchen is the chosen one, when the kitchen
    filter is not "All", and whose timestamp falls on the chosen date, when
    a date is chosen; they come in the order of the worksheet.  Every
    stored request is among the tickets that the filters are applied to. *)
Theorem ticket_status_filters kitchen_filter date_filter (s : Sheet) :
  header_ok s = true →
  ∃ page,
    ticket_status kitchen_filter date_filter s = Some page
    ∧ (∀ x, x ∈ table_of page ↔
            x ∈ tickets s
            ∧ (kitchen_filter ≠ "All" → field Site (t_cells x) = kitchen_filter)
            ∧ (∀ d, date_filter = Some d → date_of <$> t_timestamp x = Some d))
    ∧ table_of page `sublist_of` tickets s
    ∧ (∀ i r, requests s !! i = Some r →
         ∃ ts, tickets s !! i
               = Some {| t_index := i; t_cells := r; t_timestamp := ts |}).
Proof.
  intros (Ht & Hk & _)%header_ok_columns.
  cut (∃ page,
    ticket_status kitchen_filter date_filter s = Some page
    ∧ (∀ x, x ∈ table_of page ↔
            x ∈ tickets s
            ∧ (kitchen_filter ≠ "All" → field Site (t_cells x) = kitchen_filter)
            ∧ (∀ d, date_filter = Some d → date_of <$> t_timestamp x = Some d))
    ∧ table_of page `sublist_of` tickets s).
  { intros (page & Hp & Hin & Hsub). exists page.
    repeat (split; [done|]). apply tickets_cover. }
  unfold ticket_status.
  destruct (length (get_all_values s) <? 2) eqn:Hlen.
  - apply Nat.ltb_lt in Hlen. eexists. split; [done|]. simpl.
    unfold tickets. rewrite (requests_nil s Hlen). simpl. split; [|done].
    intros x. split; [by intros ?%elem_of_nil|by intros [?%elem_of_nil _]].
  - rewrite Ht. cbn [mbind option_bind]. rewrite Hk. cbn [mbind option_bind].
    rewrite frame_tickets. eexists. split; [done|]. cbn [table_of]. split.
    + intros x. destruct date_filter as [d|], (decide (kitchen_filter ≠ "All"));
        rewrite ?list_elem_of_filter; unfold field; simpl; split.
      * intros (Hd & Hkx & Hx). split; [done|]. split; [done|]. by intros ? [= <-].
      * intros (Hx & Hkx & Hd). split; [by apply Hd|]. split; [by apply Hkx|done].
      * intros (Hd & Hx). split; [done|]. split; [done|]. by intros ? [= <-].
      * intros (Hx & _ & Hd). split; [by apply Hd|done].
      * intros (Hkx & Hx). split; [done|]. split; [done|]. by intros ? [=].
      * intros (Hx & Hkx & _). split; [by apply Hkx|done].
      * intros Hx. split; [done|]. split; [done|]. by intros ? [=].
      * by intros (Hx & _).
    + destruct date_filter as [d|], (decide (kitchen_filter ≠ "All"));
        repeat (etrans; [apply sublist_filter|]); done.
Qed.

End Dashboard.

(** ** Group sizes *)

Section Groups.

Lemma size_of_bump k k' acc :
  size_of k (bump k' acc) = if decide (k = k') then S (size_of k acc) else size_of k acc.
Proof.
  induction acc as [|[k0 n] acc IH]; simpl; [done|].
  destruct (decide (k' = k0)) as [->|Hne]; simpl.
  - by destruct (decide (k = k0)).
  - rewrite IH. destruct (decide (k = k0)) as [->|]; [|done].
    by rewrite decide_False.
Qed.

Lemma bump_keys k acc :
  (bump k acc).*1 = if decide (k ∈ acc.*1) then acc.*1 else acc.*1 ++ [k].
Proof.
  induction acc as [|[k0 n] acc IH]; [done|].
  cbn [bump]. destruct (decide (k = k0)) as [->|Hne]; rewrite !fmap_cons; cbn [fst].
  - rewrite decide_True; [done|]. apply elem_of_cons. by left.
  - rewrite IH. destruct (decide (k ∈ acc.*1)) as [Hin|Hout].
    + rewrite decide_True; [done|]. apply elem_of_cons. by right.
    + rewrite decide_False; [done|]. by intros [?|?]%elem_of_cons.
Qed.

Lemma bump_NoDup k acc : NoDup acc.*1 → NoDup (bump k acc).*1.
Proof.
  intros Hnd. rewrite bump_keys. case_decide as Hin; [done|].
  apply NoDup_app. split; [done|]. split; [|apply NoDup_singleton].
  intros x Hx ?%list_elem_of_singleton. by subst.
Qed.

Lemma elem_of_bump_keys k k' acc : k ∈ (bump k' acc).*1 ↔ k = k' ∨ k ∈ acc.*1.
Proof.
  rewrite bump_keys. case_decide as Hin.
  - split; [by right|]. by intros [->|?].
  - rewrite elem_of_app, list_elem_of_singleton. tauto.
Qed.

Lemma elem_of_size_of k n acc :
  NoDup acc.*1 → (k, n) ∈ acc ↔ k ∈ acc.*1 ∧ size_of k acc = n.
Proof.
  induction acc as [|[k0 n0] acc IH]; simpl.
  - intros _. split; [by intros ?%elem_of_nil|by intros [?%elem_of_nil _]].
  - intros [Hout Hnd]%NoDup_cons. rewrite !elem_of_cons, (IH Hnd).
    destruct (decide (k = k0)) as [->|Hne].
    + split.
      * intros [[= ->]|[Hin _]]; [by split; [left|]|done].
      * intros [_ ->]. by left.
    + split.
      * intros [[= -> _]|[Hin Hn]]; [done|]. by split; [right|].
      * intros [[->|Hin] Hn]; [done|]. by right.
Qed.

Lemma tally_from acc keys k :
  size_of k (foldl (λ acc k, bump k acc) acc keys) = size_of k acc + count k keys
  ∧ (k ∈ (foldl (λ acc k, bump k acc) acc keys).*1 ↔ k ∈ acc.*1 ∨ k ∈ keys)
  ∧ (NoDup acc.*1 → NoDup (foldl (λ acc k, bump k acc) acc keys).*1).
Proof.
  revert acc. induction keys as [|k' keys IH]; intros acc; simpl.
  - unfold count. simpl. split; [lia|]. split; [|done].
    split; [by left|]. by intros [?|?%elem_of_nil].
  - destruct (IH (bump k' acc)) as (Hsize & Hkeys & Hnd). split; [|split].
    + rewrite Hsize, size_of_bump. unfold count. rewrite filter_cons.
      destruct (decide (k = k')); simpl; lia.
    + rewrite Hkeys, elem_of_bump_keys, elem_of_cons. tauto.
    + intros Hacc. by apply Hnd, bump_NoDup.
Qed.

Lemma count_pos k keys : 0 < count k keys ↔ k ∈ keys.
Proof.
  unfold count. induction keys as [|k' keys IH]; simpl.
  - split; [lia|by intros ?%elem_of_nil].
  - rewrite filter_cons, elem_of_cons. destruct (decide (k = k')) as [->|Hne]; simpl.
    + split; [by left|lia].
    + rewrite IH. split; [by right|]. by intros [?|?].
Qed.

Lemma tally_spec keys :
  NoDup (tally keys).*1
  ∧ ∀ k n, (k, n) ∈ tally keys ↔ n = count k keys ∧ 0 < n.
Proof.
  unfold tally. split.
  - apply (tally_from [] keys ("", "")). simpl. apply NoDup_nil_2.
  - intros k n. destruct (tally_from [] keys k) as (Hsize & Hkeys & Hnd).
    rewrite elem_of_size_of by (apply Hnd; simpl; apply NoDup_nil_2).
    rewrite Hsize, Hkeys. simpl. split.
    + intros [[?%elem_of_nil|Hin] <-]; [done|]. split; [done|]. by apply count_pos.
    + intros [-> Hpos]. split; [|done]. right. by apply count_pos.
Qed.

Lemma insert_row_perm x l : insert_row x l ≡ₚ x :: l.
Proof.
  induction l as [|y l IH]; simpl; [done|].
  destruct (key_leb x.1 y.1); [done|]. rewrite IH. apply Permutation_swap.
Qed.

Lemma sort_rows_perm l : sort_rows l ≡ₚ l.
Proof.
  unfold sort_rows. induction l as [|x l IH]; simpl; [done|].
  by rewrite insert_row_perm, IH.
Qed.

(** The table of [groupby_size]: one row per key that occurs, with the
    number of its occurrences. *)
Lemma groupby_size_spec (keys : list (string * option string)) :
  NoDup (groupby_size keys).*1
  ∧ ∀ k n, (k, n) ∈ groupby_size keys ↔
           n = count k (omap (λ '(a, b), pair a <$> b) keys) ∧ 0 < n.
Proof.
  unfold groupby_size.
  destruct (tally_spec (omap (λ '(a, b), pair a <$> b) keys)) as [Hnd Hin].
  split.
  - by rewrite sort_rows_perm.
  - intros k n. by rewrite sort_rows_perm.
Qed.

End Groups.

(** ** Tanker Purchase Summary *)

Section Summary.
Context `{Library}.

Lemma positions_app name (l k : list string) j :
  positions name (l ++ k) j = positions name l j ++ positions name k (j + length l).
Proof.
  revert j. induction l as [|c l IH]; intros j; simpl.
  - by rewrite Nat.add_0_r.
  - rewrite IH. replace (S j + length l) with (j + S (length l)) by lia.
    by destruct (decide (c = name)).
Qed.

Lemma positions_nil name (l : list string) j : name ∉ l → positions name l j = [].
Proof.
  revert j. induction l as [|c l IH]; intros j Hout; simpl; [done|].
  apply not_elem_of_cons in Hout as [Hne Hout].
  rewrite decide_False by done. by apply IH.
Qed.

Lemma positions_elem name (l : list string) j : name ∈ l → positions name l j ≠ [].
Proof.
  revert j. induction l as [|c l IH]; intros j Hin; simpl; [by apply elem_of_nil in Hin|].
  destruct (decide (c = name)) as [->|Hne]; [done|].
  apply elem_of_cons in Hin as [->|Hin]; [done|]. by apply IH.
Qed.

(** Storing a column under a name leaves the place of the others. *)
Lemma get_loc_assign_column name other cols :
  other ≠ name → get_loc other (assign_column name cols) = get_loc other cols.
Proof.
  intros Hne. unfold assign_column. case_decide; [done|].
  unfold get_loc. rewrite positions_app. simpl.
  rewrite decide_False by done. by rewrite app_nil_r.
Qed.

(** The stored column is found when the name was on one column at most. *)
Lemma get_loc_assigned name cols :
  length (positions name cols 0) ≤ 1 → is_Some (get_loc name (assign_column name cols)).
Proof.
  intros Hone. unfold assign_column, get_loc. case_decide as Hin.
  - apply (positions_elem _ _ 0) in Hin.
    destruct (positions name cols 0) as [|j [|j' js]]; simpl in *; [done|eauto|lia].
  - rewrite positions_app, (positions_nil _ _ _ Hin). simpl.
    rewrite decide_True by done. eauto.
Qed.

Lemma app_empty_r s : s +:+ "" = s.
Proof. induction s as [|a s IH]; [done|]. by rewrite app_cons, IH. Qed.

Lemma strftime_month t : strftime "%b %Y" t = month_label (year t) (month t).
Proof.
  change (strftime "%b %Y" t)
    with (month_abbr (month t)
          +:+ String " " (Text.zfill 4 (Text.decimal (year t)) +:+ "")).
  by rewrite app_empty_r.
Qed.

Lemma value_decimal n : value (Text.decimal n) = Some n.
Proof.
  unfold value, Text.decimal. rewrite NilEmpty.usu. simpl.
  by rewrite DecimalNat.Unsigned.of_to.
Qed.

Lemma value_zeros k s : value (Text.zeros k +:+ s) = value s.
Proof.
  induction k as [|k IH]; [done|]. simpl. rewrite app_cons.
  unfold value in *. simpl. destruct (NilEmpty.uint_of_string (Text.zeros k +:+ s)) as [d|];
    destruct (NilEmpty.uint_of_string s) as [d'|]; simpl in *; try done.
Qed.

Lemma zfill_decimal_inj w w' y y' :
  Text.zfill w (Text.decimal y) = Text.zfill w' (Text.decimal y') → y = y'.
Proof.
  intros Heq. apply (f_equal value) in Heq. unfold Text.zfill in Heq.
  rewrite !value_zeros, !value_decimal in Heq. by injection Heq.
Qed.

Lemma month_abbr_inj m m' x x' :
  month_abbr m +:+ x = month_abbr m' +:+ x' → m = m' ∧ x = x'.
Proof.
  destruct m, m'; cbv [month_abbr String.append]; intros [= ?]; done.
Qed.

Lemma month_label_inj y m y' m' :
  month_label y m = month_label y' m' → y = y' ∧ m = m'.
Proof.
  unfold month_label. intros [-> Heq]%month_abbr_inj. split; [|done].
  rewrite !app_cons, !app_empty in Heq. injection Heq as Heq.
  by apply zfill_decimal_inj in Heq.
Qed.

Lemma count_purchases (sites : list string) (tss : list (option datetime)) site y m :
  count (site, month_label y m)
    (omap (λ '(a, b), pair a <$> b)
       (zip sites ((λ ts : option datetime, strftime "%b %Y" <$> ts) <$> tss)))
  = length (filter (λ x : string * option datetime,
                      x.1 = site ∧ (λ t, (year t, month t)) <$> x.2 = Some (y, m))
                   (zip sites tss)).
Proof.
  unfold count. revert tss. induction sites as [|a sites IH]; intros [|ts tss]; try done.
  cbn [fmap list_fmap zip zip_with omap list_omap]. rewrite filter_cons.
  destruct ts as [t|]; cbn [fmap option_fmap option_map].
  - rewrite filter_cons, strftime_month. cbn [fst snd fmap option_fmap option_map].
    destruct (decide ((site, month_label y m) = (a, month_label (year t) (month t))))
      as [Heq|Hne].
    + injection Heq as -> [-> ->]%month_label_inj.
      rewrite decide_True by done. simpl. f_equal. apply IH.
    + rewrite decide_False; [apply IH|].
      intros [-> [= Hy Hm]]. apply Hne. by rewrite Hy, Hm.
  - rewrite decide_False by (by intros [_ ?]). apply IH.
Qed.

(** C5. With the header row in place and at most one column named
    "Month", the purchase summary returns a page whatever the timestamps
    hold.  Its table has one row for each pair of
    a kitchen and a calendar month (year and month, written as in
    "Jan 2024") in which a request falls: no pair comes twice, every row
    is such a pair, and the number in the row of a kitchen and a month is
    the number of stored requests of that kitchen whose timestamp
    [to_datetime] reads into that month.  A request whose timestamp is not
    read is counted in no row. *)
Theorem tanker_summary_counts (s : Sheet) :
  header_ok s = true →
  month_ok s = true →
  ∃ page,
    tanker_summary s = Some page
    ∧ NoDup (table_of page).*1
    ∧ (∀ site label n, ((site, label), n) ∈ table_of page →
         ∃ y m, label = month_label y m)
    ∧ (∀ site y m n, ((site, month_label y m), n) ∈ table_of page ↔
         n = purchases s site y m ∧ 0 < n).
Proof.
  intros (Ht & Hk & _)%header_ok_columns Hmonth. unfold tanker_summary.
  destruct (length (get_all_values s) <? 2) eqn:Hlen.
  - apply Nat.ltb_lt in Hlen. eexists. split; [done|]. simpl.
    split; [apply NoDup_nil_2|]. split; [by intros ? ? ? ?%elem_of_nil|].
    intros site y m n. unfold purchases. rewrite (requests_nil s Hlen). simpl.
    split; [by intros ?%elem_of_nil|lia].
  - rewrite Ht. cbn [mbind option_bind].
    rewrite (get_loc_assign_column "Month" "Kitchen") by done.
    rewrite Hk. cbn [mbind option_bind].
    destruct (get_loc_assigned "Month" (columns (DataFrame (get_all_values s))))
      as [j ->]; [by apply bool_decide_eq_true in Hmonth|].
    cbn [mbind option_bind]. rewrite !column_requests. eexists. split; [done|]. cbn [table_of].
    match goal with |- context [groupby_size ?ks] =>
      destruct (groupby_size_spec ks) as [Hnd Hin] end.
    split; [done|]. split.
    + intros site label n Hrow. apply Hin in Hrow as [-> Hpos].
      apply count_pos, list_elem_of_omap in Hpos as ([a b] & Hab & Hsome).
      apply elem_of_zip_r, list_elem_of_fmap in Hab as ([t|] & -> & _); [|done].
      cbn [fmap option_fmap option_map] in Hsome. injection Hsome as _ <-.
      exists (year t), (month t). exact (strftime_month t).
    + intros site y m n. rewrite Hin.
      replace (purchases s site y m) with
        (count (site, month_label y m)
           (omap (λ '(a, b), pair a <$> b)
              (zip ((λ r : Row, nth 1 r "") <$> requests s)
                 ((λ ts : option datetime, strftime "%b %Y" <$> ts)
                    <$> to_datetime ((λ r : Row, nth 0 r "") <$> requests s)))));
        [done|].
      apply count_purchases.
Qed.

End Summary.

(** ** Runs on the sample worksheet *)

Section SampleRuns.

(** C6, as stated, fails: a search text of one space is not empty, it
    occurs in neither "Bob" nor "E1", and the row is kept, for the
    script strips the text before it decides to search. *)
Lemma search_blank_text_counterexample :
  ¬ (∀ (L : Library), LibraryLaws L →
       ∀ cols n e search_text (l kept : list (nat * Row)) r,
         get_loc "Employee Name" cols = Some n →
         get_loc "Employee ID" cols = Some e →
         search_text ≠ "" →
         search cols search_text l = Some kept →
         r ∈ l →
         (r ∈ kept ↔ occurs_ci search_text (at_ n r)
                     ∨ occurs_ci search_text (at_ e r))).
Proof.
  intros Hclaim.
  pose (r := (0, ["2024-01-15 09:30:05"; "WFD01"; "Bob"; "E1"]) : nat * Row).
  destruct (Hclaim Sample.library sample_laws Sample.header 2 3 " " [r] [r] r)
    as [Hkept _]; try done.
  { apply list_elem_of_singleton. done. }
  destruct Hkept as [Ho|Ho]; [apply list_elem_of_singleton; done| |];
    apply contains_ci_spec in Ho; by vm_compute in Ho.
Qed.

Lemma search_keeps_matching_rows_witness :
  ∃ kept,
    @search Sample.library Sample.header "bO"
      (rows (DataFrame (get_all_values Sample.worksheet))) = Some kept
    ∧ (∀ r, r ∈ kept ↔
            r ∈ rows (DataFrame (get_all_values Sample.worksheet))
            ∧ (occurs_ci "bO" (at_ 2 r) ∨ occurs_ci "bO" (at_ 3 r)))
    ∧ kept `sublist_of` rows (DataFrame (get_all_values Sample.worksheet)).
Proof.
  destruct (@search_keeps_matching_rows Sample.library sample_laws Sample.header
              2 3 "bO" (rows (DataFrame (get_all_values Sample.worksheet))))
    as [_ Hkeep]; [reflexivity|reflexivity|].
  apply Hkeep; [|reflexivity].
  exists "b"%char. split; [|reflexivity]. apply elem_of_cons. by left.
Defined.

(** Under the sample library the dot is an operator: the search text "."
    occurs in no name and in no identifier, and every row with a name or
    an identifier is kept. *)
Example search_dot_keeps_rows :
  @search Sample.library Sample.header "."
    (rows (DataFrame (get_all_values Sample.worksheet)))
  = Some (rows (DataFrame (get_all_values Sample.worksheet))).
Proof. vm_compute. reflexivity. Qed.

Lemma tanker_summary_counts_witness :
  ∃ page,
    @tanker_summary Sample.library Sample.worksheet = Some page
    ∧ NoDup (table_of page).*1
    ∧ (∀ site label n, ((site, label), n) ∈ table_of page →
         ∃ y m, label = month_label y m)
    ∧ (∀ site y m n, ((site, month_label y m), n) ∈ table_of page ↔
         n = @purchases Sample.library Sample.worksheet site y m ∧ 0 < n).
Proof.
  apply (@tanker_summary_counts Sample.library Sample.worksheet); reflexivity.
Defined.

(** The summary of the sample worksheet: the row of the fourth request,
    whose timestamp is no date, is in no group. *)
Example tanker_summary_sample :
  @tanker_summary Sample.library Sample.worksheet
  = Some (Shown [(("HSR01", "Jan 2024"), 1); (("WFD01", "Jan 2024"), 2)]).
Proof. vm_compute. reflexivity. Qed.

Lemma ticket_status_filters_witness :
  ∃ page,
    @ticket_status Sample.library "HSR01"
      (Some {| d_year := 2024; d_month := Jan; d_day := 15 |}) Sample.worksheet
    = Some page
    ∧ (∀ x, x ∈ table_of page ↔
            x ∈ @tickets Sample.library Sample.worksheet
            ∧ ("HSR01" ≠ "All" → field Site (t_cells x) = "HSR01")
            ∧ (∀ d, Some {| d_year := 2024; d_month := Jan; d_day := 15 |} = Some d →
                    date_of <$> t_timestamp x = Some d))
    ∧ table_of page `sublist_of` @tickets Sample.library Sample.worksheet
    ∧ (∀ i r, requests Sample.worksheet !! i = Some r →
         ∃ ts, @tickets Sample.library Sample.worksheet !! i
               = Some {| t_index := i; t_cells := r; t_timestamp := ts |}).
Proof.
  apply (@ticket_status_filters Sample.library sample_laws "HSR01"
           (Some {| d_year := 2024; d_month := Jan; d_day := 15 |}) Sample.worksheet).
  reflexivity.
Defined.

(** The status view of the sample worksheet for kitchen "HSR01" on the
    15th of January 2024 holds the second request and no other. *)
Example ticket_status_sample :
  (λ page, t_index <$> table_of page) <$>
    @ticket_status Sample.library "HSR01"
      (Some {| d_year := 2024; d_month := Jan; d_day := 15 |}) Sample.worksheet
  = Some [1].
Proof. vm_compute. reflexivity. Qed.

Lemma status_always_decided_witness :
  (∀ i, i < length (requests (sheet Cases.bare2)) →
        decided (request_field (sheet Cases.bare2) i Status))
  ∧ (∀ admin_name click u,
       u ∈ cell_updates admin_name click → u.1.2 = 6 →
       u.2 = "Approved" ∨ u.2 = "Rejected").
Proof.
  apply (@status_always_decided Sample.library ∅ Cases.bare2).
  apply (reach_run ∅ Cases.bare1 None
           (AdminClick "admin123" "alice" PendingRequests "All" "All" "" (Approve 0))
           Cases.bare2).
  - apply (reach_run ∅ Cases.bare0 None
             (SubmitRequest Sample.time Sample.time Sample.form) Cases.bare1).
    + apply reach_init.
    + vm_compute. reflexivity.
  - vm_compute. reflexivity.
Defined.

(** Under a header row without "Comments" the run of a press of
    "Approve" raises, and it has written the status and the reviewer
    before. *)
Example approve_then_raise :
  @admin_dashboard Sample.library ∅ "admin123" "alice" PendingRequests "All" "All" ""
    (sheet Cases.bare1) = None
  ∧ @admin_click Sample.library ∅ "admin123" "alice" PendingRequests "All" "All" ""
      (Approve 0) (sheet Cases.bare1) = (sheet Cases.bare2, None)
  ∧ request_field (sheet Cases.bare2) 0 Status = "Approved"
  ∧ request_field (sheet Cases.bare2) 0 Reviewer = "alice".
Proof. vm_compute. done. Qed.

(** Under a header row with two columns named "Comments", and a comment
    box that refuses a series, the run of a press of "Reject" on the first
    row of the list writes and raises, and a press of "Save Comment"
    writes nothing. *)
Example two_comments :
  @admin_dashboard Sample.library ∅ "admin123" "alice" AllRequests "All" "All" ""
    Cases.commented = None
  ∧ cell (@admin_click Sample.library ∅ "admin123" "alice" AllRequests "All" "All" ""
            (Reject 0) Cases.commented).1 2 6 = "Rejected"
  ∧ @admin_click Sample.library ∅ "admin123" "alice" AllRequests "All" "All" ""
      (SaveComment 0 "seen") Cases.commented = (Cases.commented, None)
  ∧ @admin_click Sample.library ∅ "admin123" "alice" AllRequests "All" "All" ""
      (Reject 1) Cases.commented = (Cases.commented, None).
Proof. vm_compute. done. Qed.

(** Under a header row with two columns named "Timestamp" the card shows
    the series of the two cells, and the buttons write as ever. *)
Example two_timestamps :
  (λ page, request_time_str <$> table_of page) <$>
    @admin_dashboard Sample.library ∅ "admin123" "alice" AllRequests "All" "All" ""
      Cases.twice
  = Some [Series ["2024-01-15 09:30:05"; "later"]]
  ∧ cell (@admin_click Sample.library ∅ "admin123" "alice" AllRequests "All" "All" ""
            (Reject 0) Cases.twice).1 2 6 = "Rejected".
Proof. vm_compute. done. Qed.

(** The request of [Sample.world2] has been approved by "alice". *)
Example world2_approved :
  request_field (sheet Sample.world2) 0 Status = "Approved"
  ∧ request_field (sheet Sample.world2) 0 Reviewer = "alice".
Proof. split; reflexivity. Qed.

Lemma unparsed_timestamp_shown_raw_witness :
  ∃ page,
    @admin_dashboard Sample.library ∅ "admin123" "alice" AllRequests
      "All" "All" "" Sample.worksheet = Some page
    ∧ (∀ click, ∃ s',
         @admin_click Sample.library ∅ "admin123" "alice" AllRequests
           "All" "All" "" click Sample.worksheet = (s', Some page))
    ∧ (admin_gate ∅ "admin123" "alice" = None →
       ∀ i, listed AllRequests "All" "All" None Sample.worksheet i →
            ∃ c, c ∈ table_of page ∧ c_index c = i
                 ∧ (@strptime Sample.library
                      (request_field Sample.worksheet i Timestamp) = None →
                    request_time_str c
                    = Scalar (request_field Sample.worksheet i Timestamp)))
    ∧ (∀ c, c ∈ table_of page →
         @strptime Sample.library
           (request_field Sample.worksheet (c_index c) Timestamp) = None →
         request_time_str c
         = Scalar (request_field Sample.worksheet (c_index c) Timestamp)).
Proof.
  apply (@unparsed_timestamp_shown_raw Sample.library ∅ "admin123" "alice"
           AllRequests "All" "All" "" Sample.worksheet None); reflexivity.
Defined.

(** The times on the cards of the sample worksheet: three dates in the
    format of the page, and the fourth timestamp as it is stored. *)
Example request_times_sample :
  (λ page, request_time_str <$> table_of page) <$>
    @admin_dashboard Sample.library ∅ "admin123" "alice" AllRequests
      "All" "All" "" Sample.worksheet
  = Some [Scalar "15 Jan 2024, 09:30 AM"; Scalar "15 Jan 2024, 06:02 PM";
          Scalar "16 Jan 2024, 07:00 AM"; Scalar "yesterday"].
Proof. vm_compute. reflexivity. Qed.

Lemma buttons_write_displayed_request_witness :
  Forall (λ c,
    let i := c_index c in
    i < length (requests Sample.worksheet)
    ∧ (∀ f, cell Sample.worksheet (i + 2) (field_col f)
            = request_field Sample.worksheet i f)
    ∧ (header_ok Sample.worksheet = true →
       c_kitchen c = Scalar (request_field Sample.worksheet i Site)
       ∧ c_employee_name c = Scalar (request_field Sample.worksheet i EmployeeName)
       ∧ c_employee_id c = Scalar (request_field Sample.worksheet i EmployeeId)
       ∧ c_status c = Scalar (request_field Sample.worksheet i Status)
       ∧ c_photo_url c = Scalar (request_field Sample.worksheet i PhotoUrl)
       ∧ c_comments c = request_field Sample.worksheet i Comment)
    ∧ ∃ s',
        @admin_click Sample.library ∅ "admin123" "alice" PendingRequests
          "All" "All" "" (Reject (c_index c)) Sample.worksheet
        = (s', Some (Shown Sample.pending_cards))
        ∧ length (requests s') = length (requests Sample.worksheet)
        ∧ (request_field s' i Status = "Rejected"
           ∧ request_field s' i Reviewer = "alice"
           ∧ ∀ f, f ≠ Status → f ≠ Reviewer →
                  request_field s' i f = request_field Sample.worksheet i f)
        ∧ (∀ j f, j ≠ i → request_field s' j f = request_field Sample.worksheet j f)
        ∧ (∀ row col, row ≠ i + 2 → cell s' row col = cell Sample.worksheet row col))
    Sample.pending_cards.
Proof.
  apply Forall_forall. intros c Hc.
  apply (@buttons_write_displayed_request Sample.library ∅ "admin123" "alice"
           PendingRequests "All" "All" "" Sample.worksheet Sample.pending_cards
           c (Reject (c_index c))).
  - vm_compute. reflexivity.
  - exact Hc.
  - reflexivity.
Defined.

(** The pending view of the sample worksheet shows the first and the
    third request, under the indices 0 and 2 of the whole listing. *)
Example pending_cards_indices : c_index <$> Sample.pending_cards = [0; 2].
Proof. reflexivity. Qed.

End SampleRuns.

(** * Further properties *)

(** ** The three buttons *)

Section Buttons.

(** Rejecting is approving with the other word: the status of the
    request becomes "Rejected", its reviewer the given name, and no other
    cell of the worksheet changes. *)
Theorem reject_sets_status_and_reviewer (s : Sheet) i reviewer :
  i < length (requests s) →
  ∃ s', run_updates (cell_updates reviewer (Reject i)) s = Some s'
    ∧ length (requests s') = length (requests s)
    ∧ request_field s' i Status = "Rejected"
    ∧ request_field s' i Reviewer = reviewer
    ∧ (∀ f, f ≠ Status → f ≠ Reviewer → request_field s' i f = request_field s i f)
    ∧ (∀ j f, j ≠ i → request_field s' j f = request_field s j f)
    ∧ (∀ r c, ¬ (r = i + 2 ∧ (c = 6 ∨ c = 7)) → cell s' r c = cell s r c).
Proof.
  intros Hi. destruct (click_cells reviewer (Reject i) s Hi) as (s' & Hrun & Hlen & Hcell).
  exists s'. split; [done|]. split; [by apply length_requests_eq|].
  unfold click_cell in Hcell. repeat split.
  - rewrite request_field_cell, Hcell. simpl. by rewrite decide_True.
  - rewrite request_field_cell, Hcell. simpl.
    rewrite decide_False by lia. by rewrite decide_True.
  - intros f Hs Hr. rewrite !request_field_cell, Hcell.
    rewrite decide_False by (destruct f; simpl; try done; lia).
    by rewrite decide_False by (destruct f; simpl; try done; lia).
  - intros j f Hj. rewrite !request_field_cell, Hcell.
    rewrite decide_False by lia. by rewrite decide_False by lia.
  - intros r c Hrc. rewrite Hcell.
    rewrite decide_False by lia. by rewrite decide_False by lia.
Qed.

(** Saving a comment writes the comment of the request and nothing else:
    status, reviewer and every other cell stay as they were. *)
Theorem save_comment_writes_one_cell (s : Sheet) i comment admin_name :
  i < length (requests s) →
  ∃ s', run_updates (cell_updates admin_name (SaveComment i comment)) s = Some s'
    ∧ length (requests s') = length (requests s)
    ∧ request_field s' i Comment = comment
    ∧ (∀ j f, j ≠ i ∨ f ≠ Comment → request_field s' j f = request_field s j f)
    ∧ (∀ r c, ¬ (r = i + 2 ∧ c = 8) → cell s' r c = cell s r c).
Proof.
  intros Hi.
  destruct (click_cells admin_name (SaveComment i comment) s Hi)
    as (s' & Hrun & Hlen & Hcell).
  exists s'. split; [done|]. split; [by apply length_requests_eq|].
  unfold click_cell in Hcell. repeat split.
  - rewrite request_field_cell, Hcell. simpl. by rewrite decide_True.
  - intros j f Hjf. rewrite !request_field_cell, Hcell.
    rewrite decide_False; [done|]. intros [Hj Hf].
    destruct Hjf as [Hne|Hne]; [lia|]. by destruct f.
  - intros r c Hrc. rewrite Hcell. by rewrite decide_False.
Qed.

(** A later decision on a request replaces an earlier one: after a
    decision by one reviewer and then a decision by another, every cell
    holds what it holds after the second decision alone. *)
Theorem last_decision_wins (s : Sheet) first second c1 c2 :
  is_decision c1 → is_decision c2 →
  click_index c1 = click_index c2 →
  click_index c1 < length (requests s) →
  ∃ s1 s2 s2',
    run_updates (cell_updates first c1) s = Some s1
    ∧ run_updates (cell_updates second c2) s1 = Some s2
    ∧ run_updates (cell_updates second c2) s = Some s2'
    ∧ ∀ row col, cell s2 row col = cell s2' row col.
Proof.
  intros Hd1 Hd2 Hsame Hi.
  destruct (click_cells first c1 s Hi) as (s1 & Hrun1 & Hlen1 & Hcell1).
  destruct (click_cells second c2 s1) as (s2 & Hrun2 & Hlen2 & Hcell2).
  { rewrite (length_requests_eq s s1 Hlen1), <- Hsame. done. }
  destruct (click_cells second c2 s) as (s2' & Hrun2' & Hlen2' & Hcell2').
  { by rewrite <- Hsame. }
  exists s1, s2, s2'. repeat (split; [done|]).
  intros row col. rewrite Hcell2, Hcell1, Hcell2'.
  destruct c1 as [i|i|i ?], c2 as [j|j|j ?]; try done; simpl in Hsame; subst j;
    unfold click_cell; repeat case_decide; try done; lia.
Qed.

(** The writes of two buttons can come in either order when the buttons
    are on two requests, or when one saves a comment and the other
    decides: the cells are the same.  So a decision keeps the comment, and
    a comment keeps the decision. *)
Theorem independent_clicks_commute (s : Sheet) a b c1 c2 :
  click_index c1 ≠ click_index c2 ∨ (is_decision c1 ↔ ¬ is_decision c2) →
  click_index c1 < length (requests s) →
  click_index c2 < length (requests s) →
  ∃ s1 s12 s2 s21,
    run_updates (cell_updates a c1) s = Some s1
    ∧ run_updates (cell_updates b c2) s1 = Some s12
    ∧ run_updates (cell_updates b c2) s = Some s2
    ∧ run_updates (cell_updates a c1) s2 = Some s21
    ∧ ∀ row col, cell s12 row col = cell s21 row col.
Proof.
  intros Hind Hi1 Hi2.
  destruct (click_cells a c1 s Hi1) as (s1 & Hrun1 & Hlen1 & Hcell1).
  destruct (click_cells b c2 s1) as (s12 & Hrun12 & Hlen12 & Hcell12).
  { by rewrite (length_requests_eq s s1 Hlen1). }
  destruct (click_cells b c2 s Hi2) as (s2 & Hrun2 & Hlen2 & Hcell2).
  destruct (click_cells a c1 s2) as (s21 & Hrun21 & Hlen21 & Hcell21).
  { by rewrite (length_requests_eq s s2 Hlen2). }
  exists s1, s12, s2, s21. repeat (split; [done|]).
  intros row col. rewrite Hcell12, Hcell1, Hcell21, Hcell2.
  destruct c1 as [i|i|i ?], c2 as [j|j|j ?]; simpl in Hind;
    unfold click_cell; repeat case_decide; try done; try lia;
    destruct Hind as [Hne|[H1 H2]]; try lia; try tauto.
Qed.

End Buttons.

(** ** What the admin dashboard lists *)


Section ListingViews.
Context `{Library}.

(** With a wrong password, or a reviewer name that is blank, no button
    writes: the page is the warning of the gate and the worksheet stays as
    it was, whatever the button and the filters; the run makes no call to
    the worksheet at all. *)
Theorem closed_gate_never_writes secrets password admin_name admin_menu
    kitchen_filter status_filter search_text click (s : Sheet) :
  password ≠ default "admin123" (secrets !! "admin_password") ∨ ¬ nonblank admin_name →
  ∃ text,
    admin_dashboard secrets password admin_name admin_menu
      kitchen_filter status_filter search_text s = Some (Stopped (Warning text))
    ∧ admin_click secrets password admin_name admin_menu
        kitchen_filter status_filter search_text click s
      = (s, Some (Stopped (Warning text)))
    ∧ ∀ pressed calls,
        admin_run secrets password admin_name admin_menu
          kitchen_filter status_filter search_text pressed (s, calls)
        = ((s, calls), Some (Stopped (Warning text))).
Proof.
  intros Hshut.
  assert (Hgate : ∃ text, admin_gate secrets password admin_name = Some (Warning text)).
  { destruct (admin_gate secrets password admin_name) as [m|] eqn:Hg.
    - unfold admin_gate, is_admin in Hg.
      destruct (negb _); [injection Hg as <-; eauto|].
      destruct (negb _); [injection Hg as <-; eauto|done].
    - apply gate_open in Hg. tauto. }
  destruct Hgate as [text Hgate]. exists text.
  unfold admin_click, admin_dashboard, admin_run. by rewrite Hgate.
Qed.

(** Behind an open gate, with the header row in place and a search text
    that is blank or compiles, the admin dashboard has a card for the
    request of index [i] exactly when the request is pending in the
    pending view, is of the chosen kitchen and of the chosen status when
    these boxes are not on "All", and matches the search text in its name
    or identifier when the text is not blank.  The cards come in the order
    of the worksheet, one for a request at most. *)
Theorem admin_cards_are_filtered_requests secrets password admin_name admin_menu
    kitchen_filter status_filter search_text (s : Sheet) m :
  header_ok s = true →
  admin_gate secrets password admin_name = None →
  search_pattern search_text = Some m →
  ∃ page,
    admin_dashboard secrets password admin_name admin_menu
      kitchen_filter status_filter search_text s = Some page
    ∧ (∀ i, i ∈ c_index <$> table_of page
            ↔ listed admin_menu kitchen_filter status_filter m s i)
    ∧ (c_index <$> table_of page) `sublist_of` seq 0 (length (requests s)).
Proof.
  intros Hh Hgate Hm.
  destruct (admin_listing secrets password admin_name admin_menu kitchen_filter
              status_filter search_text s m Hh Hgate Hm)
    as (page & Hpage & Hin & Hord & _).
  by exists page.
Qed.

(** Which of its three ends the admin dashboard takes behind an open
    gate: "No requests found." when the worksheet has no request, "No
    matching requests found." when it has requests and none passes the
    filters, and the cards otherwise, the card of every request that passes
    among them. *)
Theorem admin_page_ends secrets password admin_name admin_menu
    kitchen_filter status_filter search_text (s : Sheet) m :
  header_ok s = true →
  admin_gate secrets password admin_name = None →
  search_pattern search_text = Some m →
  ∃ page,
    admin_dashboard secrets password admin_name admin_menu
      kitchen_filter status_filter search_text s = Some page
    ∧ (length s < 2 → page = Stopped (Info "No requests found."))
    ∧ (2 ≤ length s →
       (∀ i, ¬ listed admin_menu kitchen_filter status_filter m s i) →
       page = Stopped (Info "No matching requests found."))
    ∧ (∀ i, listed admin_menu kitchen_filter status_filter m s i →
         ∃ cards, page = Shown cards ∧ i ∈ c_index <$> cards).
Proof.
  intros Hh Hgate Hm.
  destruct (admin_listing secrets password admin_name admin_menu kitchen_filter
              status_filter search_text s m Hh Hgate Hm)
    as (page & Hpage & Hin & _ & Hnone & Hmatch & Hshown).
  exists page. split; [done|]. split; [done|]. split.
  - intros Hlen Hno. apply Hmatch; [done|].
    destruct (table_of page) as [|c cs] eqn:Hcs; [done|].
    destruct (Hno (c_index c)). apply Hin. rewrite fmap_cons. apply elem_of_cons. by left.
  - intros i Hi. apply Hin in Hi. exists (table_of page). split; [|done].
    apply Hshown. intros Hnil. rewrite Hnil in Hi. by apply elem_of_nil in Hi.
Qed.

End ListingViews.

(** ** The header row under writes *)

Section Header.

Lemma positions_blank name (h : Row) j :
  name ≠ "" → (∀ c, nth c h "" = "") → positions name h j = [].
Proof.
  intros Hname. revert j. induction h as [|x h IH]; intros j Hh; simpl; [done|].
  rewrite decide_False by (specialize (Hh 0); simpl in Hh; congruence).
  apply IH. intros c. apply (Hh (S c)).
Qed.

Lemma positions_cells name (h h' : Row) j :
  name ≠ "" → (∀ c, nth c h "" = nth c h' "") → positions name h j = positions name h' j.
Proof.
  intros Hname. revert h' j. induction h as [|x h IH]; intros h' j Hh.
  - simpl. symmetry. apply positions_blank; [done|].
    intros c. rewrite <- Hh. by destruct c.
  - destruct h' as [|x' h'].
    + apply (positions_blank name (x :: h) j Hname).
      intros c. rewrite Hh. by destruct c.
    + pose proof (Hh 0) as H0. simpl in H0. subst x'. simpl.
      rewrite (IH h' (S j)); [done|]. intros c. apply (Hh (S c)).
Qed.

Lemma nth_header (s : Sheet) c :
  nth c (hd [] (get_all_values s)) "" = cell s 1 (S c).
Proof.
  simpl. rewrite <- nth_get_all_values. by destruct (get_all_values s).
Qed.

Lemma get_loc_cells (s s' : Sheet) name :
  name ≠ "" → (∀ c, cell s' 1 c = cell s 1 c) →
  get_loc name (hd [] (get_all_values s')) = get_loc name (hd [] (get_all_values s)).
Proof.
  intros Hname Hcells. unfold get_loc.
  rewrite (positions_cells name _ (hd [] (get_all_values s)) 0 Hname); [done|].
  intros c. by rewrite !nth_header.
Qed.

(** The header row is read from the cells of row 1. *)
Lemma header_ok_cells (s s' : Sheet) :
  (∀ c, cell s' 1 c = cell s 1 c) → header_ok s' = header_ok s.
Proof.
  intros Hcells. unfold header_ok.
  rewrite (get_loc_cells s s' "Timestamp"), (get_loc_cells s s' "Kitchen"),
    (get_loc_cells s s' "Employee Name"), (get_loc_cells s s' "Employee ID"),
    (get_loc_cells s s' "Photo URL"), (get_loc_cells s s' "Status"),
    (get_loc_cells s s' "Comments") by done.
  done.
Qed.

Lemma header_ok_nonempty (s : Sheet) : header_ok s = true → s ≠ [].
Proof. by intros Hh ->. Qed.

Lemma cell_append_old (s : Sheet) row r c :
  r ≤ length s → cell (append_row row s) r c = cell s r c.
Proof.
  intros Hr. unfold append_row. destruct r as [|r], c as [|c]; simpl; try done.
  by rewrite app_nth1 by lia.
Qed.

Lemma cell_append_new (s : Sheet) row c :
  cell (append_row row s) (S (length s)) (S c) = nth c row "".
Proof.
  unfold append_row. simpl. rewrite app_nth2 by lia.
  by replace (length s - length s) with 0 by lia.
Qed.

(** The appended row is the request that comes after the stored ones. *)
Lemma request_field_appended (s : Sheet) row f :
  s ≠ [] → request_field (append_row row s) (length (requests s)) f = field f row.
Proof.
  intros Hs. rewrite request_field_cell, length_requests.
  assert (0 < length s) by (destruct s; simpl; [done|lia]).
  replace (length s - 1 + 2) with (S (length s)) by lia.
  unfold field. destruct f; apply cell_append_new.
Qed.

Lemma request_field_append_old (s : Sheet) row i f :
  i < length (requests s) →
  request_field (append_row row s) i f = request_field s i f.
Proof.
  rewrite length_requests. intros Hi. rewrite !request_field_cell.
  apply cell_append_old. lia.
Qed.

Lemma length_requests_append (s : Sheet) row :
  s ≠ [] → length (requests (append_row row s)) = S (length (requests s)).
Proof.
  intros Hs. rewrite !length_requests. unfold append_row. rewrite length_app. simpl.
  destruct s; simpl; [done|lia].
Qed.

End Header.

(** ** Writes seen by the admin dashboard *)

Section WriteThenList.
Context `{Library}.

(** The row that a complete form stores. *)
Lemma submit_complete_world now_upload now_row f w image_data :
  kitchen f ≠ "--Select--" → emp_name f ≠ "" → emp_id f ≠ "" →
  picture f = Some image_data →
  submit_request now_upload now_row f w
  = ({| sheet := append_row
                   [strftime "%Y-%m-%d %H:%M:%S" now_row; kitchen f; emp_name f;
                    emp_id f; (save_image_to_drive now_upload image_data (drive w)).1;
                    "Pending"; ""; ""] (sheet w);
        drive := (save_image_to_drive now_upload image_data (drive w)).2 |},
     Success "✅ Request submitted successfully!").
Proof.
  intros Hk Hn He Hp. unfold submit_request.
  assert (Hall : forallb id [bool_decide (kitchen f ≠ "--Select--");
                             Text.truthy (emp_name f); Text.truthy (emp_id f);
                             bool_decide (is_Some (picture f))] = true).
  { apply form_complete. rewrite Hp. eauto. }
  by rewrite Hall, Hp.
Qed.

Lemma admin_rows_all search_text (df : Frame) jst jk :
  get_loc "Status" (columns df) = Some jst →
  get_loc "Kitchen" (columns df) = Some jk →
  ¬ nonblank search_text →
  admin_rows AllRequests "All" "All" search_text df = Some (rows df).
Proof.
  intros Hst Hk Hblank. unfold admin_rows, search. rewrite Hst, Hk.
  destruct (Text.truthy (Text.strip search_text)) eqn:Hs;
    [by apply strip_truthy in Hs|].
  cbn [mbind option_bind]. by rewrite decide_False by (by intros ?).
Qed.

(** With no filter, the view of all requests is the whole worksheet: one
    card for each stored request, in the order of the rows, showing what
    the row holds. *)
Theorem all_requests_view_is_complete secrets password admin_name search_text
    (s : Sheet) :
  header_ok s = true →
  admin_gate secrets password admin_name = None →
  2 ≤ length s →
  ¬ nonblank search_text →
  ∃ cards,
    admin_dashboard secrets password admin_name AllRequests "All" "All"
      search_text s = Some (Shown cards)
    ∧ c_index <$> cards = seq 0 (length (requests s))
    ∧ ∀ c, c ∈ cards →
        c_kitchen c = Scalar (request_field s (c_index c) Site)
        ∧ c_employee_name c = Scalar (request_field s (c_index c) EmployeeName)
        ∧ c_employee_id c = Scalar (request_field s (c_index c) EmployeeId)
        ∧ c_status c = Scalar (request_field s (c_index c) Status)
        ∧ c_photo_url c = Scalar (request_field s (c_index c) PhotoUrl)
        ∧ c_comments c = request_field s (c_index c) Comment.
Proof.
  intros Hh Hgate Hlen Hblank.
  pose proof (header_ok_columns s Hh) as (Ht & Hk & Hn & He & Hp & Hst & Hc).
  assert (Hpage : ∃ cards,
    admin_dashboard secrets password admin_name AllRequests "All" "All"
      search_text s = Some (Shown cards)
    ∧ c_index <$> cards = seq 0 (length (requests s))).
  { rewrite admin_dashboard_eq, Hgate.
    destruct (length (get_all_values s) <? 2) eqn:Hlt.
    { apply Nat.ltb_lt in Hlt. rewrite length_get_all_values in Hlt. lia. }
    rewrite (admin_rows_all search_text _ 5 1 Hst Hk Hblank).
    pose proof (rows_indices (get_all_values s)) as Hidx.
    pose proof (card_is_Some s) as Hcard.
    set (cols := columns (DataFrame (get_all_values s))) in *.
    set (l := rows (DataFrame (get_all_values s))) in *.
    destruct (mapM_is_Some_2 (drawn cols) l) as [cards Hcards].
    { apply Forall_forall. intros r _. by apply Hcard. }
    case_decide as Hnil.
    { rewrite Hnil in Hidx. simpl in Hidx.
      assert (length (tail (get_all_values s)) = length (requests s)) as Hreq by done.
      rewrite Hreq, length_requests in Hidx.
      destruct (length s - 1) eqn:Hn0; [lia|done]. }
    rewrite Hcards. exists cards. split; [done|].
    by rewrite (cards_indices cols l cards Hcards), Hidx. }
  destruct Hpage as (cards & Hpage & Hidx). exists cards.
  split; [done|]. split; [done|]. intros c Hc'.
  destruct (admin_dashboard_cards _ _ _ _ _ _ _ _ _ _ Hpage Hc') as (i & r & Hr & Hcard).
  by rewrite (card_of_request s i r c Hh Hr Hcard).
Qed.

Lemma admin_rows_pending kitchen_filter status_filter search_text (df : Frame) l j :
  admin_rows PendingRequests kitchen_filter status_filter search_text df = Some l →
  get_loc "Status" (columns df) = Some j →
  ∀ x, x ∈ l → at_ j x = "Pending".
Proof.
  unfold admin_rows. intros Hl Hst x Hx. rewrite Hst in Hl.
  cbn [mbind option_bind] in Hl.
  destruct (get_loc "Kitchen" (columns df)) as [k|]; [|done].
  cbn [mbind option_bind] in Hl.
  apply (search_subset _ _ _ _ Hl) in Hx.
  repeat case_decide;
    repeat (apply list_elem_of_filter in Hx as [? Hx]); done.
Qed.

(** A decision takes the request out of the pending view: after the
    writes of "Approve" or "Reject" on a stored request, the header row is
    as before and no pending view, whatever its filters, has a card for
    the request. *)
Theorem decided_request_leaves_pending_view (s s' : Sheet) reviewer click :
  header_ok s = true →
  is_decision click →
  click_index click < length (requests s) →
  run_updates (cell_updates reviewer click) s = Some s' →
  header_ok s' = true
  ∧ ∀ secrets password admin_name kitchen_filter status_filter search_text page,
      admin_dashboard secrets password admin_name PendingRequests
        kitchen_filter status_filter search_text s' = Some page →
      click_index click ∉ c_index <$> table_of page.
Proof.
  intros Hh Hd Hi Hrun.
  destruct (click_cells reviewer click s Hi) as (s1 & Hrun1 & Hlen & Hcell).
  rewrite Hrun in Hrun1. injection Hrun1 as <-.
  assert (Hh' : header_ok s' = true).
  { rewrite <- Hh. apply header_ok_cells. intros c. rewrite Hcell.
    destruct click; unfold click_cell; repeat case_decide; try done; lia. }
  split; [done|].
  intros secrets password admin_name kitchen_filter status_filter search_text page Hpage Hin.
  destruct page as [m|cards]; simpl in Hin; [by apply elem_of_nil in Hin|].
  destruct (admin_dashboard_rows _ _ _ _ _ _ _ _ _ Hpage)
    as (_ & _ & l & Hl & _ & Hcards).
  rewrite (cards_indices _ _ _ Hcards) in Hin.
  apply list_elem_of_fmap in Hin as ([j r] & Hj & Hx). simpl in Hj. subst j.
  pose proof (header_ok_columns s' Hh') as (_ & _ & _ & _ & _ & Hst & _).
  pose proof (admin_rows_pending _ _ _ _ _ _ Hl Hst _ Hx) as Hpending.
  apply (admin_rows_subset _ _ _ _ _ _ Hl), elem_of_rows in Hx.
  destruct (at_request_field s' _ r Hx) as (Hstatus & _).
  rewrite Hstatus, request_field_cell, Hcell in Hpending.
  destruct click as [i|i|i ?]; [| |done]; unfold click_cell in Hpending;
    simpl in Hpending; by rewrite decide_True in Hpending.
Qed.

(** A card shows what the buttons wrote: after the writes of a button on
    a stored request, every view that has a card for the request shows on
    it the new status, for "Approve" and "Reject", or the new comment, for
    "Save Comment", and the kitchen, name, identifier and link that the
    request had before. *)
Theorem cards_show_the_writes (s s' : Sheet) reviewer click :
  header_ok s = true →
  click_index click < length (requests s) →
  run_updates (cell_updates reviewer click) s = Some s' →
  ∀ secrets password admin_name admin_menu kitchen_filter status_filter
    search_text cards c,
    admin_dashboard secrets password admin_name admin_menu
      kitchen_filter status_filter search_text s' = Some (Shown cards) →
    c ∈ cards →
    c_index c = click_index click →
    match click with
    | Approve _ => c_status c = Scalar "Approved"
    | Reject _ => c_status c = Scalar "Rejected"
    | SaveComment _ comment => c_comments c = comment
    end
    ∧ c_kitchen c = Scalar (request_field s (c_index c) Site)
    ∧ c_employee_name c = Scalar (request_field s (c_index c) EmployeeName)
    ∧ c_employee_id c = Scalar (request_field s (c_index c) EmployeeId)
    ∧ c_photo_url c = Scalar (request_field s (c_index c) PhotoUrl).
Proof.
  intros Hh Hi Hrun secrets password admin_name admin_menu kitchen_filter
    status_filter search_text cards c Hpage Hc Hidx.
  destruct (click_cells reviewer click s Hi) as (s1 & Hrun1 & Hlen & Hcell).
  rewrite Hrun in Hrun1. injection Hrun1 as <-.
  assert (Hh' : header_ok s' = true).
  { rewrite <- Hh. apply header_ok_cells. intros col. rewrite Hcell.
    destruct click; unfold click_cell; repeat case_decide; try done; lia. }
  destruct (admin_dashboard_cards _ _ _ _ _ _ _ _ _ _ Hpage Hc) as (j & r & Hr & Hcard).
  pose proof (card_of_request s' j r c Hh' Hr Hcard) as Hshape.
  assert (Hj : j = click_index click) by (rewrite <- Hidx, Hshape; done).
  rewrite Hshape, Hj. cbn [c_index c_status c_comments c_kitchen c_employee_name
                             c_employee_id c_photo_url].
  rewrite !request_field_cell, !Hcell.
  destruct click as [i|i|i comment]; unfold click_cell; simpl;
    repeat case_decide; try done; lia.
Qed.

(** A stored request is listed: after a complete form is submitted to a
    worksheet with its header row, the pending view without filters has a
    card for the new request, under the index that follows the stored
    requests, showing the kitchen, the name, the identifier and the link
    of the form, the status "Pending" and an empty comment. *)
Theorem submitted_request_is_pending secrets password admin_name
    now_upload now_row f w image_data :
  header_ok (sheet w) = true →
  kitchen f ≠ "--Select--" → emp_name f ≠ "" → emp_id f ≠ "" →
  picture f = Some image_data →
  admin_gate secrets password admin_name = None →
  ∃ cards c,
    admin_dashboard secrets password admin_name PendingRequests "All" "All" ""
      (sheet (submit_request now_upload now_row f w).1) = Some (Shown cards)
    ∧ c ∈ cards
    ∧ c_index c = length (requests (sheet w))
    ∧ c_kitchen c = Scalar (kitchen f)
    ∧ c_employee_name c = Scalar (emp_name f)
    ∧ c_employee_id c = Scalar (emp_id f)
    ∧ c_status c = Scalar "Pending"
    ∧ c_photo_url c = Scalar (save_image_to_drive now_upload image_data (drive w)).1
    ∧ c_comments c = "".
Proof.
  intros Hh Hk Hn He Hp Hgate.
  rewrite (submit_complete_world now_upload now_row f w image_data Hk Hn He Hp).
  cbn [fst sheet].
  set (row := [strftime "%Y-%m-%d %H:%M:%S" now_row; kitchen f; emp_name f; emp_id f;
               (save_image_to_drive now_upload image_data (drive w)).1;
               "Pending"; ""; ""]).
  pose proof (header_ok_nonempty _ Hh) as Hs.
  assert (Hh' : header_ok (append_row row (sheet w)) = true).
  { rewrite <- Hh. apply header_ok_cells. intros c. apply cell_append_old.
    destruct (sheet w); simpl; [done|lia]. }
  destruct (admin_listing secrets password admin_name PendingRequests "All" "All" ""
              (append_row row (sheet w)) None Hh' Hgate eq_refl)
    as (page & Hpage & Hin & _ & _ & _ & Hshown).
  assert (Hnew : length (requests (sheet w)) ∈ c_index <$> table_of page).
  { apply Hin. unfold listed. rewrite length_requests_append by done.
    split; [lia|]. split; [|done]. intros _.
    by rewrite request_field_appended. }
  apply list_elem_of_fmap in Hnew as (c & Hi & Hc).
  assert (Hpage' : page = Shown (table_of page)).
  { apply Hshown. intros Hnil. rewrite Hnil in Hc. by apply elem_of_nil in Hc. }
  rewrite Hpage' in Hpage. exists (table_of page), c.
  split; [done|]. split; [done|]. split; [done|].
  destruct (admin_dashboard_cards _ _ _ _ _ _ _ _ _ _ Hpage Hc) as (j & r & Hr & Hcard).
  pose proof (card_of_request _ j r c Hh' Hr Hcard) as Hshape.
  assert (Hj : j = length (requests (sheet w))) by (rewrite Hi, Hshape; done).
  rewrite Hshape, Hj. simpl. by rewrite !request_field_appended.
Qed.

End WriteThenList.

(** ** Runs that raise, and a reply without identifier *)

Section Raises.
Context `{Library}.

Lemma get_loc_missing name (cols : list string) : name ∉ cols → get_loc name cols = None.
Proof. intros Hout. unfold get_loc. by rewrite positions_nil. Qed.

(** A run that raises before the loop writes nothing. *)
Lemma admin_click_raises secrets password admin_name admin_menu
    kitchen_filter status_filter search_text click (s : Sheet) :
  admin_rows admin_menu kitchen_filter status_filter search_text
    (DataFrame (get_all_values s)) = None →
  admin_dashboard secrets password admin_name admin_menu
    kitchen_filter status_filter search_text s = None →
  admin_click secrets password admin_name admin_menu
    kitchen_filter status_filter search_text click s = (s, None).
Proof.
  intros Hrows Hnone.
  destruct (admin_run_runs secrets password admin_name admin_menu kitchen_filter
              status_filter search_text (Some click) s)
    as (us & (s' & Hs' & Hrun & _) & Hus & _).
  unfold admin_click. rewrite Hrun.
  rewrite admin_dashboard_eq in Hnone. rewrite Hnone.
  destruct Hus as [->|(l & _ & Hl & _)]; [by injection Hs' as <-|congruence].
Qed.

(** The views read their columns by name: on a worksheet with a request,
    the two views of the dashboard raise when no column is named
    "Timestamp" or none is named "Kitchen", and the admin dashboard,
    behind its gate, raises when no column is named "Kitchen" or none is
    named "Status"; a button pressed in such a run writes nothing. *)
Theorem views_need_their_columns (s : Sheet) :
  2 ≤ length s →
  ("Timestamp" ∉ hd [] (get_all_values s) ∨ "Kitchen" ∉ hd [] (get_all_values s) →
   tanker_summary s = None
   ∧ ∀ kitchen_filter date_filter, ticket_status kitchen_filter date_filter s = None)
  ∧ ("Kitchen" ∉ hd [] (get_all_values s) ∨ "Status" ∉ hd [] (get_all_values s) →
     ∀ secrets password admin_name admin_menu kitchen_filter status_filter
       search_text click,
       admin_gate secrets password admin_name = None →
       admin_dashboard secrets password admin_name admin_menu
         kitchen_filter status_filter search_text s = None
       ∧ admin_click secrets password admin_name admin_menu
           kitchen_filter status_filter search_text click s = (s, None)).
Proof.
  intros Hlen.
  assert (Hlt : (length (get_all_values s) <? 2) = false).
  { apply Nat.ltb_ge. by rewrite length_get_all_values. }
  split.
  - intros Hmiss. unfold tanker_summary, ticket_status. rewrite Hlt.
    change (columns (DataFrame (get_all_values s))) with (hd [] (get_all_values s)).
    destruct Hmiss as [Ht|Hk].
    + rewrite (get_loc_missing _ _ Ht). done.
    + destruct (get_loc "Timestamp" _); [|done]. cbn [mbind option_bind].
      rewrite (get_loc_assign_column "Month" "Kitchen") by done.
      rewrite (get_loc_missing _ _ Hk). done.
  - intros Hmiss secrets password admin_name admin_menu kitchen_filter status_filter
      search_text click Hgate.
    assert (Hrows : admin_rows admin_menu kitchen_filter status_filter search_text
                      (DataFrame (get_all_values s)) = None).
    { unfold admin_rows.
      change (columns (DataFrame (get_all_values s))) with (hd [] (get_all_values s)).
      destruct Hmiss as [Hk|Hst].
      - rewrite (get_loc_missing _ _ Hk).
        destruct admin_menu; [|done].
        by destruct (get_loc "Status" _).
      - rewrite (get_loc_missing _ _ Hst).
        destruct admin_menu; [done|].
        by destruct (get_loc "Kitchen" _). }
    assert (Hnone : admin_dashboard secrets password admin_name admin_menu
                      kitchen_filter status_filter search_text s = None).
    { by rewrite admin_dashboard_eq, Hgate, Hlt, Hrows. }
    split; [done|]. by apply admin_click_raises.
Qed.

(** A search text that is not blank and that [re] refuses ends the run of
    the admin dashboard with the error of [re]: no card is shown and a
    pressed button writes nothing. *)
Theorem refused_pattern_raises secrets password admin_name admin_menu
    kitchen_filter status_filter search_text click (s : Sheet) :
  admin_gate secrets password admin_name = None →
  2 ≤ length s →
  nonblank search_text →
  re_compile search_text = None →
  admin_dashboard secrets password admin_name admin_menu
    kitchen_filter status_filter search_text s = None
  ∧ admin_click secrets password admin_name admin_menu
      kitchen_filter status_filter search_text click s = (s, None).
Proof.
  intros Hgate Hlen Hs%strip_truthy Hre.
  assert (Hrows : admin_rows admin_menu kitchen_filter status_filter search_text
                    (DataFrame (get_all_values s)) = None).
  { unfold admin_rows, search. rewrite Hs, Hre.
    destruct admin_menu;
      destruct (get_loc "Status" _); cbn [mbind option_bind]; try done;
      destruct (get_loc "Kitchen" _); cbn [mbind option_bind]; try done;
      destruct (get_loc "Employee Name" _); cbn [mbind option_bind]; done. }
  assert (Hnone : admin_dashboard secrets password admin_name admin_menu
                    kitchen_filter status_filter search_text s = None).
  { rewrite admin_dashboard_eq, Hgate.
    destruct (length (get_all_values s) <? 2) eqn:Hlt.
    { apply Nat.ltb_lt in Hlt. rewrite length_get_all_values in Hlt. lia. }
    by rewrite Hrows. }
  split; [done|]. by apply admin_click_raises.
Qed.

(** Under a header row that names the six columns of the card and none
    "Comments", behind the open gate and with a request in the list, the
    run of the admin dashboard raises at the comment box of the first
    request of the list: no page is shown.  The two buttons drawn before
    the box have been answered by then: a press of "Approve" or "Reject"
    on that first request has written its status and its reviewer, and
    every other press has written nothing. *)
Theorem decision_written_before_comments_raise secrets password admin_name
    admin_menu kitchen_filter status_filter search_text click (s : Sheet) r l :
  admin_gate secrets password admin_name = None →
  admin_rows admin_menu kitchen_filter status_filter search_text
    (DataFrame (get_all_values s)) = Some (r :: l) →
  (∀ name, name ∈ ["Timestamp"; "Kitchen"; "Employee Name"; "Employee ID";
                   "Status"; "Photo URL"] → name ∈ hd [] (get_all_values s)) →
  "Comments" ∉ hd [] (get_all_values s) →
  admin_dashboard secrets password admin_name admin_menu
    kitchen_filter status_filter search_text s = None
  ∧ r.1 < length (requests s)
  ∧ ∃ s',
      admin_click secrets password admin_name admin_menu
        kitchen_filter status_filter search_text click s = (s', None)
      ∧ length (requests s') = length (requests s)
      ∧ (click = Approve r.1 ∨ click = Reject r.1 →
         ∀ row col, cell s' row col = click_cell admin_name click row col (cell s row col))
      ∧ (click ≠ Approve r.1 → click ≠ Reject r.1 → s' = s).
Proof.
  intros Hgate Hl Hcols Hcomments.
  assert (Hr : r.1 < length (requests s)).
  { assert (Hin : r ∈ rows (DataFrame (get_all_values s))).
    { apply (admin_rows_subset _ _ _ _ _ _ Hl). apply elem_of_cons. by left. }
    destruct r as [i cells]. apply elem_of_rows, lookup_lt_Some in Hin.
    by unfold requests. }
  assert (Hlen : (length (get_all_values s) <? 2) = false).
  { apply Nat.ltb_ge. rewrite length_get_all_values.
    rewrite length_requests in Hr. lia. }
  assert (Hrun : ∀ pressed,
            runs s ((if bool_decide (pressed = Some (Approve r.1))
                     then cell_updates admin_name (Approve r.1) else [])
                    ++ (if bool_decide (pressed = Some (Reject r.1))
                        then cell_updates admin_name (Reject r.1) else []))
              (@None (Page (list Card)))
              (admin_run secrets password admin_name admin_menu
                 kitchen_filter status_filter search_text pressed)).
  { intros pressed. unfold admin_run. rewrite Hgate.
    apply (runs_bind s [] _ (get_all_values s)); [apply runs_get_all_values|].
    intros s1 [= <-]. rewrite Hlen, Hl.
    apply (runs_bind s [] _ (r :: l)); [apply runs_or_raise|]. intros s2 [= <-].
    rewrite decide_False by done.
    apply (runs_fmap s _ None). cbn [for_each]. apply runs_bind_raise.
    apply card_raises_late.
    - intros name Hname. unfold item.
      pose proof (positions_elem name _ 0 (Hcols name Hname)) as Hpos.
      change (columns (DataFrame (get_all_values s))) with (hd [] (get_all_values s)).
      destruct (positions name (hd [] (get_all_values s)) 0) as [|j [|j' js]]; [done|eauto..].
    - unfold item.
      change (columns (DataFrame (get_all_values s))) with (hd [] (get_all_values s)).
      by rewrite (positions_nil _ _ 0 Hcomments). }
  split; [|split; [done|]].
  { destruct (Hrun None) as (s' & _ & Hnone & _).
    unfold admin_dashboard. by rewrite Hnone. }
  destruct (Hrun (Some click)) as (s' & Hs' & Hclick & _).
  exists s'. unfold admin_click. rewrite Hclick. split; [done|].
  destruct (decide (click = Approve r.1)) as [->|Hna].
  { rewrite bool_decide_eq_true_2, bool_decide_eq_false_2, app_nil_r in Hs' by done.
    destruct (click_cells admin_name (Approve r.1) s Hr) as (s1 & Hs1 & Hlen1 & Hcells).
    rewrite Hs1 in Hs'. injection Hs' as <-.
    split; [by apply length_requests_eq|]. split; [done|]. by intros ?. }
  destruct (decide (click = Reject r.1)) as [->|Hnr].
  { rewrite bool_decide_eq_false_2, bool_decide_eq_true_2 in Hs' by done.
    destruct (click_cells admin_name (Reject r.1) s Hr) as (s1 & Hs1 & Hlen1 & Hcells).
    rewrite app_nil_l, Hs1 in Hs'. injection Hs' as <-.
    split; [by apply length_requests_eq|]. split; [done|]. by intros ?. }
  rewrite !bool_decide_eq_false_2 in Hs' by congruence.
  injection Hs' as <-. split; [done|]. split; [by intros [?|?]|done].
Qed.

(** When the reply to the upload carries no "id", the request is stored
    all the same, with a link that ends in "None". *)
Theorem reply_without_id_stores_broken_link now_upload now_row f w image_data :
  kitchen f ≠ "--Select--" → emp_name f ≠ "" → emp_id f ≠ "" →
  picture f = Some image_data →
  drive_create (drive w) (uploaded now_upload image_data) !! "id" = None →
  submit_request now_upload now_row f w
  = ({| sheet := sheet w ++ [[strftime "%Y-%m-%d %H:%M:%S" now_row; kitchen f;
                              emp_name f; emp_id f;
                              "https://drive.google.com/uc?export=view&id=None";
                              "Pending"; ""; ""]];
        drive := drive w ++ [uploaded now_upload image_data] |},
     Success "✅ Request submitted successfully!").
Proof.
  intros Hk Hn He Hp Hid.
  rewrite (submit_complete_world now_upload now_row f w image_data Hk Hn He Hp).
  unfold save_image_to_drive. fold (uploaded now_upload image_data).
  by rewrite Hid.
Qed.

End Raises.

(** ** What no run undoes *)

Section Frame.
Context `{Library}.

Lemma keeps_refl (s : Sheet) : keeps s s.
Proof. unfold keeps. auto. Qed.

Lemma keeps_append (s : Sheet) row : keeps s (append_row row s).
Proof.
  unfold keeps. split; [|split].
  - rewrite !length_requests. unfold append_row. rewrite length_app. lia.
  - intros Hs c. apply cell_append_old. destruct s; simpl; [done|lia].
  - intros i f Hi _. by apply request_field_append_old.
Qed.

Lemma keeps_calls admin_name c n (s s' : Sheet) :
  click_index c < length (requests s) →
  run_updates (take n (cell_updates admin_name c)) s = Some s' →
  keeps s s'.
Proof.
  intros Hi Hrun. destruct (calls_cells admin_name c n s s' Hi Hrun) as [Hlen Hcell].
  unfold keeps. split; [|split].
  - by rewrite (length_requests_eq s s' Hlen).
  - intros _ col. destruct (Hcell 1 col) as [?|[? _]]; [done|lia].
  - intros i f _ (Hs & Hr & Hc). rewrite !request_field_cell.
    destruct (Hcell (i + 2) (field_col f)) as [?|[_ Hcol]]; [done|].
    destruct f; simpl in Hcol; try done; lia.
Qed.

Lemma run_keeps secrets calls ev w :
  keeps (sheet w) (sheet (run secrets calls ev w))
  ∧ drive w `prefix_of` drive (run secrets calls ev w).
Proof.
  destruct (run_cases secrets calls ev w)
    as [->|[(now_upload & now_row & f & image_data & _ & _ & [-> | ->])
           |(admin_name & c & n & s' & _ & Hi & Hpre & ->)]]; cbn [sheet drive].
  - split; [apply keeps_refl|done].
  - split; [apply keeps_refl|]. by eexists.
  - split; [apply keeps_append|]. by eexists.
  - split; [|done]. by apply (keeps_calls admin_name c n).
Qed.

Lemma on_sheet_eq {A} (m : Run Sheet A) w calls :
  on_sheet m (w, calls)
  = (({| sheet := (m (sheet w, calls)).1.1; drive := drive w |},
      (m (sheet w, calls)).1.2),
     (m (sheet w, calls)).2).
Proof. unfold on_sheet. cbn [fst snd]. by destruct (m (sheet w, calls)) as [[s' calls'] a]. Qed.

(** The world that a run of [main] leaves is the world as it was, or the
    world after the press of a button. *)
Lemma main_world secrets connected menu w calls :
  ((main secrets connected menu (w, calls)).1.1 = w
   ∨ ∃ ev, (main secrets connected menu (w, calls)).1.1 = run secrets calls ev w)
  ∧ (quiet connected menu → (main secrets connected menu (w, calls)).1.1 = w).
Proof.
  unfold main, quiet. destruct connected; cbn [negb];
    [|split; [by left|done]].
  destruct menu as [f pressed now_upload now_row|dashboard_option|password admin_name
    admin_menu kitchen_filter status_filter search_text pressed].
  - destruct pressed; [|split; [by left|done]].
    split; [|by intros [?|?]]. right.
    exists (SubmitRequest now_upload now_row f). cbn [run].
    unfold mbind, run_bind, bind.
    by destruct (submit now_upload now_row f (w, calls)) as [[w1 calls1] [m|]].
  - assert (Hw : ∀ (f : list Row → Run World Screen),
              (∀ data st, (f data st).1.1 = st.1) →
              ((on_sheet Service.get_all_values ≫= f) (w, calls)).1.1 = w).
    { intros f Hf. unfold mbind, run_bind, bind. rewrite on_sheet_eq.
      unfold Service.get_all_values, call. cbn [fst snd].
      destruct calls as [[|k]|]; cbn [fst snd]; rewrite ?Hf; cbn [fst snd];
        by destruct w. }
    rewrite Hw; [split; [by left|done]|].
    intros data st. unfold mbind, run_bind, bind, state. cbn [fst snd].
    destruct dashboard_option as [|kitchen_filter date_filter].
    + destruct (tanker_summary (sheet st.1)); [|done]. cbn [or_raise ret].
      by destruct (tanker_chart (sheet st.1)).
    + by destruct (ticket_status _ _ _).
  - unfold mbind, run_bind, bind. rewrite on_sheet_eq.
    destruct (admin_run secrets password admin_name admin_menu kitchen_filter
                status_filter search_text pressed (sheet w, calls))
      as [[s' calls'] [cards|]] eqn:Hrun; cbn [fst snd];
      destruct (admin_run_writes _ _ _ _ _ _ _ _ _ _ _ _ _ Hrun)
        as [->|(c & n & -> & _)];
      try (split; [left; by destruct w|intros _; by destruct w]);
      (split; [|by intros [?|?]]); right;
      exists (AdminClick password admin_name admin_menu kitchen_filter
                status_filter search_text c);
      cbn [run]; by rewrite on_sheet_eq, Hrun.
Qed.

(** No run of the script removes or moves a request, or rewrites the
    header row, the timestamp, the kitchen, the name, the identifier or
    the link of a request, or removes a photo from the folder, whether
    the run returns or an exception ends it, after any number of its
    calls; a run in which the connection is refused, or the menu is the
    dashboard, or no button is pressed, leaves both services as they
    were; and a run in which the connection is refused shows the error
    and nothing else. *)
Theorem main_keeps_requests secrets connected menu w calls w' calls' screen :
  main secrets connected menu (w, calls) = ((w', calls'), screen) →
  keeps (sheet w) (sheet w')
  ∧ drive w `prefix_of` drive w'
  ∧ (quiet connected menu → w' = w)
  ∧ (connected = false → ∃ text, screen = Some (CannotAccess text)).
Proof.
  intros Hmain.
  destruct (main_world secrets connected menu w calls) as [Hw Hquiet].
  rewrite Hmain in Hw, Hquiet. cbn [fst snd] in Hw, Hquiet.
  split; [|split; [|split; [done|]]].
  - destruct Hw as [->|[ev ->]]; [apply keeps_refl|apply run_keeps].
  - destruct Hw as [->|[ev ->]]; [done|apply run_keeps].
  - intros ->. unfold main in Hmain. cbn [negb] in Hmain. injection Hmain as _ _ <-. eauto.
Qed.

End Frame.

(** ** Photos and reviewers of the stored requests *)

Section Stored.
Context `{Library}.








Lemma reviewed_ok_append (s : Sheet) ts site name id url :
  reviewed_ok s →
  reviewed_ok (append_row [ts; site; name; id; url; "Pending"; ""; ""] s).
Proof.
  intros Hs i. rewrite length_requests. unfold append_row at 1.
  rewrite length_app. simpl. intros Hi.
  destruct (decide (i < length (requests s))) as [Hold|Hnew].
  - rewrite !request_field_append_old by done. by apply Hs.
  - rewrite length_requests in Hnew.
    assert (Hne : s ≠ []) by (intros ->; simpl in *; lia).
    assert (i = length (requests s)) as -> by (rewrite length_requests; lia).
    rewrite !request_field_appended by done. by left.
Qed.

Lemma reviewed_ok_calls admin_name click n (s s' : Sheet) :
  nonblank admin_name →
  click_index click < length (requests s) →
  run_updates (take n (cell_updates admin_name click)) s = Some s' →
  reviewed_ok s → reviewed_ok s'.
Proof.
  intros Hname Hi Hrun Hs j.
  destruct (calls_cells admin_name click n s s' Hi Hrun) as [Hlen Hcell].
  rewrite (length_requests_eq s s' Hlen). intros Hj. specialize (Hs j Hj).
  rewrite !request_field_cell in *. cbn [field_col] in *.
  destruct (Hcell (j + 2) 6) as [H6|[_ [[_ H6]|[[? _]|?]]]]; try lia;
    destruct (Hcell (j + 2) 7) as [H7|[_ [[? _]|[(_ & H7 & H7')|?]]]]; try lia.
  - by rewrite H6, H7.
  - rewrite H7. right. split; [done|by right].
  - rewrite H7. right. split; [done|]. destruct Hs as [[_ ->]|[_ ?]]; [by left|done].
  - rewrite H7. right. split; [done|by right].
Qed.

(** In every state that the script reaches from a worksheet holding a
    header row, also through runs that an exception ends after some of
    their calls, a request that is pending names no reviewer, and a
    request that is approved or rejected names a reviewer whose name is
    not blank, the name under which the admin passed the gate, or still
    none, when the run of the decision was ended between its two
    writes. *)
Theorem decided_requests_name_a_reviewer secrets w :
  reachable secrets w →
  ∀ i, i < length (requests (sheet w)) →
       (request_field (sheet w) i Status = "Pending"
        ∧ request_field (sheet w) i Reviewer = "")
       ∨ ((request_field (sheet w) i Status = "Approved"
           ∨ request_field (sheet w) i Status = "Rejected")
          ∧ (request_field (sheet w) i Reviewer = ""
             ∨ nonblank (request_field (sheet w) i Reviewer))).
Proof.
  intros Hreach. change (reviewed_ok (sheet w)).
  induction Hreach as [header|w calls ev w' _ IH Hrun].
  - intros i. rewrite length_requests. simpl. lia.
  - subst w'.
    destruct (run_cases secrets calls ev w)
      as [->|[(now_upload & now_row & f & image_data & _ & _ & [-> | ->])
             |(admin_name & c & n & s' & Hname & Hi & Hpre & ->)]]; cbn [sheet]; try done.
    + by apply reviewed_ok_append.
    + by apply (reviewed_ok_calls admin_name c n (sheet w)).
Qed.

End Stored.

(** ** The summary and its chart *)

Section Chart.
Context {L : Library} {Laws : LibraryLaws L}.

(** The table of the summary of a worksheet with requests. *)
Lemma tanker_table (s : Sheet) :
  header_ok s = true → month_ok s = true → 2 ≤ length s →
  tanker_summary s
  = Some (Shown (groupby_size
                   (zip (field Site <$> requests s)
                        ((λ ts : option datetime, strftime "%b %Y" <$> ts)
                           <$> timestamps s)))).
Proof.
  intros (Ht & Hk & _)%header_ok_columns Hmonth Hlen. unfold tanker_summary.
  destruct (length (get_all_values s) <? 2) eqn:Hlt.
  { apply Nat.ltb_lt in Hlt. rewrite length_get_all_values in Hlt. lia. }
  rewrite Ht. cbn [mbind option_bind].
  rewrite (get_loc_assign_column "Month" "Kitchen") by done.
  rewrite Hk. cbn [mbind option_bind].
  destruct (get_loc_assigned "Month" (columns (DataFrame (get_all_values s))))
    as [j ->]; [by apply bool_decide_eq_true in Hmonth|].
  cbn [mbind option_bind]. rewrite !column_requests. reflexivity.
Qed.

Lemma summary_rows (s : Sheet) :
  let table := groupby_size
                 (zip (field Site <$> requests s)
                      ((λ ts : option datetime, strftime "%b %Y" <$> ts)
                         <$> timestamps s)) in
  NoDup table.*1
  ∧ (∀ site label n, ((site, label), n) ∈ table → ∃ y m, label = month_label y m)
  ∧ (∀ site y m n, ((site, month_label y m), n) ∈ table
                   ↔ n = purchases s site y m ∧ 0 < n).
Proof.
  intros table. subst table.
  match goal with |- context [groupby_size ?ks] =>
    destruct (groupby_size_spec ks) as [Hnd Hin] end.
  split; [done|]. split.
  - intros site label n Hrow. apply Hin in Hrow as [-> Hpos].
    apply count_pos, list_elem_of_omap in Hpos as ([a b] & Hab & Hsome).
    apply elem_of_zip_r, list_elem_of_fmap in Hab as ([t|] & -> & _); [|done].
    cbn [fmap option_fmap option_map] in Hsome. injection Hsome as _ <-.
    exists (year t), (month t). exact (strftime_month t).
  - intros site y m n. rewrite Hin. unfold purchases.
    by rewrite <- count_purchases.
Qed.

Lemma sum_bump k acc : sum_list_with snd (bump k acc) = S (sum_list_with snd acc).
Proof.
  induction acc as [|[k' n] acc IH]; simpl; [done|].
  destruct (decide (k = k')); simpl; [done|]. rewrite IH. lia.
Qed.

Lemma sum_tally keys : sum_list_with snd (tally keys) = length keys.
Proof.
  unfold tally.
  assert (Hfrom : ∀ acc, sum_list_with snd (foldl (λ acc k, bump k acc) acc keys)
                         = sum_list_with snd acc + length keys).
  { induction keys as [|k keys IH]; intros acc; simpl; [lia|].
    rewrite IH, sum_bump. lia. }
  by rewrite Hfrom.
Qed.

Lemma length_dated_keys (sites : list string) (tss : list (option datetime)) :
  length sites = length tss →
  length (omap (λ '(a, b), pair a <$> b)
            (zip sites ((λ ts : option datetime, strftime "%b %Y" <$> ts) <$> tss)))
  = length (filter is_Some tss).
Proof.
  revert tss. induction sites as [|a sites IH]; intros [|ts tss] Hlen; try done.
  cbn [fmap list_fmap zip zip_with omap list_omap]. rewrite filter_cons.
  injection Hlen as Hlen. destruct ts as [t|]; cbn [fmap option_fmap option_map].
  - rewrite decide_True by eauto. simpl. f_equal. by apply IH.
  - rewrite decide_False by (by intros [? ?]). by apply IH.
Qed.

(** The numbers of the summary add up to the number of stored requests
    whose timestamp is read: each of them is counted once, in one row. *)
Theorem summary_counts_each_dated_request_once (s : Sheet) :
  header_ok s = true → month_ok s = true →
  ∃ page,
    tanker_summary s = Some page
    ∧ sum_list_with snd (table_of page) = length (filter is_Some (timestamps s)).
Proof.
  intros Hh Hmonth. destruct (decide (2 ≤ length s)) as [Hlen|Hlen].
  - rewrite (tanker_table s Hh Hmonth Hlen). eexists. split; [done|]. simpl.
    unfold groupby_size. rewrite sort_rows_perm, sum_tally.
    apply length_dated_keys. unfold timestamps.
    by rewrite to_datetime_length, !length_fmap.
  - unfold tanker_summary.
    destruct (length (get_all_values s) <? 2) eqn:Hlt.
    + apply Nat.ltb_lt in Hlt. eexists. split; [done|]. simpl.
      unfold timestamps. rewrite (requests_nil s Hlt).
      pose proof (to_datetime_length (field Timestamp <$> [])) as Hnil.
      simpl in Hnil. by destruct (to_datetime _).
    + apply Nat.ltb_ge in Hlt. rewrite length_get_all_values in Hlt. lia.
Qed.

Lemma insert_label_perm x l : insert_label x l ≡ₚ x :: l.
Proof.
  induction l as [|y l IH]; simpl; [done|].
  destruct (Strings.String.leb x y); [done|]. rewrite IH. apply Permutation_swap.
Qed.

Lemma axis_perm l : axis l ≡ₚ remove_dups l.
Proof.
  unfold axis. induction (remove_dups l) as [|x k IH]; simpl; [done|].
  by rewrite insert_label_perm, IH.
Qed.

Lemma elem_of_axis x l : x ∈ axis l ↔ x ∈ l.
Proof. by rewrite axis_perm, elem_of_remove_dups. Qed.

Lemma NoDup_axis l : NoDup (axis l).
Proof. rewrite axis_perm. apply NoDup_remove_dups. Qed.

Lemma size_of_notin k acc : k ∉ acc.*1 → size_of k acc = 0.
Proof.
  induction acc as [|[k' n] acc IH]; simpl; [done|].
  intros [Hne Hout]%not_elem_of_cons. rewrite decide_False by done. by apply IH.
Qed.

(** The size that the table records for a kitchen and a month is the
    number of purchases, none included. *)
Lemma size_of_purchases (s : Sheet) site y m :
  size_of (site, month_label y m)
    (groupby_size
       (zip (field Site <$> requests s)
            ((λ ts : option datetime, strftime "%b %Y" <$> ts) <$> timestamps s)))
  = purchases s site y m.
Proof.
  destruct (summary_rows s) as (Hnd & _ & Hin).
  destruct (decide (0 < purchases s site y m)) as [Hpos|Hzero].
  - assert (Hrow : ((site, month_label y m), purchases s site y m)
                   ∈ groupby_size
                       (zip (field Site <$> requests s)
                          ((λ ts : option datetime, strftime "%b %Y" <$> ts)
                             <$> timestamps s))) by by apply Hin.
    by apply (elem_of_size_of _ _ _ Hnd) in Hrow as [_ Hrow].
  - rewrite size_of_notin; [lia|].
    intros ([k n] & Hk & Hkn)%list_elem_of_fmap. simpl in Hk. subst k.
    apply Hin in Hkn. lia.
Qed.

(** The bar chart is drawn from every summary: [pivot] finds no pair of
    month and kitchen twice.  Its lines are the months in which a request
    falls and its series the kitchens that have a request with a read
    timestamp, each once, and the value of a kitchen in a month is the
    number of its purchases in that month, 0 when there is none. *)
Theorem bar_chart_shows_purchases (s : Sheet) :
  header_ok s = true → month_ok s = true → 2 ≤ length s →
  ∃ chart,
    tanker_chart s = Some (Shown chart)
    ∧ NoDup (chart_index chart) ∧ NoDup (chart_columns chart)
    ∧ (∀ label, label ∈ chart_index chart
                ↔ ∃ site y m, label = month_label y m ∧ 0 < purchases s site y m)
    ∧ (∀ site, site ∈ chart_columns chart ↔ ∃ y m, 0 < purchases s site y m)
    ∧ (∀ i j site y m,
         chart_index chart !! i = Some (month_label y m) →
         chart_columns chart !! j = Some site →
         chart_values chart !! i ≫= (.!! j) = Some (purchases s site y m)).
Proof.
  intros Hh Hmonth Hlen. unfold tanker_chart.
  rewrite (tanker_table s Hh Hmonth Hlen).
  destruct (summary_rows s) as (Hnd & Hlabel & Hin).
  pose proof (size_of_purchases s) as Hsize.
  set (table := groupby_size _) in *.
  unfold pivot_fillna. rewrite decide_True by done.
  eexists. split; [reflexivity|]. cbn [chart_index chart_columns chart_values].
  split; [apply NoDup_axis|]. split; [apply NoDup_axis|]. split; [|split].
  - intros label. rewrite elem_of_axis. split.
    + intros (key & Hlab & (row & Hkey & Hrow)%list_elem_of_fmap)%list_elem_of_fmap.
      destruct row as [[site lab] n]. simpl in Hkey. subst key. simpl in Hlab. subst label.
      destruct (Hlabel _ _ _ Hrow) as (y & m & ->).
      exists site, y, m. split; [done|]. by apply Hin in Hrow as [<- ?].
    + intros (site & y & m & -> & Hpos).
      apply list_elem_of_fmap. exists (site, month_label y m). split; [done|].
      apply list_elem_of_fmap. exists ((site, month_label y m), purchases s site y m).
      split; [done|]. by apply Hin.
  - intros site. rewrite elem_of_axis. split.
    + intros (key & Hsite & (row & Hkey & Hrow)%list_elem_of_fmap)%list_elem_of_fmap.
      destruct row as [[site' lab] n]. simpl in Hkey. subst key. simpl in Hsite. subst site.
      destruct (Hlabel _ _ _ Hrow) as (y & m & ->).
      exists y, m. by apply Hin in Hrow as [<- ?].
    + intros (y & m & Hpos).
      apply list_elem_of_fmap. exists (site, month_label y m). split; [done|].
      apply list_elem_of_fmap. exists ((site, month_label y m), purchases s site y m).
      split; [done|]. by apply Hin.
  - intros i j site y m Hi Hj. rewrite list_lookup_fmap, Hi. simpl.
    rewrite list_lookup_fmap, Hj. simpl. by rewrite Hsize.
Qed.

End Chart.

(** ** Further runs on the sample worksheet *)

Section MoreRuns.

Lemma world1_reachable : @reachable Sample.library ∅ Sample.world1.
Proof.
  apply (reach_run ∅ Sample.world0 None
           (SubmitRequest Sample.time Sample.time Sample.form) Sample.world1).
  - apply reach_init.
  - vm_compute. reflexivity.
Qed.


Lemma half_approved_reachable : @reachable Sample.library ∅ Cases.half_approved.
Proof.
  apply (reach_run ∅ Sample.world1 (Some 2)
           (AdminClick "admin123" "alice" PendingRequests "All" "All" "" (Approve 0))
           Cases.half_approved).
  - apply world1_reachable.
  - vm_compute. reflexivity.
Qed.

Lemma nonblank_head c s : Text.isspace c = false → nonblank (String c s).
Proof. intros Hc. apply nonblank_cons. by left. Qed.

Lemma reject_sets_status_and_reviewer_witness :
  ∃ s', run_updates (cell_updates "alice" (Reject 0)) Sample.worksheet = Some s'
    ∧ length (requests s') = length (requests Sample.worksheet)
    ∧ request_field s' 0 Status = "Rejected"
    ∧ request_field s' 0 Reviewer = "alice"
    ∧ (∀ f, f ≠ Status → f ≠ Reviewer →
         request_field s' 0 f = request_field Sample.worksheet 0 f)
    ∧ (∀ j f, j ≠ 0 → request_field s' j f = request_field Sample.worksheet j f)
    ∧ (∀ r c, ¬ (r = 0 + 2 ∧ (c = 6 ∨ c = 7)) → cell s' r c = cell Sample.worksheet r c).
Proof.
  apply (reject_sets_status_and_reviewer Sample.worksheet 0 "alice").
  vm_compute. lia.
Defined.

Lemma save_comment_writes_one_cell_witness :
  ∃ s', run_updates (cell_updates "alice" (SaveComment 1 "seen")) Sample.worksheet
        = Some s'
    ∧ length (requests s') = length (requests Sample.worksheet)
    ∧ request_field s' 1 Comment = "seen"
    ∧ (∀ j f, j ≠ 1 ∨ f ≠ Comment →
         request_field s' j f = request_field Sample.worksheet j f)
    ∧ (∀ r c, ¬ (r = 1 + 2 ∧ c = 8) → cell s' r c = cell Sample.worksheet r c).
Proof.
  apply (save_comment_writes_one_cell Sample.worksheet 1 "seen" "alice").
  vm_compute. lia.
Defined.

Lemma last_decision_wins_witness :
  ∃ s1 s2 s2',
    run_updates (cell_updates "alice" (Approve 0)) Sample.worksheet = Some s1
    ∧ run_updates (cell_updates "carol" (Reject 0)) s1 = Some s2
    ∧ run_updates (cell_updates "carol" (Reject 0)) Sample.worksheet = Some s2'
    ∧ ∀ row col, cell s2 row col = cell s2' row col.
Proof.
  apply (last_decision_wins Sample.worksheet "alice" "carol" (Approve 0) (Reject 0)).
  - exact I.
  - exact I.
  - reflexivity.
  - vm_compute. lia.
Defined.

Lemma independent_clicks_commute_witness :
  ∃ s1 s12 s2 s21,
    run_updates (cell_updates "alice" (Approve 0)) Sample.worksheet = Some s1
    ∧ run_updates (cell_updates "carol" (SaveComment 0 "seen")) s1 = Some s12
    ∧ run_updates (cell_updates "carol" (SaveComment 0 "seen")) Sample.worksheet = Some s2
    ∧ run_updates (cell_updates "alice" (Approve 0)) s2 = Some s21
    ∧ ∀ row col, cell s12 row col = cell s21 row col.
Proof.
  apply (independent_clicks_commute Sample.worksheet "alice" "carol"
           (Approve 0) (SaveComment 0 "seen")).
  - right. simpl. tauto.
  - vm_compute. lia.
  - vm_compute. lia.
Defined.

Lemma closed_gate_never_writes_witness :
  ∃ text,
    @admin_dashboard Sample.library ∅ "guess" "alice" AllRequests "All" "All" ""
      Sample.worksheet = Some (Stopped (Warning text))
    ∧ @admin_click Sample.library ∅ "guess" "alice" AllRequests "All" "All" ""
        (Approve 0) Sample.worksheet
      = (Sample.worksheet, Some (Stopped (Warning text)))
    ∧ ∀ pressed calls,
        @admin_run Sample.library ∅ "guess" "alice" AllRequests "All" "All" ""
          pressed (Sample.worksheet, calls)
        = ((Sample.worksheet, calls), Some (Stopped (Warning text))).
Proof.
  apply (@closed_gate_never_writes Sample.library ∅ "guess" "alice" AllRequests
           "All" "All" "" (Approve 0) Sample.worksheet).
  left. discriminate.
Defined.

Lemma admin_cards_are_filtered_requests_witness :
  ∃ page,
    @admin_dashboard Sample.library ∅ "admin123" "alice" PendingRequests
      "WFD01" "All" "" Sample.worksheet = Some page
    ∧ (∀ i, i ∈ c_index <$> table_of page
            ↔ listed PendingRequests "WFD01" "All" None Sample.worksheet i)
    ∧ (c_index <$> table_of page)
        `sublist_of` seq 0 (length (requests Sample.worksheet)).
Proof.
  apply (@admin_cards_are_filtered_requests Sample.library ∅ "admin123" "alice"
           PendingRequests "WFD01" "All" "" Sample.worksheet None); reflexivity.
Defined.

Lemma admin_page_ends_witness :
  ∃ page,
    @admin_dashboard Sample.library ∅ "admin123" "alice" AllRequests
      "All" "Rejected" "" Sample.worksheet = Some page
    ∧ (length Sample.worksheet < 2 → page = Stopped (Info "No requests found."))
    ∧ (2 ≤ length Sample.worksheet →
       (∀ i, ¬ listed AllRequests "All" "Rejected" None Sample.worksheet i) →
       page = Stopped (Info "No matching requests found."))
    ∧ (∀ i, listed AllRequests "All" "Rejected" None Sample.worksheet i →
         ∃ cards, page = Shown cards ∧ i ∈ c_index <$> cards).
Proof.
  apply (@admin_page_ends Sample.library ∅ "admin123" "alice" AllRequests
           "All" "Rejected" "" Sample.worksheet None); reflexivity.
Defined.

(** No request of the sample worksheet is rejected: the view of all
    requests with the status box on "Rejected" ends with the notice. *)
Example no_rejected_request :
  @admin_dashboard Sample.library ∅ "admin123" "alice" AllRequests
    "All" "Rejected" "" Sample.worksheet
  = Some (Stopped (Info "No matching requests found.")).
Proof. vm_compute. reflexivity. Qed.

Lemma all_requests_view_is_complete_witness :
  ∃ cards,
    @admin_dashboard Sample.library ∅ "admin123" "alice" AllRequests "All" "All"
      "" Sample.worksheet = Some (Shown cards)
    ∧ c_index <$> cards = seq 0 (length (requests Sample.worksheet))
    ∧ ∀ c, c ∈ cards →
        c_kitchen c = Scalar (request_field Sample.worksheet (c_index c) Site)
        ∧ c_employee_name c
          = Scalar (request_field Sample.worksheet (c_index c) EmployeeName)
        ∧ c_employee_id c = Scalar (request_field Sample.worksheet (c_index c) EmployeeId)
        ∧ c_status c = Scalar (request_field Sample.worksheet (c_index c) Status)
        ∧ c_photo_url c = Scalar (request_field Sample.worksheet (c_index c) PhotoUrl)
        ∧ c_comments c = request_field Sample.worksheet (c_index c) Comment.
Proof.
  apply (@all_requests_view_is_complete Sample.library ∅ "admin123" "alice" ""
           Sample.worksheet).
  - reflexivity.
  - reflexivity.
  - vm_compute. lia.
  - apply nonblank_empty.
Defined.

Lemma decided_request_leaves_pending_view_witness :
  header_ok Cases.rejected = true
  ∧ ∀ secrets password admin_name kitchen_filter status_filter search_text page,
      @admin_dashboard Sample.library secrets password admin_name PendingRequests
        kitchen_filter status_filter search_text Cases.rejected = Some page →
      click_index (Reject 0) ∉ c_index <$> table_of page.
Proof.
  apply (@decided_request_leaves_pending_view Sample.library Sample.worksheet
           Cases.rejected "alice" (Reject 0)).
  - reflexivity.
  - exact I.
  - vm_compute. lia.
  - reflexivity.
Defined.

Lemma cards_show_the_writes_witness :
  Forall (λ c,
    c_index c = click_index (Reject 0) →
    c_status c = Scalar "Rejected"
    ∧ c_kitchen c = Scalar (request_field Sample.worksheet (c_index c) Site)
    ∧ c_employee_name c = Scalar (request_field Sample.worksheet (c_index c) EmployeeName)
    ∧ c_employee_id c = Scalar (request_field Sample.worksheet (c_index c) EmployeeId)
    ∧ c_photo_url c = Scalar (request_field Sample.worksheet (c_index c) PhotoUrl))
    Cases.rejected_cards.
Proof.
  apply Forall_forall. intros c Hc.
  apply (@cards_show_the_writes Sample.library Sample.worksheet Cases.rejected
           "alice" (Reject 0)
           ltac:(reflexivity) ltac:(vm_compute; lia) ltac:(reflexivity)
           ∅ "admin123" "alice" AllRequests "All" "All" "" Cases.rejected_cards c).
  - vm_compute. reflexivity.
  - exact Hc.
Defined.

Lemma submitted_request_is_pending_witness :
  ∃ cards c,
    @admin_dashboard Sample.library ∅ "admin123" "alice" PendingRequests "All" "All" ""
      (sheet (@submit_request Sample.library Sample.time Sample.time Sample.form
                Sample.world0).1) = Some (Shown cards)
    ∧ c ∈ cards
    ∧ c_index c = length (requests (sheet Sample.world0))
    ∧ c_kitchen c = Scalar (kitchen Sample.form)
    ∧ c_employee_name c = Scalar (emp_name Sample.form)
    ∧ c_employee_id c = Scalar (emp_id Sample.form)
    ∧ c_status c = Scalar "Pending"
    ∧ c_photo_url c
      = Scalar (@save_image_to_drive Sample.library Sample.time []
                  (drive Sample.world0)).1
    ∧ c_comments c = "".
Proof.
  apply (@submitted_request_is_pending Sample.library ∅ "admin123" "alice"
           Sample.time Sample.time Sample.form Sample.world0 []);
    (reflexivity || (simpl; congruence)).
Defined.

Lemma views_need_their_columns_witness :
  @tanker_summary Sample.library Cases.unnamed = None
  ∧ @admin_dashboard Sample.library ∅ "admin123" "alice" AllRequests "All" "All" ""
      Cases.unnamed = None.
Proof.
  destruct (@views_need_their_columns Sample.library Cases.unnamed) as [Hdash Hadmin].
  { vm_compute. lia. }
  assert (Hmiss : "Kitchen" ∉ hd [] (get_all_values Cases.unnamed)).
  { apply (bool_decide_eq_false_1
             ("Kitchen" ∈ hd [] (get_all_values Cases.unnamed))).
    vm_compute. reflexivity. }
  split.
  - apply Hdash. by right.
  - apply (Hadmin (or_introl Hmiss) ∅ "admin123" "alice" AllRequests "All" "All" ""
             (Approve 0)). reflexivity.
Defined.

Lemma refused_pattern_raises_witness :
  @admin_dashboard Sample.library ∅ "admin123" "alice" AllRequests "All" "All" "("
    Sample.worksheet = None
  ∧ @admin_click Sample.library ∅ "admin123" "alice" AllRequests "All" "All" "("
      (Approve 0) Sample.worksheet = (Sample.worksheet, None).
Proof.
  apply (@refused_pattern_raises Sample.library ∅ "admin123" "alice" AllRequests
           "All" "All" "(" (Approve 0) Sample.worksheet).
  - reflexivity.
  - vm_compute. lia.
  - apply nonblank_head. reflexivity.
  - reflexivity.
Defined.

Lemma decision_written_before_comments_raise_witness :
  @admin_dashboard Sample.library ∅ "admin123" "alice" PendingRequests "All" "All" ""
    (sheet Cases.bare1) = None
  ∧ 0 < length (requests (sheet Cases.bare1))
  ∧ ∃ s',
      @admin_click Sample.library ∅ "admin123" "alice" PendingRequests "All" "All" ""
        (Approve 0) (sheet Cases.bare1) = (s', None)
      ∧ length (requests s') = length (requests (sheet Cases.bare1))
      ∧ (Approve 0 = Approve 0 ∨ Approve 0 = Reject 0 →
         ∀ row col, cell s' row col
                    = click_cell "alice" (Approve 0) row col
                        (cell (sheet Cases.bare1) row col))
      ∧ (Approve 0 ≠ Approve 0 → Approve 0 ≠ Reject 0 → s' = sheet Cases.bare1).
Proof.
  apply (@decision_written_before_comments_raise Sample.library ∅ "admin123" "alice"
           PendingRequests "All" "All" "" (Approve 0) (sheet Cases.bare1)
           (0, ["2024-01-15 09:30:05"; "WFD01"; "Bob"; "E1";
                "https://drive.google.com/uc?export=view&id=f0"; "Pending"; ""; ""])
           []).
  - reflexivity.
  - vm_compute. reflexivity.
  - intros name Hname. vm_compute.
    repeat (apply elem_of_cons in Hname as [->|Hname];
            [repeat (first [apply list_elem_of_here|apply list_elem_of_further])|]).
    by apply elem_of_nil in Hname.
  - vm_compute. intros Hin.
    repeat (apply elem_of_cons in Hin as [Hin|Hin]; [discriminate Hin|]).
    by apply elem_of_nil in Hin.
Defined.

Lemma reply_without_id_stores_broken_link_witness :
  @submit_request Cases.mute_library Sample.time Sample.time Sample.form Sample.world0
  = ({| sheet := sheet Sample.world0
                 ++ [[strftime "%Y-%m-%d %H:%M:%S" Sample.time; kitchen Sample.form;
                      emp_name Sample.form; emp_id Sample.form;
                      "https://drive.google.com/uc?export=view&id=None";
                      "Pending"; ""; ""]];
        drive := drive Sample.world0 ++ [uploaded Sample.time []] |},
     Success "✅ Request submitted successfully!").
Proof.
  apply (@reply_without_id_stores_broken_link Cases.mute_library Sample.time
           Sample.time Sample.form Sample.world0 []);
    (reflexivity || (simpl; congruence)).
Defined.

Lemma main_keeps_requests_witness :
  keeps (sheet Sample.world1) (sheet Cases.half_approved)
  ∧ drive Sample.world1 `prefix_of` drive Cases.half_approved
  ∧ (quiet true Cases.approve_menu → Cases.half_approved = Sample.world1)
  ∧ (true = false → ∃ text, None = Some (CannotAccess text)).
Proof.
  apply (@main_keeps_requests Sample.library ∅ true Cases.approve_menu
           Sample.world1 (Some 2) Cases.half_approved (Some 0) None).
  vm_compute. reflexivity.
Defined.

(** The run that stores the sample form returns with the notice of
    success. *)
Example main_submits :
  @main Sample.library ∅ true Cases.submit_menu (Sample.world0, None)
  = ((Sample.world1, None), Some Cases.submit_screen).
Proof. vm_compute. reflexivity. Qed.


(** After the run that raised between the upload and [append_row], the
    folder holds two photos and the worksheet one request. *)
Example unrecorded_photo :
  length (drive Cases.unrecorded) = 2 ∧ length (requests (sheet Cases.unrecorded)) = 1.
Proof. split; reflexivity. Qed.

Lemma decided_requests_name_a_reviewer_witness :
  (request_field (sheet Cases.half_approved) 0 Status = "Pending"
   ∧ request_field (sheet Cases.half_approved) 0 Reviewer = "")
  ∨ ((request_field (sheet Cases.half_approved) 0 Status = "Approved"
      ∨ request_field (sheet Cases.half_approved) 0 Status = "Rejected")
     ∧ (request_field (sheet Cases.half_approved) 0 Reviewer = ""
        ∨ nonblank (request_field (sheet Cases.half_approved) 0 Reviewer))).
Proof.
  apply (@decided_requests_name_a_reviewer Sample.library ∅ Cases.half_approved).
  - apply half_approved_reachable.
  - vm_compute. lia.
Defined.

(** After the run that raised between the two writes of "Approve", the
    request is approved and names no reviewer. *)
Example half_written_decision :
  request_field (sheet Cases.half_approved) 0 Status = "Approved"
  ∧ request_field (sheet Cases.half_approved) 0 Reviewer = "".
Proof. split; reflexivity. Qed.

Lemma summary_counts_each_dated_request_once_witness :
  ∃ page,
    @tanker_summary Sample.library Sample.worksheet = Some page
    ∧ sum_list_with snd (table_of page)
      = length (filter is_Some (@timestamps Sample.library Sample.worksheet)).
Proof.
  apply (@summary_counts_each_dated_request_once Sample.library sample_laws
           Sample.worksheet); reflexivity.
Defined.

Lemma bar_chart_shows_purchases_witness :
  ∃ chart,
    @tanker_chart Sample.library Sample.worksheet = Some (Shown chart)
    ∧ NoDup (chart_index chart) ∧ NoDup (chart_columns chart)
    ∧ (∀ label, label ∈ chart_index chart
                ↔ ∃ site y m, label = month_label y m
                              ∧ 0 < @purchases Sample.library Sample.worksheet site y m)
    ∧ (∀ site, site ∈ chart_columns chart
               ↔ ∃ y m, 0 < @purchases Sample.library Sample.worksheet site y m)
    ∧ (∀ i j site y m,
         chart_index chart !! i = Some (month_label y m) →
         chart_columns chart !! j = Some site →
         chart_values chart !! i ≫= (.!! j)
         = Some (@purchases Sample.library Sample.worksheet site y m)).
Proof.
  apply (@bar_chart_shows_purchases Sample.library Sample.worksheet).
  - reflexivity.
  - reflexivity.
  - vm_compute. lia.
Defined.

(** The chart of the sample worksheet: one month, two kitchens. *)
Example bar_chart_sample :
  @tanker_chart Sample.library Sample.worksheet
  = Some (Shown {| chart_index := ["Jan 2024"];
                   chart_columns := ["HSR01"; "WFD01"];
                   chart_values := [[1; 2]] |}).
Proof. vm_compute. reflexivity. Qed.

End MoreRuns.
